(** * Reality-check scoring engine (realityCheck.ts)

    A shallow embedding of the [RealityCheckEngine] class: the five
    analysers, the weighted score, the verdict and the insight rules,
    followed by the properties of the engine that the specification states.
    The functions around the engine are embedded after it: the first
    reality check of the same file, the review and TikTok collectors that
    produce its inputs, and the command line that calls it.

    Conventions of the embedding.
    - A JavaScript number is a [number]: NaN, an infinity or a finite
      rational.  Arithmetic on finite values is exact; the rounding of
      binary64 and the sign of zero are not represented.
    - A JavaScript string is a [string] of bytes; [toLowerCase] folds the
      ASCII letters only.
    - [parseFloat] yields the exact decimal value of the digits it reads,
      where binary64 would round it.
    - [this.ingredientsDatabase] is an argument of the methods that read it:
      [None] before the load has finished, then an object with the keys of
      the built-in data.
    - [console.log] calls are dropped; the clock read by [analyzeProduct]
      is an argument. *)

From Stdlib Require Import Bool List ZArith QArith Qround Lia Lqa.
From Stdlib Require Import Ascii String DecimalString.
From Stdlib Require DecimalNat.
From Stdlib Require Import Permutation.
Import ListNotations.

Local Open Scope Z_scope.

(** ** Strings *)

Module Str.

Local Open Scope string_scope.

Definition lower_char (c : ascii) : ascii :=
  let n := nat_of_ascii c in
  if ((65 <=? n) && (n <=? 90))%nat then ascii_of_nat (n + 32) else c.

(** [String.prototype.toLowerCase] *)
Fixpoint toLowerCase (s : string) : string :=
  match s with
  | EmptyString => EmptyString
  | String c r => String (lower_char c) (toLowerCase r)
  end.

(** [String.prototype.includes] : [sub] occurs somewhere in [s]. *)
Fixpoint includes (s sub : string) : bool :=
  prefix sub s ||
  match s with
  | EmptyString => false
  | String _ r => includes r sub
  end.

(** [Array.prototype.includes] on an array of strings. *)
Definition arr_includes (l : list string) (x : string) : bool :=
  existsb (String.eqb x) l.

(** [Array.prototype.join] *)
Fixpoint join (sep : string) (l : list string) : string :=
  match l with
  | [] => ""
  | [x] => x
  | x :: r => x ++ sep ++ join sep r
  end.

Definition isDigit (c : ascii) : bool :=
  let n := nat_of_ascii c in ((48 <=? n) && (n <=? 57))%nat.

Definition isComma (c : ascii) : bool := Ascii.eqb c ",".

Definition isDigitOrComma (c : ascii) : bool := isDigit c || isComma c.

(** The longest prefix of [s] whose characters satisfy [p], and the rest. *)
Fixpoint span (p : ascii -> bool) (s : string) : string * string :=
  match s with
  | EmptyString => (EmptyString, EmptyString)
  | String c r =>
      if p c then let (a, b) := span p r in (String c a, b)
      else (EmptyString, s)
  end.

Fixpoint filter (p : ascii -> bool) (s : string) : string :=
  match s with
  | EmptyString => EmptyString
  | String c r => if p c then String c (filter p r) else filter p r
  end.

Definition digit_value (c : ascii) : Z := Z.of_nat (nat_of_ascii c) - 48.

(** Value of a run of decimal digits, most significant first. *)
Fixpoint digits_value (acc : Z) (s : string) : Z :=
  match s with
  | EmptyString => acc
  | String c r => digits_value (10 * acc + digit_value c) r
  end.

End Str.

(** ** Numbers *)

Inductive number : Type :=
| NaN
| Infinity (negative : bool)
| Num (q : Q).

Definition ofZ (z : Z) : number := Num (inject_Z z).
Definition ofNat (n : nat) : number := ofZ (Z.of_nat n).

Definition Qlt_b (x y : Q) : bool := negb (Qle_bool y x).
Definition Qzero_b (x : Q) : bool := Qeq_bool x 0%Q.
Definition Qneg_b (x : Q) : bool := Qlt_b x 0%Q.

Module JS.

Definition neg (a : number) : number :=
  match a with
  | NaN => NaN
  | Infinity s => Infinity (negb s)
  | Num x => Num (- x)%Q
  end.

Definition add (a b : number) : number :=
  match a, b with
  | NaN, _ | _, NaN => NaN
  | Infinity s, Infinity t => if Bool.eqb s t then Infinity s else NaN
  | Infinity s, Num _ => Infinity s
  | Num _, Infinity t => Infinity t
  | Num x, Num y => Num (x + y)%Q
  end.

Definition sub (a b : number) : number := add a (neg b).

Definition mul (a b : number) : number :=
  match a, b with
  | NaN, _ | _, NaN => NaN
  | Infinity s, Infinity t => Infinity (xorb s t)
  | Infinity s, Num y => if Qzero_b y then NaN else Infinity (xorb s (Qneg_b y))
  | Num x, Infinity t => if Qzero_b x then NaN else Infinity (xorb (Qneg_b x) t)
  | Num x, Num y => Num (x * y)%Q
  end.

(** Division; a zero divisor is taken as [+0]. *)
Definition div (a b : number) : number :=
  match a, b with
  | NaN, _ | _, NaN => NaN
  | Infinity _, Infinity _ => NaN
  | Infinity s, Num y => Infinity (xorb s (Qneg_b y))
  | Num _, Infinity _ => Num 0%Q
  | Num x, Num y =>
      if Qzero_b y then (if Qzero_b x then NaN else Infinity (Qneg_b x))
      else Num (x / y)%Q
  end.

(** [a <= b]; every comparison with NaN is false. *)
Definition le (a b : number) : bool :=
  match a, b with
  | NaN, _ | _, NaN => false
  | Infinity true, _ => true
  | _, Infinity false => true
  | Infinity false, _ => false
  | _, Infinity true => false
  | Num x, Num y => Qle_bool x y
  end.

Definition lt (a b : number) : bool :=
  match a, b with
  | NaN, _ | _, NaN => false
  | Infinity s, Infinity t => s && negb t
  | Infinity s, Num _ => s
  | Num _, Infinity t => negb t
  | Num x, Num y => Qlt_b x y
  end.

Definition ge (a b : number) : bool := le b a.
Definition gt (a b : number) : bool := lt b a.

(** [Math.max], [Math.min] of two arguments, [Math.round]. *)
Definition max (a b : number) : number :=
  match a, b with
  | NaN, _ | _, NaN => NaN
  | _, _ => if le a b then b else a
  end.

Definition min (a b : number) : number :=
  match a, b with
  | NaN, _ | _, NaN => NaN
  | _, _ => if le a b then a else b
  end.

Definition round (a : number) : number :=
  match a with
  | Num x => ofZ (Qfloor (x + (1 # 2))%Q)
  | _ => a
  end.

(** Truthiness of a number: neither zero nor NaN. *)
Definition truthy (a : number) : bool :=
  match a with
  | NaN => false
  | Infinity _ => true
  | Num x => negb (Qzero_b x)
  end.

(** [parseFloat] on the texts the price pattern can produce: a run of
    digits, then possibly a dot and a second run of digits.  A text without
    any digit is not a number. *)
Definition parseFloat (s : string) : number :=
  let (ip, rest) := Str.span Str.isDigit s in
  let fp := match rest with
            | String "." r => fst (Str.span Str.isDigit r)
            | _ => EmptyString
            end in
  match ip, fp with
  | EmptyString, EmptyString => NaN
  | _, _ =>
      Num (inject_Z (Str.digits_value 0 ip)
           + (Str.digits_value 0 fp # Z.to_pos (10 ^ Z.of_nat (String.length fp))))%Q
  end.

End JS.


(** ** Data model *)

(** Inputs of the engine.  Counters and counts are integers; the fields the
    scrapers leave [null] are options. *)

Module ProductData.
Record Ingredients : Type := { raw : string; parsed : list string }.
Record t : Type := {
  name : string;
  price : string;
  rating : option string;
  reviews : list string;
  ingredients : Ingredients;
  platform : string
}.
End ProductData.

Module TikTokVideoData.
Record t : Type := {
  username : string;
  caption : string;
  hashtags : list string;
  mentions : list string;
  likes : option Z;
  views : option Z;
  comments : option Z;
  shares : option Z;
  affiliate_codes : list string;
  promotional_keywords : list string;
  paid_promotion_detected : bool;
  video_url : string;
  posting_date : option string
}.
End TikTokVideoData.

Record Sentiment : Type := { positive : Z; negative : Z; neutral : Z }.

(** [recent_reviews] and [top_helpful_reviews] hold review objects that the
    engine never reads; they are left out. *)
Module ReviewSummary.
Record t : Type := {
  total_reviews : Z;
  average_rating : option Q;
  sentiment_breakdown : Sentiment;
  common_positives : list string;
  common_negatives : list string
}.
End ReviewSummary.

(** The object held in [this.ingredientsDatabase], with the three keys of
    [getBuiltInIngredientData]. *)
Module IngredientsDatabase.
Record t : Type := {
  beneficial : list string;
  potentially_harmful : list string;
  common_irritants : list string
}.
End IngredientsDatabase.

Inductive Level : Type := high | medium | low.
Inductive Credibility : Type :=
  cred_high | cred_medium | cred_low | cred_unknown.
Inductive BrandRecognition : Type := well_known | emerging | brand_unknown.
Inductive ValueAssessment : Type :=
  excellent | good | fair | poor | value_unknown.
Inductive MarketComparison : Type :=
  below_market | market_rate | above_market | premium.
Inductive Verdict : Type := authentic | suspicious | likely_sponsored.

Record ProductAnalysis : Type := {
  product_name : string;
  platform : string;
  availability_score : number;
  brand_recognition : BrandRecognition;
  price_reasonableness : number
}.

Record SocialAnalysis : Type := {
  has_social_data : bool;
  promotional_detected : bool;
  affiliate_codes_found : nat;
  hashtag_authenticity : number;
  influencer_credibility : Credibility;
  sponsored_content_probability : number
}.

Record OverallIngredientAnalysis : Type := {
  total_ingredients : nat;
  beneficial_ingredients : list string;
  potentially_harmful : list string;
  ingredient_quality_score : number;
  ingredient_authenticity : number
}.

Record ReviewAnalysis : Type := {
  review_count : Z;
  sentiment_distribution : Sentiment;
  review_authenticity_score : number;
  common_concerns : list string;
  review_credibility : Level
}.

Record PriceAnalysis : Type := {
  price_range : string;
  value_assessment : ValueAssessment;
  price_vs_ingredients : number;
  market_comparison : MarketComparison
}.

Record RealityCheckResult : Type := {
  reality_score : number;
  confidence_level : Level;
  overall_verdict : Verdict;
  product_analysis : ProductAnalysis;
  social_analysis : SocialAnalysis;
  ingredient_analysis : OverallIngredientAnalysis;
  review_analysis : ReviewAnalysis;
  price_analysis : PriceAnalysis;
  red_flags : list string;
  green_flags : list string;
  recommendations : list string;
  analysis_timestamp : string;
  data_sources : list string
}.

(** ** The engine *)

Local Open Scope string_scope.
Local Open Scope Z_scope.

Definition num (z : Z) : number := ofZ z.

(** [getBuiltInIngredientData] *)
Definition getBuiltInIngredientData : IngredientsDatabase.t := {|
  IngredientsDatabase.beneficial :=
    ["niacinamide"; "hyaluronic acid"; "vitamin c"; "retinol"; "ceramide";
     "glycerin"; "salicylic acid"; "lactic acid"; "peptides"; "squalane";
     "vitamin e"; "allantoin"; "panthenol"; "zinc oxide"; "titanium dioxide"];
  IngredientsDatabase.potentially_harmful :=
    ["alcohol denat"; "sodium lauryl sulfate"; "formaldehyde"; "parabens";
     "phthalates"; "mineral oil"; "petrolatum"; "artificial fragrance"];
  IngredientsDatabase.common_irritants :=
    ["fragrance"; "essential oils"; "menthol"; "eucalyptus"; "lemon extract"]
|}.

Definition wellKnownBrands : list string :=
  ["cerave"; "the ordinary"; "neutrogena"; "olay"; "clinique"; "l'oreal";
   "nivea"; "aveeno"; "eucerin"; "la roche posay"; "vichy"; "skinceuticals";
   "drunk elephant"; "paula's choice"; "cosrx"; "innisfree"; "laneige"].

(** [price.match(/[\d,]+\.?\d*/)]: the leftmost match, every quantifier
    greedy.  Once one digit or comma is found the rest of the pattern cannot
    fail, so no backtracking takes place. *)
Fixpoint match_price (s : string) : option string :=
  match s with
  | EmptyString => None
  | String c r =>
      if Str.isDigitOrComma c then
        let (run, after) := Str.span Str.isDigitOrComma s in
        match after with
        | String "." after' =>
            Some (run ++ "." ++ fst (Str.span Str.isDigit after'))
        | _ => Some run
        end
      else match_price r
  end.

(** [null] is [None]; a match without digits gives [Some NaN]. *)
Definition extractNumericPrice (price : string) : option number :=
  match match_price price with
  | Some m => Some (JS.parseFloat (Str.filter (fun c => negb (Str.isComma c)) m))
  | None => None
  end.

Definition assessPriceReasonableness (price : string) : number :=
  match extractNumericPrice price with
  | None => num 50
  | Some numericPrice =>
      if JS.le numericPrice (num 15) then num 95
      else if JS.le numericPrice (num 30) then num 85
      else if JS.le numericPrice (num 60) then num 70
      else if JS.le numericPrice (num 100) then num 50
      else num 30
  end.

Definition assessValueForMoney (price ingredientQuality : number)
  : ValueAssessment :=
  let value := JS.div ingredientQuality (JS.div price (num 10)) in
  if JS.ge value (num 8) then excellent
  else if JS.ge value (num 6) then good
  else if JS.ge value (num 4) then fair
  else poor.

Definition compareToMarket (price : number) : MarketComparison :=
  if JS.le price (num 20) then below_market
  else if JS.le price (num 50) then market_rate
  else if JS.le price (num 100) then above_market
  else premium.

Definition calculatePriceIngredientRatio (price qualityScore : number)
  : number :=
  let expectedPrice := JS.mul qualityScore (Num 0.8) in
  let actualVsExpected := JS.div expectedPrice (JS.max price (num 1)) in
  JS.round (JS.max (num 0) (JS.min (num 100) (JS.mul actualVsExpected (num 100)))).

Definition getPriceRange (price : number) : string :=
  if JS.le price (num 15) then "Budget ($0-$15)"
  else if JS.le price (num 30) then "Affordable ($15-$30)"
  else if JS.le price (num 60) then "Mid-range ($30-$60)"
  else if JS.le price (num 100) then "Premium ($60-$100)"
  else "Luxury ($100+)".

Definition spammy : list string :=
  ["ad"; "sponsored"; "promo"; "affiliate"; "linkinbio"].
Definition organic : list string :=
  ["skincare"; "beauty"; "selfcare"; "routine"; "review"].

Definition isSpammy (tag : string) : bool :=
  existsb (fun spam => Str.includes (Str.toLowerCase tag) spam) spammy.
Definition isOrganic (tag : string) : bool :=
  existsb (fun org => Str.includes (Str.toLowerCase tag) org) organic.

Definition calculateHashtagAuthenticity (hashtags : list string) : number :=
  if (List.length hashtags =? 0)%nat then num 75
  else
    let spammyCount := List.length (filter isSpammy hashtags) in
    let organicCount := List.length (filter isOrganic hashtags) in
    if (organicCount <? spammyCount)%nat then num 30
    else if (spammyCount <? organicCount)%nat then num 85
    else num 60.

Definition truthyZ (o : option Z) : bool :=
  match o with
  | Some z => negb (z =? 0)
  | None => false
  end.

Definition valueZ (o : option Z) : number :=
  match o with
  | Some z => ofZ z
  | None => num 0
  end.

Definition assessInfluencerCredibility (socialData : TikTokVideoData.t)
  : Credibility :=
  if truthyZ (TikTokVideoData.likes socialData)
     && truthyZ (TikTokVideoData.views socialData) then
    let engagementRate :=
      JS.div (valueZ (TikTokVideoData.likes socialData))
             (valueZ (TikTokVideoData.views socialData)) in
    if JS.gt engagementRate (Num 0.05) then cred_high
    else if JS.gt engagementRate (Num 0.02) then cred_medium
    else cred_low
  else cred_unknown.

Definition disclosureTags : list string :=
  ["ad"; "sponsored"; "promo"; "affiliate"; "gifted"].

Definition calculateSponsoredProbability (socialData : TikTokVideoData.t)
  : number :=
  let probability := num 0 in
  let probability :=
    if TikTokVideoData.paid_promotion_detected socialData
    then JS.add probability (num 40) else probability in
  let probability :=
    if (0 <? List.length (TikTokVideoData.affiliate_codes socialData))%nat
    then JS.add probability (num 30) else probability in
  let probability :=
    if (0 <? List.length (TikTokVideoData.promotional_keywords socialData))%nat
    then JS.add probability (num 20) else probability in
  let sponsoredHashtags :=
    filter (fun tag => Str.arr_includes disclosureTags (Str.toLowerCase tag))
           (TikTokVideoData.hashtags socialData) in
  let probability :=
    JS.add probability (JS.mul (ofNat (List.length sponsoredHashtags)) (num 10)) in
  JS.min (num 100) probability.

Definition calculateIngredientQualityScore (beneficial harmful total : nat)
  : number :=
  if (total =? 0)%nat then num 0
  else
    let beneficialRatio := JS.div (ofNat beneficial) (ofNat total) in
    let harmfulRatio := JS.div (ofNat harmful) (ofNat total) in
    let score :=
      JS.add (JS.mul beneficialRatio (num 70))
             (JS.mul (JS.sub (num 1) harmfulRatio) (num 30)) in
    let score :=
      if ((0 <? beneficial) && (harmful =? 0))%nat
      then JS.add score (num 10) else score in
    JS.round (JS.max (num 0) (JS.min (num 100) score)).

Definition preservatives : list string :=
  ["phenoxyethanol"; "ethylhexylglycerin"; "benzyl alcohol"].

Definition calculateIngredientAuthenticity
  (ingredients : ProductData.Ingredients) : number :=
  let parsed := ProductData.parsed ingredients in
  let score := num 75 in
  let score :=
    if ((5 <=? List.length parsed) && (List.length parsed <=? 50))%nat
    then JS.add score (num 10) else score in
  let score :=
    match parsed with
    | first :: _ =>
        if negb (String.eqb first "")
           && Str.arr_includes ["water"; "aqua"] (Str.toLowerCase first)
        then JS.add score (num 10) else score
    | [] => score
    end in
  let hasPreservatives :=
    existsb (fun ing => Str.arr_includes preservatives (Str.toLowerCase ing))
            parsed in
  let score := if hasPreservatives then JS.add score (num 5) else score in
  JS.round (JS.max (num 0) (JS.min (num 100) score)).

Definition calculateReviewAuthenticity (sentimentBreakdown : Sentiment)
  : number :=
  let total := positive sentimentBreakdown + negative sentimentBreakdown
               + neutral sentimentBreakdown in
  if total =? 0 then num 50
  else
    let positiveRatio := JS.div (ofZ (positive sentimentBreakdown)) (ofZ total) in
    let negativeRatio := JS.div (ofZ (negative sentimentBreakdown)) (ofZ total) in
    if JS.gt positiveRatio (Num 0.9) || JS.gt negativeRatio (Num 0.8)
    then num 30
    else if JS.ge positiveRatio (Num 0.4) && JS.le positiveRatio (Num 0.8)
            && JS.ge negativeRatio (Num 0.1) && JS.le negativeRatio (Num 0.4)
    then num 85
    else num 60.

Definition assessReviewCredibility (reviewSummary : ReviewSummary.t)
  (authenticityScore : number) : Level :=
  if (20 <=? ReviewSummary.total_reviews reviewSummary)
     && JS.ge authenticityScore (num 70) then high
  else if (5 <=? ReviewSummary.total_reviews reviewSummary)
          && JS.ge authenticityScore (num 50) then medium
  else low.

Section RealityCheckEngine.

(** [this.ingredientsDatabase]: [None] until the asynchronous load started
    by the constructor has stored either the parsed file or the built-in
    data. *)
Variable ingredientsDatabase : option IngredientsDatabase.t.

Definition findBeneficialIngredients (ingredients : list string)
  : list string :=
  match ingredientsDatabase with
  | None => []
  | Some db =>
      filter (fun ingredient =>
                existsb (fun beneficial =>
                           Str.includes (Str.toLowerCase ingredient)
                                        (Str.toLowerCase beneficial))
                        (IngredientsDatabase.beneficial db))
             ingredients
  end.

Definition findHarmfulIngredients (ingredients : list string)
  : list string :=
  match ingredientsDatabase with
  | None => []
  | Some db =>
      filter (fun ingredient =>
                existsb (fun harmful =>
                           Str.includes (Str.toLowerCase ingredient)
                                        (Str.toLowerCase harmful))
                        (IngredientsDatabase.potentially_harmful db))
             ingredients
  end.

Definition analyzeProduct_Internal (productData : ProductData.t)
  : ProductAnalysis :=
  let productNameLower := Str.toLowerCase (ProductData.name productData) in
  let brandRecognition :=
    if existsb (fun brand => Str.includes productNameLower brand)
               wellKnownBrands
    then well_known else brand_unknown in
  let availabilityScore :=
    if String.eqb (ProductData.platform productData) "amazon" then num 90
    else if String.eqb (ProductData.platform productData) "sephora" then num 85
    else if String.eqb (ProductData.platform productData) "oliveyoung" then num 70
    else if String.eqb (ProductData.platform productData) "yesstyle" then num 65
    else num 50 in
  let priceReasonableness :=
    assessPriceReasonableness (ProductData.price productData) in
  {| product_name := ProductData.name productData;
     platform := ProductData.platform productData;
     availability_score := availabilityScore;
     brand_recognition := brandRecognition;
     price_reasonableness := priceReasonableness |}.

Definition analyzeSocialMedia (socialData : option TikTokVideoData.t)
  : SocialAnalysis :=
  match socialData with
  | None =>
      {| has_social_data := false;
         promotional_detected := false;
         affiliate_codes_found := 0;
         hashtag_authenticity := num 50;
         influencer_credibility := cred_unknown;
         sponsored_content_probability := num 0 |}
  | Some socialData =>
      let hashtagAuthenticityScore :=
        calculateHashtagAuthenticity (TikTokVideoData.hashtags socialData) in
      let influencerCredibility := assessInfluencerCredibility socialData in
      let sponsoredProbability := calculateSponsoredProbability socialData in
      {| has_social_data := true;
         promotional_detected :=
           TikTokVideoData.paid_promotion_detected socialData;
         affiliate_codes_found :=
           List.length (TikTokVideoData.affiliate_codes socialData);
         hashtag_authenticity := hashtagAuthenticityScore;
         influencer_credibility := influencerCredibility;
         sponsored_content_probability := sponsoredProbability |}
  end.

Definition analyzeIngredients (ingredients : ProductData.Ingredients)
  : OverallIngredientAnalysis :=
  if (List.length (ProductData.parsed ingredients) =? 0)%nat then
    {| total_ingredients := 0;
       beneficial_ingredients := [];
       potentially_harmful := [];
       ingredient_quality_score := num 0;
       ingredient_authenticity := num 50 |}
  else
    let beneficial := findBeneficialIngredients (ProductData.parsed ingredients) in
    let harmful := findHarmfulIngredients (ProductData.parsed ingredients) in
    let qualityScore :=
      calculateIngredientQualityScore
        (List.length beneficial) (List.length harmful)
        (List.length (ProductData.parsed ingredients)) in
    let authenticity := calculateIngredientAuthenticity ingredients in
    {| total_ingredients := List.length (ProductData.parsed ingredients);
       beneficial_ingredients := beneficial;
       potentially_harmful := harmful;
       ingredient_quality_score := qualityScore;
       ingredient_authenticity := authenticity |}.

Definition noReviews : ReviewAnalysis :=
  {| review_count := 0;
     sentiment_distribution := {| positive := 0; negative := 0; neutral := 0 |};
     review_authenticity_score := num 50;
     common_concerns := [];
     review_credibility := low |}.

Definition analyzeReviews (reviewSummary : option ReviewSummary.t)
  : ReviewAnalysis :=
  match reviewSummary with
  | None => noReviews
  | Some reviewSummary =>
      if ReviewSummary.total_reviews reviewSummary =? 0 then noReviews
      else
        let authenticityScore :=
          calculateReviewAuthenticity
            (ReviewSummary.sentiment_breakdown reviewSummary) in
        let credibility :=
          assessReviewCredibility reviewSummary authenticityScore in
        {| review_count := ReviewSummary.total_reviews reviewSummary;
           sentiment_distribution :=
             ReviewSummary.sentiment_breakdown reviewSummary;
           review_authenticity_score := authenticityScore;
           common_concerns := ReviewSummary.common_negatives reviewSummary;
           review_credibility := credibility |}
  end.

Definition analyzePrice (price : string) (ingredientQualityScore : number)
  : PriceAnalysis :=
  match extractNumericPrice price with
  | None =>
      {| price_range := price;
         value_assessment := value_unknown;
         price_vs_ingredients := num 50;
         market_comparison := market_rate |}
  | Some numericPrice =>
      let valueAssessment :=
        assessValueForMoney numericPrice ingredientQualityScore in
      let marketComparison := compareToMarket numericPrice in
      let priceVsIngredients :=
        calculatePriceIngredientRatio numericPrice ingredientQualityScore in
      {| price_range := getPriceRange numericPrice;
         value_assessment := valueAssessment;
         price_vs_ingredients := priceVsIngredients;
         market_comparison := marketComparison |}
  end.

Definition weight_product : number := Num 0.2.
Definition weight_social : number := Num 0.3.
Definition weight_ingredient : number := Num 0.25.
Definition weight_review : number := Num 0.15.
Definition weight_price : number := Num 0.1.

(** The component scores are the local constants of
    [calculateOverallScore]. *)
Definition productScore (product : ProductAnalysis) : number :=
  JS.div (JS.add (availability_score product) (price_reasonableness product))
         (num 2).

Definition socialScore (social : SocialAnalysis) : number :=
  if has_social_data social then
    JS.div (JS.add (JS.sub (num 100) (sponsored_content_probability social))
                   (hashtag_authenticity social))
           (num 2)
  else num 75.

Definition ingredientScore (ingredient : OverallIngredientAnalysis) : number :=
  JS.div (JS.add (ingredient_quality_score ingredient)
                 (ingredient_authenticity ingredient))
         (num 2).

Definition reviewScore (review : ReviewAnalysis) : number :=
  if 0 <? review_count review then review_authenticity_score review
  else num 75.

Definition priceScore (price : PriceAnalysis) : number :=
  price_vs_ingredients price.

Definition weightedSum (p s i r c : number) : number :=
  JS.add (JS.add (JS.add (JS.add (JS.mul p weight_product)
                                 (JS.mul s weight_social))
                         (JS.mul i weight_ingredient))
                 (JS.mul r weight_review))
         (JS.mul c weight_price).

Definition calculateOverallScore
  (product : ProductAnalysis) (social : SocialAnalysis)
  (ingredient : OverallIngredientAnalysis) (review : ReviewAnalysis)
  (price : PriceAnalysis) : number :=
  let overallScore :=
    weightedSum (productScore product) (socialScore social)
                (ingredientScore ingredient) (reviewScore review)
                (priceScore price) in
  JS.round (JS.max (num 0) (JS.min (num 100) overallScore)).

Definition determineVerdict (realityScore : number)
  (socialAnalysis : SocialAnalysis) : Level * Verdict :=
  let verdict :=
    if promotional_detected socialAnalysis
       || JS.gt (sponsored_content_probability socialAnalysis) (num 70)
    then likely_sponsored
    else if JS.ge realityScore (num 70) then authentic
    else suspicious in
  let confidenceLevel :=
    if has_social_data socialAnalysis && JS.gt realityScore (num 80) then high
    else if has_social_data socialAnalysis || JS.gt realityScore (num 60)
    then medium
    else low in
  (confidenceLevel, verdict).

Definition push_if (c : bool) (x : string) (l : list string) : list string :=
  if c then (l ++ [x])%list else l.

Definition string_of_nat (n : nat) : string :=
  NilEmpty.string_of_uint (Nat.to_uint n).

Record Insights : Type := {
  redFlags : list string;
  greenFlags : list string;
  recommendations_ : list string
}.

Definition generateInsights
  (product : ProductAnalysis) (social : SocialAnalysis)
  (ingredient : OverallIngredientAnalysis) (review : ReviewAnalysis)
  (price : PriceAnalysis) : Insights :=
  let redFlags := [] in
  let redFlags :=
    push_if (promotional_detected social)
      "Sponsored content detected - may be biased promotion" redFlags in
  let redFlags :=
    push_if (0 <? affiliate_codes_found social)%nat
      (string_of_nat (affiliate_codes_found social)
       ++ " affiliate codes found - financial incentive present") redFlags in
  let redFlags :=
    push_if (0 <? List.length (potentially_harmful ingredient))%nat
      ("Contains potentially irritating ingredients: "
       ++ Str.join ", " (potentially_harmful ingredient)) redFlags in
  let redFlags :=
    push_if (JS.lt (review_authenticity_score review) (num 50))
      "Review patterns suggest possible fake reviews" redFlags in
  let redFlags :=
    push_if (match value_assessment price with poor => true | _ => false end)
      "Poor value for money - high price relative to ingredient quality"
      redFlags in
  let greenFlags := [] in
  let greenFlags :=
    push_if (negb (promotional_detected social) && has_social_data social)
      "No promotional content detected - likely genuine recommendation"
      greenFlags in
  let greenFlags :=
    push_if (0 <? List.length (beneficial_ingredients ingredient))%nat
      ("Contains beneficial ingredients: "
       ++ Str.join ", " (beneficial_ingredients ingredient)) greenFlags in
  let greenFlags :=
    push_if (match brand_recognition product with
             | well_known => true | _ => false end)
      "Product from well-established brand" greenFlags in
  let greenFlags :=
    push_if (match review_credibility review with
             | high => true | _ => false end)
      "Reviews appear authentic and credible" greenFlags in
  let greenFlags :=
    push_if (match value_assessment price with
             | excellent | good => true | _ => false end)
      "Good value for money based on ingredient quality" greenFlags in
  let recommendations := [] in
  let recommendations :=
    push_if (promotional_detected social)
      "Research product independently before purchasing - sponsored content detected"
      recommendations in
  let recommendations :=
    push_if (0 <? List.length (potentially_harmful ingredient))%nat
      "Patch test recommended due to potentially irritating ingredients"
      recommendations in
  let recommendations :=
    push_if (review_count review <? 10)
      "Look for more reviews from multiple sources before deciding"
      recommendations in
  let recommendations :=
    push_if (match market_comparison price with
             | premium => true | _ => false end)
      "Consider if premium price is justified by your specific skincare needs"
      recommendations in
  {| redFlags := redFlags;
     greenFlags := greenFlags;
     recommendations_ := recommendations |}.

Definition getDataSources (productData : ProductData.t)
  (socialData : option TikTokVideoData.t)
  (reviewSummary : option ReviewSummary.t) : list string :=
  let sources := [ProductData.platform productData] in
  let sources :=
    match socialData with
    | Some _ => (sources ++ ["tiktok"])%list
    | None => sources
    end in
  let sources :=
    match reviewSummary with
    | Some r =>
        if 0 <? ReviewSummary.total_reviews r then (sources ++ ["reviews"])%list
        else sources
    | None => sources
    end in
  sources.

(** [now] stands for [new Date().toISOString()]. *)
Definition analyzeProduct (productData : ProductData.t)
  (socialData : option TikTokVideoData.t)
  (reviewSummary : option ReviewSummary.t) (now : string)
  : RealityCheckResult :=
  let productAnalysis := analyzeProduct_Internal productData in
  let socialAnalysis := analyzeSocialMedia socialData in
  let ingredientAnalysis :=
    analyzeIngredients (ProductData.ingredients productData) in
  let reviewAnalysis := analyzeReviews reviewSummary in
  let priceAnalysis :=
    analyzePrice (ProductData.price productData)
                 (ingredient_quality_score ingredientAnalysis) in
  let realityScore :=
    calculateOverallScore productAnalysis socialAnalysis ingredientAnalysis
                          reviewAnalysis priceAnalysis in
  let '(confidenceLevel, verdict) :=
    determineVerdict realityScore socialAnalysis in
  let insights :=
    generateInsights productAnalysis socialAnalysis ingredientAnalysis
                     reviewAnalysis priceAnalysis in
  {| reality_score := realityScore;
     confidence_level := confidenceLevel;
     overall_verdict := verdict;
     product_analysis := productAnalysis;
     social_analysis := socialAnalysis;
     ingredient_analysis := ingredientAnalysis;
     review_analysis := reviewAnalysis;
     price_analysis := priceAnalysis;
     red_flags := redFlags insights;
     green_flags := greenFlags insights;
     recommendations := recommendations_ insights;
     analysis_timestamp := now;
     data_sources := getDataSources productData socialData reviewSummary |}.

End RealityCheckEngine.


(** ** Vocabulary of the properties *)

Definition finite (a : number) : Prop := exists q, a = Num q.

(** [a] is a number of the scale 0-100. *)
Definition in_0_100 (a : number) : Prop :=
  JS.le (num 0) a = true /\ JS.le a (num 100) = true.

(** [a] is an integer of the scale 0-100. *)
Definition score_0_100 (a : number) : Prop :=
  exists z, a = ofZ z /\ 0 <= z <= 100.

Abbreviation clamp a := (JS.round (JS.max (num 0) (JS.min (num 100) a))).

(** The value of the clamp-and-round idiom on a finite number. *)
Definition clampZ (q : Q) : Z :=
  Qfloor ((if Qle_bool 100 q then 100 else if Qle_bool 0 q then q else 0)
          + (1 # 2))%Q.

(** ** Inputs used as examples *)

Module Examples.

Definition product (price : string) (parsed : list string) : ProductData.t :=
  {| ProductData.name := "Daily Moisturizing Lotion";
     ProductData.price := price;
     ProductData.rating := None;
     ProductData.reviews := [];
     ProductData.ingredients :=
       {| ProductData.raw := Str.join ", " parsed;
          ProductData.parsed := parsed |};
     ProductData.platform := "amazon" |}.

Definition social (hashtags codes keywords : list string) (paid : bool)
  : TikTokVideoData.t :=
  {| TikTokVideoData.username := "beauty_influencer";
     TikTokVideoData.caption := "";
     TikTokVideoData.hashtags := hashtags;
     TikTokVideoData.mentions := [];
     TikTokVideoData.likes := None;
     TikTokVideoData.views := None;
     TikTokVideoData.comments := None;
     TikTokVideoData.shares := None;
     TikTokVideoData.affiliate_codes := codes;
     TikTokVideoData.promotional_keywords := keywords;
     TikTokVideoData.paid_promotion_detected := paid;
     TikTokVideoData.video_url := "";
     TikTokVideoData.posting_date := None |}.

Definition summary (total pos neg neu : Z) : ReviewSummary.t :=
  {| ReviewSummary.total_reviews := total;
     ReviewSummary.average_rating := None;
     ReviewSummary.sentiment_breakdown :=
       {| positive := pos; negative := neg; neutral := neu |};
     ReviewSummary.common_positives := [];
     ReviewSummary.common_negatives := ["sticky feeling"] |}.

(** Scenario 1: three ingredients, price "$15". *)
Definition scenario1 : ProductData.t :=
  product "$15" ["water"; "niacinamide"; "glycerin"].

(** Scenario 2: a disclosed promotion. *)
Definition scenario2 : TikTokVideoData.t :=
  social ["ad"; "sponsored"; "skincare"] ["GLOW20"] [] true.

(** A post without hashtags. *)
Definition no_hashtags : TikTokVideoData.t := social [] [] [] false.

(** A price text with a comma and no digit. *)
Definition unavailable : ProductData.t :=
  product "Sorry, unavailable" ["water"; "niacinamide"; "glycerin"].

(** A price between the tiers of the two price mappings. *)
Definition eighteen : ProductData.t := product "$18" ["water"].

(** A summary whose count is zero although its breakdown is not. *)
Definition zero_total : ReviewSummary.t := summary 0 5 2 3.

(** A summary whose breakdown is empty although its count is not. *)
Definition empty_breakdown : ReviewSummary.t := summary 5 0 0 0.

Definition timestamp : string := "2024-01-15T00:00:00.000Z".

End Examples.

(** ** The rules as the specification words them *)

(** Hashtag authenticity by the two counts alone. *)
Definition hashtag_rule (hashtags : list string) : number :=
  let spammyCount := List.length (filter isSpammy hashtags) in
  let organicCount := List.length (filter isOrganic hashtags) in
  if (organicCount <? spammyCount)%nat then num 30
  else if (spammyCount <? organicCount)%nat then num 85
  else num 60.

(** The number of hashtags that are one of the five disclosure words:
    the occurrences of each word, added up. *)
Definition disclosureCount (hashtags : list string) : nat :=
  list_sum (map (count_occ string_dec (map Str.toLowerCase hashtags))
                disclosureTags).

(** The additive sponsored probability, capped at 100. *)
Definition sponsored_formula (sd : TikTokVideoData.t) : Z :=
  Z.min 100
    ((if TikTokVideoData.paid_promotion_detected sd then 40 else 0)
     + (match TikTokVideoData.affiliate_codes sd with [] => 0 | _ => 30 end)
     + (match TikTokVideoData.promotional_keywords sd with [] => 0 | _ => 20 end)
     + 10 * Z.of_nat (disclosureCount (TikTokVideoData.hashtags sd))).

(** The quality score of scenario 1 as the specification computes it:
    two beneficial ingredients of three, none harmful, no bonus. *)
Definition scenario1_quality_without_bonus : number :=
  JS.round (Num ((2 # 3) * 70 + 1 * 30)).

(** The market tiers as the specification lists them. *)
Definition market_tiers_15_30_100 (p : Q) : MarketComparison :=
  if Qle_bool p 15 then below_market
  else if Qle_bool p 30 then market_rate
  else if Qle_bool p 100 then above_market
  else premium.

(** The ratios of a breakdown over its own total (0 when the total is 0). *)
Definition positive_ratio (sb : Sentiment) : Q :=
  inject_Z (positive sb) / inject_Z (positive sb + negative sb + neutral sb).
Definition negative_ratio (sb : Sentiment) : Q :=
  inject_Z (negative sb) / inject_Z (positive sb + negative sb + neutral sb).

Definition one_sided (sb : Sentiment) : Prop :=
  (0.9 < positive_ratio sb)%Q \/ (0.8 < negative_ratio sb)%Q.

Definition natural_spread (sb : Sentiment) : Prop :=
  (0.4 <= positive_ratio sb <= 0.8)%Q /\ (0.1 <= negative_ratio sb <= 0.4)%Q.

(** Review authenticity by the two ratios alone. *)
Definition review_rule (sb : Sentiment) : number :=
  if Qlt_b 0.9 (positive_ratio sb) || Qlt_b 0.8 (negative_ratio sb)
  then num 30
  else if Qle_bool 0.4 (positive_ratio sb) && Qle_bool (positive_ratio sb) 0.8
          && Qle_bool 0.1 (negative_ratio sb)
          && Qle_bool (negative_ratio sb) 0.4
  then num 85
  else num 60.

(** The credibility conditions. *)
Definition credibility_high (n : Z) (score : number) : Prop :=
  20 <= n /\ JS.ge score (num 70) = true.
Definition credibility_medium (n : Z) (score : number) : Prop :=
  5 <= n /\ JS.ge score (num 50) = true.

(** The price analysis documented for a price text without a number. *)
Definition unknownPrice (price : string) : PriceAnalysis :=
  {| price_range := price;
     value_assessment := value_unknown;
     price_vs_ingredients := num 50;
     market_comparison := market_rate |}.

(** The numeric sub-scores of a result, with their names. *)
Definition sub_scores (res : RealityCheckResult) : list (string * number) :=
  [("availability_score", availability_score (product_analysis res));
   ("price_reasonableness", price_reasonableness (product_analysis res));
   ("hashtag_authenticity", hashtag_authenticity (social_analysis res));
   ("sponsored_content_probability",
    sponsored_content_probability (social_analysis res));
   ("ingredient_quality_score",
    ingredient_quality_score (ingredient_analysis res));
   ("ingredient_authenticity",
    ingredient_authenticity (ingredient_analysis res));
   ("review_authenticity_score",
    review_authenticity_score (review_analysis res));
   ("price_vs_ingredients", price_vs_ingredients (price_analysis res))].

(** The weighted sum as the specification words it, written out over the
    fields of a result: the product, social, ingredient, review and price
    components at the weights 0.2, 0.3, 0.25, 0.15 and 0.1, clamped to
    0..100 and rounded.  The review component is left open. *)
Definition scoreWithReviewComponent (res : RealityCheckResult)
  (reviewComponent : number) : number :=
  let productComponent :=
    JS.div (JS.add (availability_score (product_analysis res))
                   (price_reasonableness (product_analysis res)))
           (num 2) in
  let socialComponent :=
    if has_social_data (social_analysis res) then
      JS.div (JS.add (JS.sub (num 100)
                             (sponsored_content_probability
                                (social_analysis res)))
                     (hashtag_authenticity (social_analysis res)))
             (num 2)
    else num 75 in
  let ingredientComponent :=
    JS.div (JS.add (ingredient_quality_score (ingredient_analysis res))
                   (ingredient_authenticity (ingredient_analysis res)))
           (num 2) in
  let priceComponent := price_vs_ingredients (price_analysis res) in
  JS.round
    (JS.max (num 0)
       (JS.min (num 100)
          (JS.add
             (JS.add
                (JS.add
                   (JS.add (JS.mul productComponent (Num 0.2))
                           (JS.mul socialComponent (Num 0.3)))
                   (JS.mul ingredientComponent (Num 0.25)))
                (JS.mul reviewComponent (Num 0.15)))
             (JS.mul priceComponent (Num 0.1))))).

(** The otherwise-identical record of the monotonicity property: flag
    cleared, no affiliate code, spammy hashtags removed. *)
Definition withoutPromotion (sd : TikTokVideoData.t) : TikTokVideoData.t :=
  {| TikTokVideoData.username := TikTokVideoData.username sd;
     TikTokVideoData.caption := TikTokVideoData.caption sd;
     TikTokVideoData.hashtags :=
       filter (fun tag => negb (isSpammy tag)) (TikTokVideoData.hashtags sd);
     TikTokVideoData.mentions := TikTokVideoData.mentions sd;
     TikTokVideoData.likes := TikTokVideoData.likes sd;
     TikTokVideoData.views := TikTokVideoData.views sd;
     TikTokVideoData.comments := TikTokVideoData.comments sd;
     TikTokVideoData.shares := TikTokVideoData.shares sd;
     TikTokVideoData.affiliate_codes := [];
     TikTokVideoData.promotional_keywords :=
       TikTokVideoData.promotional_keywords sd;
     TikTokVideoData.paid_promotion_detected := false;
     TikTokVideoData.video_url := TikTokVideoData.video_url sd;
     TikTokVideoData.posting_date := TikTokVideoData.posting_date sd |}.

(** The condition of the "likely_sponsored" verdict. *)
Definition sponsored_signal (s : SocialAnalysis) : Prop :=
  promotional_detected s = true
  \/ JS.gt (sponsored_content_probability s) (num 70) = true.

(** ** Vocabulary of the further properties *)

(** Every character of [s] satisfies [p]. *)
Fixpoint all_chars (p : ascii -> bool) (s : string) : bool :=
  match s with
  | EmptyString => true
  | String c r => p c && all_chars p r
  end.

(** [s] begins with a character that satisfies [p]. *)
Definition starts_with (p : ascii -> bool) (s : string) : bool :=
  match s with
  | EmptyString => false
  | String c _ => p c
  end.

Definition notDigitOrComma (c : ascii) : bool := negb (Str.isDigitOrComma c).

(** The characters that extend a match of the price pattern. *)
Definition extendsNumber (c : ascii) : bool :=
  Str.isDigitOrComma c || Ascii.eqb c ".".

(** Integers below [2^53] are exact in binary64. *)
Definition exact_integer (n : nat) : Prop := Z.of_nat n < 2 ^ 53.

(** The price that [calculatePriceIngredientRatio] divides by. *)
Definition billedPrice (p : Q) : Q := if Qle_bool p 1 then 1 else p.

(** The ratio of expected to actual price, in percent, before clamping. *)
Definition priceRatio (p q : Q) : Q := (q * 0.8 / billedPrice p * 100)%Q.

(** [a] is an integer between [lo] and [hi]. *)
Definition score_between (lo hi : Z) (a : number) : Prop :=
  exists z, a = ofZ z /\ lo <= z <= hi.

(** [a] is a finite number between [lo] and [hi]. *)
Definition value_between (lo hi : Q) (a : number) : Prop :=
  exists x, a = Num x /\ (lo <= x <= hi)%Q.

(** Four of the texts that [generateInsights] pushes. *)
Module Insight.
Definition sponsored_red : string :=
  "Sponsored content detected - may be biased promotion".
Definition fake_reviews_red : string :=
  "Review patterns suggest possible fake reviews".
Definition genuine_green : string :=
  "No promotional content detected - likely genuine recommendation".
Definition research_recommendation : string :=
  "Research product independently before purchasing - sponsored content detected".
Definition more_reviews_recommendation : string :=
  "Look for more reviews from multiple sources before deciding".
End Insight.

(** A record that is not flagged and yet full of promotion signals. *)
Definition Examples_unflagged_promotion : TikTokVideoData.t :=
  Examples.social ["ad"; "sponsored"; "promo"] ["GLOW20"] ["discount"] false.

(** A record with other engagement counters. *)
Definition withEngagement (sd : TikTokVideoData.t)
  (likes views comments shares : option Z) : TikTokVideoData.t :=
  {| TikTokVideoData.username := TikTokVideoData.username sd;
     TikTokVideoData.caption := TikTokVideoData.caption sd;
     TikTokVideoData.hashtags := TikTokVideoData.hashtags sd;
     TikTokVideoData.mentions := TikTokVideoData.mentions sd;
     TikTokVideoData.likes := likes;
     TikTokVideoData.views := views;
     TikTokVideoData.comments := comments;
     TikTokVideoData.shares := shares;
     TikTokVideoData.affiliate_codes := TikTokVideoData.affiliate_codes sd;
     TikTokVideoData.promotional_keywords :=
       TikTokVideoData.promotional_keywords sd;
     TikTokVideoData.paid_promotion_detected :=
       TikTokVideoData.paid_promotion_detected sd;
     TikTokVideoData.video_url := TikTokVideoData.video_url sd;
     TikTokVideoData.posting_date := TikTokVideoData.posting_date sd |}.

(** A social analysis without its credibility field. *)
Definition withoutCredibility (a : SocialAnalysis)
  : bool * bool * nat * number * number :=
  (has_social_data a, promotional_detected a, affiliate_codes_found a,
   hashtag_authenticity a, sponsored_content_probability a).

(** ** The first reality check (runRealityCheck)

    The module-level functions of realityCheck.ts that score a product
    against a user profile.  The profile and the flagged ingredients come
    from JSON, so their enumerated fields are strings. *)

Module Legacy.

Record UserProfile : Type := {
  skin_type : string;
  concerns : list string;
  age_range : option string;
  allergies : option (list string)
}.

Record IngredientAnalysis : Type := {
  name : string;
  issue : string;
  severity : string;
  recommendation : option string
}.

Definition calculateMatchScore (flaggedIngredients : list IngredientAnalysis)
  (totalIngredients : nat) (userProfile : UserProfile) : number :=
  if (totalIngredients =? 0)%nat then num 0
  else
    let score :=
      fold_left
        (fun score flagged =>
           let penalty :=
             if String.eqb (severity flagged) "high" then num 25
             else if String.eqb (severity flagged) "medium" then num 15
             else if String.eqb (severity flagged) "low" then num 5
             else num 0 in
           let penalty :=
             if String.eqb (skin_type userProfile) "sensitive"
             then JS.mul penalty (Num 1.5) else penalty in
           JS.sub score penalty)
        flaggedIngredients (num 100) in
    JS.max (num 0) (JS.round score).

Definition promoKeywords : list string :=
  ["ad"; "sponsored"; "discount"; "code"; "link"; "affiliate"].

(** [rating] is [None] for [null]. *)
Definition calculateTrustScore (handle : string) (productPrice : number)
  (rating : option number) : number :=
  let trustScore := num 100 in
  let trustScore :=
    if negb (String.eqb handle "") then
      let hasPromoLanguage :=
        existsb (fun keyword => Str.includes (Str.toLowerCase handle) keyword)
                promoKeywords in
      if hasPromoLanguage then JS.sub trustScore (num 30)
      else JS.sub trustScore (num 15)
    else trustScore in
  let trustScore :=
    if JS.gt productPrice (num 0) then
      if JS.lt productPrice (num 5) then JS.sub trustScore (num 10)
      else if JS.gt productPrice (num 100) then JS.add trustScore (num 5)
      else trustScore
    else trustScore in
  let trustScore :=
    match rating with
    | Some rating =>
        if JS.lt rating (num 3) then JS.sub trustScore (num 25)
        else if JS.gt rating (Num 4.5) then JS.add trustScore (num 10)
        else trustScore
    | None => trustScore
    end in
  JS.max (num 0) (JS.min (num 100) (JS.round trustScore)).

(** The flagged ingredients of one severity. *)
Definition countSeverity (s : string) (flagged : list IngredientAnalysis) : Z :=
  Z.of_nat (List.length (filter (fun f => String.eqb (severity f) s) flagged)).

End Legacy.

(** Twice the penalty of a flagged ingredient. *)
Definition doublePenalty (sensitive : bool) (f : Legacy.IngredientAnalysis) : Z :=
  let base :=
    if String.eqb (Legacy.severity f) "high" then 50
    else if String.eqb (Legacy.severity f) "medium" then 30
    else if String.eqb (Legacy.severity f) "low" then 10
    else 0 in
  if sensitive then base * 3 / 2 else base.

Definition doublePenalties (sensitive : bool)
  (flagged : list Legacy.IngredientAnalysis) : Z :=
  fold_right (fun f acc => doublePenalty sensitive f + acc) 0 flagged.

(** ** The review collector (scrapeReviews.js)

    The functions that turn scraped reviews into the summary the engine
    reads.  A processed review is kept by the fields these functions read;
    a rating is [null] or the number read from the digits of a star label,
    hence finite. *)

Module Reviews.

Local Open Scope string_scope.

Record Review : Type := {
  rating : option Q;
  content : string;
  sentiment : string;
  key_phrases : list string
}.

Definition positiveKeywords : list string :=
  ["love"; "amazing"; "great"; "excellent"; "recommend"; "best"; "good";
   "works"; "effective"].

Definition negativeKeywords : list string :=
  ["hate"; "terrible"; "awful"; "bad"; "broke out"; "irritating"; "allergic";
   "waste"].

(** The counter of a [forEach] over [keywords]. *)
Definition keywordScore (lowerContent : string) (keywords : list string)
  : nat :=
  fold_left (fun score keyword =>
               if Str.includes lowerContent keyword then S score else score)
            keywords 0%nat.

Definition analyzeSentiment (content : string) (rating : option Q) : string :=
  match rating with
  | Some rating =>
      if Qle_bool 4 rating then "positive"
      else if Qle_bool rating 2 then "negative"
      else "neutral"
  | None =>
      let lowerContent := Str.toLowerCase content in
      let positiveScore := keywordScore lowerContent positiveKeywords in
      let negativeScore := keywordScore lowerContent negativeKeywords in
      if (negativeScore <? positiveScore)%nat then "positive"
      else if (positiveScore <? negativeScore)%nat then "negative"
      else "neutral"
  end.

Definition skinCareKeywords : list string :=
  ["moisturizing"; "hydrating"; "drying"; "irritating"; "gentle"; "harsh";
   "breaking out"; "acne"; "sensitive skin"; "oily skin"; "dry skin";
   "absorption"; "texture"; "scent"; "results"; "glow"].

Definition extractKeyPhrases (content : string) : list string :=
  let lowerContent := Str.toLowerCase content in
  filter (fun phrase => Str.includes lowerContent phrase) skinCareKeywords.

(** The review object built by [scrapeSephoraReviews] (with the rating of
    the star label, if any) and by [scrapeRedditReviews] (without rating). *)
Definition processReview (raw : option Q * string) : Review :=
  {| rating := fst raw;
     content := snd raw;
     sentiment := analyzeSentiment (snd raw) (fst raw);
     key_phrases := extractKeyPhrases (snd raw) |}.

(** [phraseCount.set(phrase, (phraseCount.get(phrase) || 0) + 1)] on a Map,
    kept as the list of its entries in insertion order. *)
Fixpoint bump (phrase : string) (m : list (string * nat))
  : list (string * nat) :=
  match m with
  | [] => [(phrase, 1%nat)]
  | (k, c) :: m' =>
      if String.eqb k phrase then (k, S c) :: m'
      else (k, c) :: bump phrase m'
  end.

(** [sort((a, b) => b[1] - a[1])]: by count, largest first, entries of
    equal count in their former order. *)
Fixpoint insertByCount (x : string * nat) (l : list (string * nat))
  : list (string * nat) :=
  match l with
  | [] => [x]
  | y :: l' =>
      if (snd y <=? snd x)%nat then x :: l else y :: insertByCount x l'
  end.

Definition sortByCount (l : list (string * nat)) : list (string * nat) :=
  fold_right insertByCount [] l.

Definition extractCommonPhrases (reviews : list Review) : list string :=
  let allPhrases := flat_map key_phrases reviews in
  let phraseCount := fold_left (fun m phrase => bump phrase m) allPhrases [] in
  firstn 10
    (map fst
       (sortByCount (filter (fun e => (2 <=? snd e)%nat) phraseCount))).

Definition hasSentiment (s : string) (r : Review) : bool :=
  String.eqb (sentiment r) s.

(** The summary: the five fields the engine reads, and the two slices of
    the reviews. *)
Record Summary : Type := {
  engine_fields : ReviewSummary.t;
  recent_reviews : list Review;
  top_helpful_reviews : list Review
}.

Definition generateReviewSummary (reviews : list Review) : Summary :=
  match reviews with
  | [] =>
      {| engine_fields :=
           {| ReviewSummary.total_reviews := 0;
              ReviewSummary.average_rating := None;
              ReviewSummary.sentiment_breakdown :=
                {| positive := 0; negative := 0; neutral := 0 |};
              ReviewSummary.common_positives := [];
              ReviewSummary.common_negatives := [] |};
         recent_reviews := [];
         top_helpful_reviews := [] |}
  | _ =>
      let ratingsWithValues :=
        filter (fun r => match rating r with Some _ => true | None => false end)
               reviews in
      let average_rating :=
        if (0 <? List.length ratingsWithValues)%nat then
          Some (fold_left
                  (fun sum r =>
                     sum + match rating r with
                           | Some q => if Qzero_b q then 0 else q
                           | None => 0
                           end)
                  ratingsWithValues 0
                / inject_Z (Z.of_nat (List.length ratingsWithValues)))%Q
        else None in
      let sentiment_breakdown :=
        {| positive :=
             Z.of_nat (List.length (filter (hasSentiment "positive") reviews));
           negative :=
             Z.of_nat (List.length (filter (hasSentiment "negative") reviews));
           neutral :=
             Z.of_nat (List.length (filter (hasSentiment "neutral") reviews))
        |} in
      let positiveReviews := filter (hasSentiment "positive") reviews in
      let negativeReviews := filter (hasSentiment "negative") reviews in
      let common_positives := extractCommonPhrases positiveReviews in
      let common_negatives := extractCommonPhrases negativeReviews in
      {| engine_fields :=
           {| ReviewSummary.total_reviews := Z.of_nat (List.length reviews);
              ReviewSummary.average_rating := average_rating;
              ReviewSummary.sentiment_breakdown := sentiment_breakdown;
              ReviewSummary.common_positives := common_positives;
              ReviewSummary.common_negatives := common_negatives |};
         recent_reviews := skipn (List.length reviews - 5) reviews;
         top_helpful_reviews := firstn 5 reviews |}
  end.

End Reviews.

(** The summary the engine receives for a list of scraped reviews. *)
Definition summaryOf (raw : list (option Q * string)) : ReviewSummary.t :=
  Reviews.engine_fields
    (Reviews.generateReviewSummary (map Reviews.processReview raw)).

(** The negative reviews among [reviews] whose text mentions [phrase]. *)
Definition negativeMentions (phrase : string) (reviews : list Reviews.Review)
  : list Reviews.Review :=
  filter (fun r => Reviews.hasSentiment "negative" r
                   && Str.includes (Str.toLowerCase (Reviews.content r)) phrase)
         reviews.

(** ** The TikTok collector (scrapeTikTok.ts)

    The part of [scrapeTikTok] that follows the page evaluation: hashtags,
    mentions, promotional keywords and the promotion flag, all read off
    the caption. *)

Module TikTok.

Local Open Scope string_scope.

(** [\w] *)
Definition isWordChar (c : ascii) : bool :=
  let n := nat_of_ascii c in
  ((48 <=? n) && (n <=? 57) || (65 <=? n) && (n <=? 90)
   || (97 <=? n) && (n <=? 122) || (n =? 95))%nat.

(** The matches of the global pattern made of [marker] and one or more
    word characters, each without its marker.  The marker is no word
    character, so a match holds no second marker and the search for the
    next match may as well resume inside it.  The accented ranges of the
    pattern lie outside the ASCII texts of the embedding. *)
Fixpoint tagsAfter (marker : ascii) (s : string) : list string :=
  match s with
  | EmptyString => []
  | String c r =>
      if Ascii.eqb c marker then
        match fst (Str.span isWordChar r) with
        | EmptyString => tagsAfter marker r
        | w => w :: tagsAfter marker r
        end
      else tagsAfter marker r
  end.

(** The object returned by the page evaluation. *)
Record VideoData : Type := {
  username : string;
  caption : string;
  likes : option Z;
  views : option Z;
  comments : option Z;
  shares : option Z;
  posting_date : option string
}.

Definition promotionalKeywords : list string :=
  ["sponsored"; "ad"; "paid"; "partnership"; "collab"; "gifted";
   "discount"; "code"; "link"; "affiliate"; "promo"; "sale";
   "swipe up"; "link in bio"; "use my code"; "get yours";
   "limited time"; "exclusive"; "special offer"].

Definition flaggedHashtags : list string :=
  ["ad"; "sponsored"; "partnership"; "paid"].

Section Scraper.

(** The upper-cased, de-duplicated matches of the five affiliate-code
    patterns in a caption; the patterns themselves are not modelled. *)
Variable affiliateCodes : string -> list string.

(** [videoData] is [None] when the navigation or the evaluation throws. *)
Definition scrapeTikTok (videoData : option VideoData) (url : string)
  : TikTokVideoData.t :=
  match videoData with
  | Some videoData =>
      let caption := caption videoData in
      let cleanHashtags := map Str.toLowerCase (tagsAfter "#" caption) in
      let cleanMentions := map Str.toLowerCase (tagsAfter "@" caption) in
      let affiliate_codes := affiliateCodes caption in
      let foundPromotionalKeywords :=
        filter (fun keyword =>
                  Str.includes (Str.toLowerCase caption)
                               (Str.toLowerCase keyword))
               promotionalKeywords in
      let paid_promotion_detected :=
        (0 <? List.length foundPromotionalKeywords)%nat
        || (0 <? List.length affiliate_codes)%nat
        || existsb (fun tag => Str.arr_includes flaggedHashtags tag)
                   cleanHashtags in
      {| TikTokVideoData.username :=
           if String.eqb (username videoData) "" then "Unknown"
           else username videoData;
         TikTokVideoData.caption := caption;
         TikTokVideoData.hashtags := cleanHashtags;
         TikTokVideoData.mentions := cleanMentions;
         TikTokVideoData.likes := likes videoData;
         TikTokVideoData.views := views videoData;
         TikTokVideoData.comments := comments videoData;
         TikTokVideoData.shares := shares videoData;
         TikTokVideoData.affiliate_codes := affiliate_codes;
         TikTokVideoData.promotional_keywords := foundPromotionalKeywords;
         TikTokVideoData.paid_promotion_detected := paid_promotion_detected;
         TikTokVideoData.video_url := url;
         TikTokVideoData.posting_date := posting_date videoData |}
  | None =>
      {| TikTokVideoData.username := "Unknown";
         TikTokVideoData.caption := "";
         TikTokVideoData.hashtags := [];
         TikTokVideoData.mentions := [];
         TikTokVideoData.likes := None;
         TikTokVideoData.views := None;
         TikTokVideoData.comments := None;
         TikTokVideoData.shares := None;
         TikTokVideoData.affiliate_codes := [];
         TikTokVideoData.promotional_keywords := [];
         TikTokVideoData.paid_promotion_detected := false;
         TikTokVideoData.video_url := url;
         TikTokVideoData.posting_date := None |}
  end.

End Scraper.

End TikTok.

(** ** The command line (cli.ts) *)

Module CLI.

Local Open Scope string_scope.

(** The review summary of the command line: a fixed, empty one. *)
Definition scrapeReviewData : ReviewSummary.t :=
  {| ReviewSummary.total_reviews := 0;
     ReviewSummary.average_rating := None;
     ReviewSummary.sentiment_breakdown :=
       {| positive := 0; negative := 0; neutral := 0 |};
     ReviewSummary.common_positives := [];
     ReviewSummary.common_negatives := [] |}.

(** The orchestration of [UnhypedCLI.analyzeProduct] up to the call of the
    engine: [productData] is the result of the product scraper ([None] for
    [null]), [scraped] the result of the TikTok scraper for [socialUrl].
    The result is [None] when the method returns before the engine runs. *)
Definition analyzeProduct (db : option IngredientsDatabase.t)
  (productData : option ProductData.t) (socialUrl : option string)
  (scraped : TikTokVideoData.t) (now : string) : option RealityCheckResult :=
  match productData with
  | None => None
  | Some productData =>
      let socialData :=
        match socialUrl with
        | Some socialUrl =>
            if negb (String.eqb socialUrl "") then
              if Str.includes socialUrl "tiktok.com" then Some scraped
              else None
            else None
        | None => None
        end in
      let reviewSummary := Some scrapeReviewData in
      Some (analyzeProduct db productData socialData reviewSummary now)
  end.

End CLI.

(** Examples of collected data. *)
Definition Examples_five_stars : list (option Q * string) :=
  [(Some 5%Q, "Absorbs quickly and my skin feels soft all day")].

Definition Examples_disclosed_video : TikTok.VideoData :=
  {| TikTok.username := "glowgirl";
     TikTok.caption := "Obsessed with this serum #ad #skincare";
     TikTok.likes := Some 1200;
     TikTok.views := Some 45000;
     TikTok.comments := None;
     TikTok.shares := None;
     TikTok.posting_date := None |}.

(** * Properties *)

(** ** Facts about numbers *)

Lemma Qlt_b_true (x y : Q) : Qlt_b x y = true <-> (x < y)%Q.
Proof.
  unfold Qlt_b. rewrite negb_true_iff. split; intro H.
  - apply Qnot_le_lt. intro L. apply Qle_bool_iff in L. congruence.
  - destruct (Qle_bool y x) eqn:E; [|reflexivity].
    apply Qle_bool_iff in E. exfalso. eapply Qlt_not_le; eassumption.
Qed.

Lemma Qlt_b_false (x y : Q) : Qlt_b x y = false <-> (y <= x)%Q.
Proof.
  unfold Qlt_b. rewrite negb_false_iff. apply Qle_bool_iff.
Qed.

Lemma Qle_bool_false (x y : Q) : Qle_bool x y = false <-> (y < x)%Q.
Proof.
  split; intro H.
  - apply Qnot_le_lt. intro L. apply Qle_bool_iff in L. congruence.
  - destruct (Qle_bool x y) eqn:E; [|reflexivity].
    apply Qle_bool_iff in E. exfalso. eapply Qlt_not_le; eassumption.
Qed.

Lemma Qzero_b_true (x : Q) : Qzero_b x = true <-> (x == 0)%Q.
Proof. unfold Qzero_b. apply Qeq_bool_iff. Qed.

Lemma Qzero_b_false (x : Q) : Qzero_b x = false <-> ~ (x == 0)%Q.
Proof.
  unfold Qzero_b. split; intro H.
  - intro E. apply Qeq_bool_iff in E. congruence.
  - destruct (Qeq_bool x 0) eqn:E; [|reflexivity].
    apply Qeq_bool_iff in E. contradiction.
Qed.

Lemma le_ofZ (a b : Z) : JS.le (ofZ a) (ofZ b) = (a <=? b).
Proof.
  unfold ofZ, JS.le, Qle_bool, inject_Z; simpl. now rewrite !Z.mul_1_r.
Qed.

Lemma lt_ofZ (a b : Z) : JS.lt (ofZ a) (ofZ b) = (a <? b).
Proof.
  unfold ofZ, JS.lt, Qlt_b, Qle_bool, inject_Z; simpl.
  rewrite !Z.mul_1_r. now rewrite Z.ltb_antisym.
Qed.

Lemma add_ofZ (a b : Z) : JS.add (ofZ a) (ofZ b) = ofZ (a + b).
Proof.
  unfold ofZ, JS.add, Qplus, inject_Z; simpl. now rewrite !Z.mul_1_r.
Qed.

Lemma mul_ofZ (a b : Z) : JS.mul (ofZ a) (ofZ b) = ofZ (a * b).
Proof. reflexivity. Qed.

Lemma min_ofZ (a b : Z) : JS.min (ofZ a) (ofZ b) = ofZ (Z.min a b).
Proof.
  change (JS.min (ofZ a) (ofZ b))
    with (if JS.le (ofZ a) (ofZ b) then ofZ a else ofZ b).
  rewrite le_ofZ. destruct (Z.leb_spec a b).
  - now rewrite Z.min_l.
  - now rewrite Z.min_r by lia.
Qed.

Lemma max_ofZ (a b : Z) : JS.max (ofZ a) (ofZ b) = ofZ (Z.max a b).
Proof.
  change (JS.max (ofZ a) (ofZ b))
    with (if JS.le (ofZ a) (ofZ b) then ofZ b else ofZ a).
  rewrite le_ofZ. destruct (Z.leb_spec a b).
  - now rewrite Z.max_r.
  - now rewrite Z.max_l by lia.
Qed.

Lemma round_ofZ (a : Z) : JS.round (ofZ a) = ofZ a.
Proof.
  unfold ofZ at 1, JS.round. f_equal.
  apply Z.le_antisymm.
  - apply Z.lt_succ_r. rewrite Zlt_Qlt.
    eapply Qle_lt_trans; [apply Qfloor_le|].
    unfold Z.succ. rewrite inject_Z_plus. change (inject_Z 1) with 1%Q. lra.
  - assert (L : (inject_Z a <= inject_Z a + (1 # 2))%Q) by lra.
    apply Qfloor_resp_le in L. now rewrite Qfloor_Z in L.
Qed.

Lemma score_in_0_100 (a : number) : score_0_100 a -> in_0_100 a.
Proof.
  intros (z & -> & Hz). unfold in_0_100, num. rewrite !le_ofZ. lia.
Qed.

Lemma score_finite (a : number) : score_0_100 a -> finite a.
Proof. intros (z & -> & _). now exists (inject_Z z). Qed.

Lemma clamp_Num (q : Q) : clamp (Num q) = ofZ (clampZ q).
Proof.
  unfold clampZ, num, ofZ. simpl.
  change (inject_Z 100) with 100%Q. change (inject_Z 0) with 0%Q.
  destruct (Qle_bool 100 q) eqn:E1; simpl.
  - reflexivity.
  - destruct (Qle_bool 0 q); reflexivity.
Qed.

Lemma clampZ_range (q : Q) : 0 <= clampZ q <= 100.
Proof.
  unfold clampZ.
  destruct (Qle_bool 100 q) eqn:E1; [vm_compute; split; discriminate|].
  destruct (Qle_bool 0 q) eqn:E2; [|vm_compute; split; discriminate].
  apply Qle_bool_iff in E2. apply Qle_bool_false in E1. split.
  - change 0 with (Qfloor 0). apply Qfloor_resp_le. lra.
  - apply Z.lt_succ_r. rewrite Zlt_Qlt.
    eapply Qle_lt_trans; [apply Qfloor_le|].
    change (inject_Z (Z.succ 100)) with 101%Q. lra.
Qed.

Lemma clampZ_mono (x y : Q) : (x <= y)%Q -> clampZ x <= clampZ y.
Proof.
  intro H. unfold clampZ. apply Qfloor_resp_le.
  destruct (Qle_bool 100 x) eqn:X1; destruct (Qle_bool 100 y) eqn:Y1;
    destruct (Qle_bool 0 x) eqn:X0; destruct (Qle_bool 0 y) eqn:Y0;
    repeat match goal with
           | E : Qle_bool _ _ = true |- _ => apply Qle_bool_iff in E
           | E : Qle_bool _ _ = false |- _ => apply Qle_bool_false in E
           end; lra.
Qed.

Lemma clamp_score (a : number) : finite a -> score_0_100 (clamp a).
Proof.
  intros (q & ->). exists (clampZ q). split; [apply clamp_Num|apply clampZ_range].
Qed.

Lemma clamp_NaN : clamp NaN = NaN.
Proof. reflexivity. Qed.

(** ** The verdict *)

Lemma sponsored_signal_bool (s : SocialAnalysis) :
  sponsored_signal s <->
  promotional_detected s
  || JS.gt (sponsored_content_probability s) (num 70) = true.
Proof. unfold sponsored_signal. now rewrite orb_true_iff. Qed.

Lemma verdict_of_analyzeProduct db p s r now :
  let res := analyzeProduct db p s r now in
  overall_verdict res
  = if promotional_detected (social_analysis res)
       || JS.gt (sponsored_content_probability (social_analysis res)) (num 70)
    then likely_sponsored
    else if JS.ge (reality_score res) (num 70) then authentic
    else suspicious.
Proof. reflexivity. Qed.

(** C1. A record flagged [paid_promotion_detected] always gets the verdict
    "likely_sponsored", whatever the score; in general the verdict is
    "likely_sponsored" exactly when promotion was detected or the sponsored
    probability exceeds 70, otherwise "authentic" exactly when the score is
    at least 70, otherwise "suspicious". *)
Theorem verdict_rule db p s r now :
  let res := analyzeProduct db p s r now in
  (forall sd, s = Some sd ->
     TikTokVideoData.paid_promotion_detected sd = true ->
     overall_verdict res = likely_sponsored)
  /\ (overall_verdict res = likely_sponsored
      <-> sponsored_signal (social_analysis res))
  /\ (overall_verdict res = authentic
      <-> ~ sponsored_signal (social_analysis res)
          /\ JS.ge (reality_score res) (num 70) = true)
  /\ (overall_verdict res = suspicious
      <-> ~ sponsored_signal (social_analysis res)
          /\ JS.ge (reality_score res) (num 70) = false).
Proof.
  intro res.
  pose proof (verdict_of_analyzeProduct db p s r now) as V.
  cbv zeta in V. fold res in V.
  pose proof (sponsored_signal_bool (social_analysis res)) as S.
  split; [|split; [|split]].
  - intros sd -> Hp.
    assert (E : promotional_detected (social_analysis res) = true) by exact Hp.
    now rewrite V, E.
  - rewrite V, S. destruct (_ || _); [tauto|].
    destruct (JS.ge _ _); split; discriminate.
  - rewrite V, S. destruct (_ || _).
    + split; [discriminate|]. intros (N & _). now elim N.
    + destruct (JS.ge _ _); split; try discriminate; auto.
      intros (_ & G). discriminate.
  - rewrite V, S. destruct (_ || _).
    + split; [discriminate|]. intros (N & _). now elim N.
    + destruct (JS.ge _ _); split; try discriminate; auto.
      intros (_ & G). discriminate.
Qed.

Lemma verdict_rule_witness :
  overall_verdict
    (analyzeProduct (Some getBuiltInIngredientData) Examples.scenario1
                    (Some Examples.scenario2) None Examples.timestamp)
  = likely_sponsored.
Proof.
  exact (proj1 (verdict_rule (Some getBuiltInIngredientData) Examples.scenario1
                             (Some Examples.scenario2) None Examples.timestamp)
               Examples.scenario2 eq_refl eq_refl).
Defined.

(** ** Reviews whose count is zero *)

(** The reality score of a result is the written-out weighted sum of its
    own fields, the review component being the review authenticity when
    the review count is positive and 75 otherwise. *)
Lemma reality_score_written_out db p s r now :
  reality_score (analyzeProduct db p s r now)
  = scoreWithReviewComponent (analyzeProduct db p s r now)
      (if 0 <? review_count (review_analysis (analyzeProduct db p s r now))
       then review_authenticity_score
              (review_analysis (analyzeProduct db p s r now))
       else num 75).
Proof. reflexivity. Qed.

(** C10. A summary with [total_reviews = 0] is treated as an absent one,
    whatever its breakdown holds: the review analysis is the neutral one
    (count 0, all-zero sentiment, authenticity 50, no concerns, credibility
    low); the reality score of the result is the weighted sum of its
    product, social, ingredient and price components with 75, not the
    authenticity 50, as the review component at weight 0.15; "reviews" is
    not appended to the data sources; and the whole result is that of a
    call without summary. *)
Theorem zero_total_reviews_as_absent db p s r now :
  ReviewSummary.total_reviews r = 0 ->
  analyzeReviews (Some r)
  = {| review_count := 0;
       sentiment_distribution :=
         {| positive := 0; negative := 0; neutral := 0 |};
       review_authenticity_score := num 50;
       common_concerns := [];
       review_credibility := low |}
  /\ analyzeReviews (Some r) = analyzeReviews None
  /\ review_analysis (analyzeProduct db p s (Some r) now)
     = analyzeReviews (Some r)
  /\ reviewScore (analyzeReviews (Some r)) = num 75
  /\ reality_score (analyzeProduct db p s (Some r) now)
     = scoreWithReviewComponent (analyzeProduct db p s (Some r) now) (num 75)
  /\ getDataSources p s (Some r)
     = (ProductData.platform p
        :: match s with Some _ => ["tiktok"] | None => [] end)%list
  /\ data_sources (analyzeProduct db p s (Some r) now)
     = getDataSources p s (Some r)
  /\ analyzeProduct db p s (Some r) now = analyzeProduct db p s None now.
Proof.
  intro H.
  assert (A : analyzeReviews (Some r) = noReviews).
  { unfold analyzeReviews. now rewrite H. }
  assert (D : getDataSources p s (Some r) = getDataSources p s None).
  { unfold getDataSources. rewrite H. reflexivity. }
  assert (E : analyzeProduct db p s (Some r) now
              = analyzeProduct db p s None now).
  { unfold analyzeProduct. now rewrite A, D. }
  split; [exact A|]. split; [exact A|]. split; [reflexivity|].
  split; [now rewrite A|]. split.
  - rewrite reality_score_written_out.
    change (review_analysis (analyzeProduct db p s (Some r) now))
      with (analyzeReviews (Some r)).
    rewrite A. reflexivity.
  - split; [|split; [reflexivity|exact E]].
    rewrite D. unfold getDataSources. now destruct s.
Qed.

Lemma zero_total_reviews_as_absent_witness :
  reality_score
    (analyzeProduct (Some getBuiltInIngredientData) Examples.scenario1 None
                    (Some Examples.zero_total) Examples.timestamp)
  = scoreWithReviewComponent
      (analyzeProduct (Some getBuiltInIngredientData) Examples.scenario1 None
                      (Some Examples.zero_total) Examples.timestamp)
      (num 75)
  /\ analyzeProduct (Some getBuiltInIngredientData) Examples.scenario1 None
                    (Some Examples.zero_total) Examples.timestamp
     = analyzeProduct (Some getBuiltInIngredientData) Examples.scenario1 None
                      None Examples.timestamp.
Proof.
  split.
  - exact (proj1 (proj2 (proj2 (proj2 (proj2
             (zero_total_reviews_as_absent (Some getBuiltInIngredientData)
                Examples.scenario1 None Examples.zero_total
                Examples.timestamp eq_refl)))))).
  - exact (proj2 (proj2 (proj2 (proj2 (proj2 (proj2 (proj2
             (zero_total_reviews_as_absent (Some getBuiltInIngredientData)
                Examples.scenario1 None Examples.zero_total
                Examples.timestamp eq_refl)))))))).
Defined.

(** ** Hashtag authenticity *)

Lemma hashtag_authenticity_present sd :
  hashtag_authenticity (analyzeSocialMedia (Some sd))
  = match TikTokVideoData.hashtags sd with
    | [] => num 75
    | _ :: _ => hashtag_rule (TikTokVideoData.hashtags sd)
    end.
Proof.
  simpl. unfold calculateHashtagAuthenticity, hashtag_rule.
  now destruct (TikTokVideoData.hashtags sd).
Qed.

(** C4, as written, fails on the empty hashtag list: both counts are 0, the
    rule gives 60, the engine answers 75. *)
Lemma hashtag_rule_fails_on_empty :
  hashtag_authenticity (analyzeSocialMedia (Some Examples.no_hashtags)) = num 75
  /\ hashtag_rule (TikTokVideoData.hashtags Examples.no_hashtags) = num 60.
Proof. split; reflexivity. Qed.

(** C4, amended. For a present record with at least one hashtag the
    authenticity is 30 when the spammy count exceeds the organic count, 85
    when the organic count exceeds the spammy count, and 60 when they are
    equal; for an empty hashtag list it is 75. *)
Theorem hashtag_authenticity_rule sd :
  let tags := TikTokVideoData.hashtags sd in
  let spammyCount := List.length (filter isSpammy tags) in
  let organicCount := List.length (filter isOrganic tags) in
  let h := hashtag_authenticity (analyzeSocialMedia (Some sd)) in
  (tags = [] -> h = num 75)
  /\ (tags <> [] ->
      ((organicCount < spammyCount)%nat -> h = num 30)
      /\ ((spammyCount < organicCount)%nat -> h = num 85)
      /\ (spammyCount = organicCount -> h = num 60)).
Proof.
  intros tags sp org h.
  assert (E : h = match tags with [] => num 75 | _ :: _ => hashtag_rule tags end)
    by apply hashtag_authenticity_present.
  split.
  - intros T. now rewrite E, T.
  - intros T. destruct tags as [|t ts] eqn:Q; [now elim T|].
    rewrite E. unfold hashtag_rule. fold sp org.
    destruct (Nat.ltb_spec org sp), (Nat.ltb_spec sp org);
      repeat split; intros; try reflexivity; lia.
Qed.

Lemma hashtag_authenticity_rule_witness :
  hashtag_authenticity (analyzeSocialMedia (Some Examples.scenario2)) = num 30.
Proof.
  refine (proj1 (proj2 (hashtag_authenticity_rule Examples.scenario2) _) _).
  - discriminate.
  - vm_compute. lia.
Defined.

(** ** Sponsored probability *)

Lemma disclosureCount_cons t ts :
  disclosureCount (t :: ts)
  = ((if Str.arr_includes disclosureTags (Str.toLowerCase t) then 1 else 0)
     + disclosureCount ts)%nat.
Proof.
  unfold disclosureCount, disclosureTags, Str.arr_includes.
  cbn [map list_sum existsb count_occ].
  generalize (Str.toLowerCase t) as l.
  generalize (map Str.toLowerCase ts) as L. intros L l.
  repeat match goal with
         | |- context [string_dec ?a ?w] =>
             destruct (string_dec a w) as [?|?]; subst; try discriminate
         end;
    repeat match goal with
           | |- context [String.eqb ?a ?b] =>
               destruct (String.eqb_spec a b); try congruence
           end;
    cbn [orb]; unfold list_sum; cbn [fold_right]; lia.
Qed.

Lemma disclosureCount_filter tags :
  List.length
    (filter (fun tag => Str.arr_includes disclosureTags (Str.toLowerCase tag))
            tags)
  = disclosureCount tags.
Proof.
  induction tags as [|t ts IH]; [reflexivity|].
  rewrite disclosureCount_cons. cbn [filter].
  destruct (Str.arr_includes _ _); cbn [List.length]; lia.
Qed.

Lemma calculateSponsoredProbability_formula sd :
  calculateSponsoredProbability sd = ofZ (sponsored_formula sd).
Proof.
  unfold calculateSponsoredProbability, sponsored_formula, num, ofNat.
  rewrite disclosureCount_filter, mul_ofZ.
  destruct (TikTokVideoData.paid_promotion_detected sd);
    destruct (TikTokVideoData.affiliate_codes sd);
    destruct (TikTokVideoData.promotional_keywords sd);
    cbn [List.length Nat.ltb Nat.leb];
    rewrite ?add_ofZ, min_ofZ; f_equal; lia.
Qed.

Lemma flagged_is_likely_sponsored db p sd r now :
  TikTokVideoData.paid_promotion_detected sd = true ->
  overall_verdict (analyzeProduct db p (Some sd) r now) = likely_sponsored.
Proof.
  intro H. rewrite verdict_of_analyzeProduct.
  change (promotional_detected
            (social_analysis (analyzeProduct db p (Some sd) r now)))
    with (TikTokVideoData.paid_promotion_detected sd).
  now rewrite H.
Qed.

(** C5. For a present record the sponsored probability is
    min(100, 40 if flagged + 30 if there is an affiliate code + 20 if there
    is a promotional keyword + 10 for each hashtag that is one of ad,
    sponsored, promo, affiliate, gifted); hashtags ad, sponsored, skincare
    with the code GLOW20, no keyword and the flag set give 90 and the
    verdict "likely_sponsored". *)
Theorem sponsored_probability_rule sd :
  sponsored_content_probability (analyzeSocialMedia (Some sd))
  = ofZ (sponsored_formula sd)
  /\ (TikTokVideoData.hashtags sd = ["ad"; "sponsored"; "skincare"] ->
      TikTokVideoData.affiliate_codes sd = ["GLOW20"] ->
      TikTokVideoData.promotional_keywords sd = [] ->
      TikTokVideoData.paid_promotion_detected sd = true ->
      sponsored_content_probability (analyzeSocialMedia (Some sd)) = num 90
      /\ forall db p r now,
           overall_verdict (analyzeProduct db p (Some sd) r now)
           = likely_sponsored).
Proof.
  assert (F : sponsored_content_probability (analyzeSocialMedia (Some sd))
              = ofZ (sponsored_formula sd))
    by apply calculateSponsoredProbability_formula.
  split; [exact F|].
  intros Ht Hc Hk Hp. split.
  - rewrite F. unfold sponsored_formula. rewrite Ht, Hc, Hk, Hp. reflexivity.
  - intros. now apply flagged_is_likely_sponsored.
Qed.

Lemma sponsored_probability_rule_witness :
  sponsored_content_probability
    (analyzeSocialMedia (Some Examples.scenario2)) = num 90
  /\ forall db p r now,
       overall_verdict (analyzeProduct db p (Some Examples.scenario2) r now)
       = likely_sponsored.
Proof.
  exact (proj2 (sponsored_probability_rule Examples.scenario2)
               eq_refl eq_refl eq_refl eq_refl).
Defined.

(** ** Scenario 1: ingredient scores *)

(** C2, as written, fails: the specification's 77 leaves out the bonus of 10
    that two beneficial and no harmful ingredients earn; the engine with its
    built-in ingredient data answers 87. *)
Lemma scenario1_quality_is_not_77 :
  ingredient_quality_score
    (ingredient_analysis
       (analyzeProduct (Some getBuiltInIngredientData) Examples.scenario1
                       None None Examples.timestamp)) = num 87
  /\ scenario1_quality_without_bonus = num 77.
Proof. split; vm_compute; reflexivity. Qed.

Lemma scenario1_ingredient_analysis db s r now :
  ingredient_analysis (analyzeProduct db Examples.scenario1 s r now)
  = let parsed := ["water"; "niacinamide"; "glycerin"] in
    let beneficial := findBeneficialIngredients db parsed in
    let harmful := findHarmfulIngredients db parsed in
    {| total_ingredients := 3;
       beneficial_ingredients := beneficial;
       potentially_harmful := harmful;
       ingredient_quality_score :=
         calculateIngredientQualityScore
           (List.length beneficial) (List.length harmful) 3;
       ingredient_authenticity := num 85 |}.
Proof. reflexivity. Qed.

Lemma found_at_most db parsed :
  (List.length (findBeneficialIngredients db parsed) <= List.length parsed)%nat
  /\ (List.length (findHarmfulIngredients db parsed) <= List.length parsed)%nat.
Proof.
  unfold findBeneficialIngredients, findHarmfulIngredients.
  destruct db; cbn [List.length]; split;
    try apply filter_length_le; apply Nat.le_0_l.
Qed.

(** No content of the ingredient database makes the score 77. *)
Lemma scenario1_quality_never_77 db now :
  ingredient_quality_score
    (ingredient_analysis
       (analyzeProduct db Examples.scenario1 None None now)) <> num 77.
Proof.
  rewrite scenario1_ingredient_analysis. cbv zeta.
  cbn [ingredient_quality_score].
  destruct (found_at_most db ["water"; "niacinamide"; "glycerin"]) as (B & H).
  cbn [List.length] in B, H.
  set (b := List.length (findBeneficialIngredients db _)) in *.
  set (h := List.length (findHarmfulIngredients db _)) in *.
  clearbody b h.
  assert (Hb : (b = 0 \/ b = 1 \/ b = 2 \/ b = 3)%nat) by lia.
  assert (Hh : (h = 0 \/ h = 1 \/ h = 2 \/ h = 3)%nat) by lia.
  destruct Hb as [-> | [-> | [-> | ->]]];
    destruct Hh as [-> | [-> | [-> | ->]]];
    vm_compute; discriminate.
Qed.

(** C2, amended. For the product with ingredients water, niacinamide,
    glycerin and price "$15", without social data and reviews, the engine
    with its built-in ingredient data finds niacinamide and glycerin
    beneficial and nothing harmful, and returns ingredient_quality_score
    = round((2/3)*70 + 1*30 + 10) = 87, the bonus of 10 included; the
    ingredient_authenticity is 85 whatever the database holds. *)
Theorem scenario1_ingredient_scores now :
  let res := analyzeProduct (Some getBuiltInIngredientData)
                            Examples.scenario1 None None now in
  beneficial_ingredients (ingredient_analysis res) = ["niacinamide"; "glycerin"]
  /\ potentially_harmful (ingredient_analysis res) = []
  /\ ingredient_quality_score (ingredient_analysis res)
     = JS.round (Num ((2 # 3) * 70 + 1 * 30 + 10))
  /\ ingredient_quality_score (ingredient_analysis res) = num 87
  /\ forall db,
       ingredient_authenticity
         (ingredient_analysis
            (analyzeProduct db Examples.scenario1 None None now)) = num 85.
Proof.
  intro res. subst res. rewrite scenario1_ingredient_analysis.
  repeat split; reflexivity.
Qed.

(** ** Price tiers *)

Lemma le_Num (x y : Q) : JS.le (Num x) (Num y) = true <-> (x <= y)%Q.
Proof. apply Qle_bool_iff. Qed.

Lemma le_Num_false (x y : Q) : JS.le (Num x) (Num y) = false <-> (y < x)%Q.
Proof. apply Qle_bool_false. Qed.

Ltac q_cases :=
  repeat match goal with
         | H : Qle_bool _ _ = true |- _ => apply Qle_bool_iff in H
         | H : Qle_bool _ _ = false |- _ => apply Qle_bool_false in H
         | H : Qlt_b _ _ = true |- _ => apply Qlt_b_true in H
         | H : Qlt_b _ _ = false |- _ => apply Qlt_b_false in H
         | H : JS.le (Num _) (Num _) = true |- _ => apply le_Num in H
         | H : JS.le (Num _) (Num _) = false |- _ => apply le_Num_false in H
         end.

(** C3, as written, fails between the tiers of the two mappings: for "$18"
    the market comparison is below_market (its bound is 20), where the
    specification's tiers give market_rate. *)
Lemma market_tiers_differ_at_18 :
  extractNumericPrice (ProductData.price Examples.eighteen) = Some (Num 18)
  /\ market_comparison
       (analyzePrice (ProductData.price Examples.eighteen) (num 50))
     = below_market
  /\ market_tiers_15_30_100 18 = market_rate.
Proof. repeat split; vm_compute; reflexivity. Qed.

(** C3, amended. For every price text from which a number [p] is extracted,
    the price_range label is Budget for p <= 15, Affordable for p <= 30,
    Mid-range for p <= 60, Premium for p <= 100 and Luxury above, and the
    market_comparison is below_market for p <= 20, market_rate for p <= 50,
    above_market for p <= 100 and premium above (all bounds inclusive). *)
Theorem price_tiers price p quality :
  extractNumericPrice price = Some (Num p) ->
  let a := analyzePrice price quality in
  (((p <= 15)%Q -> price_range a = "Budget ($0-$15)")
   /\ ((15 < p <= 30)%Q -> price_range a = "Affordable ($15-$30)")
   /\ ((30 < p <= 60)%Q -> price_range a = "Mid-range ($30-$60)")
   /\ ((60 < p <= 100)%Q -> price_range a = "Premium ($60-$100)")
   /\ ((100 < p)%Q -> price_range a = "Luxury ($100+)"))
  /\ (((p <= 20)%Q -> market_comparison a = below_market)
      /\ ((20 < p <= 50)%Q -> market_comparison a = market_rate)
      /\ ((50 < p <= 100)%Q -> market_comparison a = above_market)
      /\ ((100 < p)%Q -> market_comparison a = premium)).
Proof.
  intros H a. subst a. unfold analyzePrice. rewrite H.
  cbn [price_range market_comparison].
  unfold getPriceRange, compareToMarket, num, ofZ.
  split.
  - destruct (JS.le (Num p) (Num (inject_Z 15))) eqn:E1;
      destruct (JS.le (Num p) (Num (inject_Z 30))) eqn:E2;
      destruct (JS.le (Num p) (Num (inject_Z 60))) eqn:E3;
      destruct (JS.le (Num p) (Num (inject_Z 100))) eqn:E4;
      q_cases; unfold inject_Z in *;
      repeat split; intros; try reflexivity; exfalso; lra.
  - destruct (JS.le (Num p) (Num (inject_Z 20))) eqn:E1;
      destruct (JS.le (Num p) (Num (inject_Z 50))) eqn:E2;
      destruct (JS.le (Num p) (Num (inject_Z 100))) eqn:E3;
      q_cases; unfold inject_Z in *;
      repeat split; intros; try reflexivity; exfalso; lra.
Qed.

Lemma price_tiers_witness :
  price_range (analyzePrice "$18" (num 50)) = "Affordable ($15-$30)"
  /\ market_comparison (analyzePrice "$18" (num 50)) = below_market.
Proof.
  pose proof (price_tiers "$18" 18 (num 50) eq_refl) as H.
  cbv zeta in H. destruct H as ((_ & A & _) & (B & _)). split.
  - apply A. split; [reflexivity | discriminate].
  - apply B. discriminate.
Defined.

(** ** Review authenticity and credibility *)

Lemma Qzero_b_inject_Z (z : Z) : Qzero_b (inject_Z z) = (z =? 0).
Proof.
  unfold Qzero_b, Qeq_bool, inject_Z; simpl.
  now rewrite Z.mul_1_r.
Qed.

Lemma div_ofZ (a b : Z) :
  b <> 0 -> JS.div (ofZ a) (ofZ b) = Num (inject_Z a / inject_Z b).
Proof.
  intro H. unfold JS.div, ofZ. rewrite Qzero_b_inject_Z.
  apply Z.eqb_neq in H. now rewrite H.
Qed.

Lemma calculateReviewAuthenticity_rule sb :
  positive sb + negative sb + neutral sb <> 0 ->
  calculateReviewAuthenticity sb = review_rule sb.
Proof.
  intro T. unfold calculateReviewAuthenticity, review_rule.
  pose proof T as T'. apply Z.eqb_neq in T'. rewrite T'.
  rewrite !div_ofZ by assumption. reflexivity.
Qed.

Lemma calculateReviewAuthenticity_empty sb :
  positive sb + negative sb + neutral sb = 0 ->
  calculateReviewAuthenticity sb = num 50.
Proof.
  intro T. unfold calculateReviewAuthenticity. now rewrite T.
Qed.

Lemma review_rule_cases sb :
  (one_sided sb -> review_rule sb = num 30)
  /\ (~ one_sided sb -> natural_spread sb -> review_rule sb = num 85)
  /\ (~ one_sided sb -> ~ natural_spread sb -> review_rule sb = num 60).
Proof.
  unfold review_rule, one_sided, natural_spread.
  destruct (Qlt_b 0.9 (positive_ratio sb)) eqn:E1;
    destruct (Qlt_b 0.8 (negative_ratio sb)) eqn:E2;
    destruct (Qle_bool 0.4 (positive_ratio sb)) eqn:E3;
    destruct (Qle_bool (positive_ratio sb) 0.8) eqn:E4;
    destruct (Qle_bool 0.1 (negative_ratio sb)) eqn:E5;
    destruct (Qle_bool (negative_ratio sb) 0.4) eqn:E6;
    q_cases; cbn [orb andb];
    repeat split; intros; try reflexivity; exfalso;
    try tauto; try lra;
    repeat match goal with
           | H : _ \/ _ |- _ => destruct H
           | H : _ /\ _ |- _ => destruct H
           | H : ~ (_ \/ _) |- _ => apply Decidable.not_or in H
           end; try lra; try tauto.
Qed.

Lemma assessReviewCredibility_cases r score :
  let n := ReviewSummary.total_reviews r in
  (credibility_high n score -> assessReviewCredibility r score = high)
  /\ (~ credibility_high n score -> credibility_medium n score ->
      assessReviewCredibility r score = medium)
  /\ (~ credibility_high n score -> ~ credibility_medium n score ->
      assessReviewCredibility r score = low).
Proof.
  intro n. unfold assessReviewCredibility, credibility_high, credibility_medium.
  fold n.
  destruct (Z.leb_spec 20 n); destruct (Z.leb_spec 5 n);
    destruct (JS.ge score (num 70)); destruct (JS.ge score (num 50));
    cbn [andb]; repeat split; intros; try reflexivity; exfalso;
    try tauto; try (intuition (lia || discriminate)).
Qed.

(** C7, as written, fails where the engine guards a zero: a summary with
    total_reviews = 0 and breakdown 5/2/3 scores 50 (the rule gives 85), and
    a summary with total_reviews = 5 and an all-zero breakdown scores 50
    (the rule, with both ratios 0, gives 60). *)
Lemma review_rule_fails_on_zero :
  (review_authenticity_score (analyzeReviews (Some Examples.zero_total))
   = num 50
   /\ review_rule (ReviewSummary.sentiment_breakdown Examples.zero_total)
      = num 85)
  /\ (review_authenticity_score
        (analyzeReviews (Some Examples.empty_breakdown)) = num 50
      /\ review_rule
           (ReviewSummary.sentiment_breakdown Examples.empty_breakdown)
         = num 60).
Proof. repeat split; vm_compute; reflexivity. Qed.

(** C7, amended. For a present summary whose total_reviews is 0 the score is
    50 and the credibility low; otherwise, when the breakdown sums to 0 the
    score is 50, and when it does not, with the ratios taken over that sum,
    the score is 30 if positive_ratio > 0.9 or negative_ratio > 0.8, else 85
    if positive_ratio is in [0.4,0.8] and negative_ratio in [0.1,0.4], else
    60.  In every case the credibility is high when total_reviews >= 20 and
    the score is at least 70, medium when total_reviews >= 5 and the score
    is at least 50 (and not high), low otherwise. *)
Theorem review_rules r :
  let a := analyzeReviews (Some r) in
  let sb := ReviewSummary.sentiment_breakdown r in
  let n := ReviewSummary.total_reviews r in
  let score := review_authenticity_score a in
  (n = 0 -> score = num 50 /\ review_credibility a = low)
  /\ (n <> 0 -> positive sb + negative sb + neutral sb = 0 -> score = num 50)
  /\ (n <> 0 -> positive sb + negative sb + neutral sb <> 0 ->
      (one_sided sb -> score = num 30)
      /\ (~ one_sided sb -> natural_spread sb -> score = num 85)
      /\ (~ one_sided sb -> ~ natural_spread sb -> score = num 60))
  /\ ((credibility_high n score -> review_credibility a = high)
      /\ (~ credibility_high n score -> credibility_medium n score ->
          review_credibility a = medium)
      /\ (~ credibility_high n score -> ~ credibility_medium n score ->
          review_credibility a = low)).
Proof.
  intros a sb n score. subst a score. unfold analyzeReviews. fold n sb.
  destruct (Z.eqb_spec n 0) as [Z0|NZ].
  - cbn [noReviews review_authenticity_score review_credibility].
    repeat split; intros; try reflexivity; try contradiction.
    + unfold credibility_high in *. lia.
    + unfold credibility_medium in *. lia.
  - cbn [review_authenticity_score review_credibility].
    split; [intro; contradiction|].
    split; [intros _ T; now apply calculateReviewAuthenticity_empty|].
    split.
    + intros _ T. rewrite calculateReviewAuthenticity_rule by assumption.
      apply review_rule_cases.
    + apply assessReviewCredibility_cases.
Qed.

Lemma review_rules_witness :
  let r := Examples.summary 156 89 23 44 in
  review_authenticity_score (analyzeReviews (Some r)) = num 85
  /\ review_credibility (analyzeReviews (Some r)) = high.
Proof.
  pose proof (review_rules (Examples.summary 156 89 23 44)) as H.
  cbv zeta in H. destruct H as (_ & _ & S & C & _).
  assert (E : review_authenticity_score
                (analyzeReviews (Some (Examples.summary 156 89 23 44)))
              = num 85).
  { apply S.
    - discriminate.
    - discriminate.
    - intros [L | L]; vm_compute in L; discriminate.
    - vm_compute. repeat split; discriminate. }
  split; [exact E|].
  apply C. rewrite E. split; [vm_compute; discriminate | reflexivity].
Defined.

(** ** Ranges of the sub-scores *)

Ltac literal_score :=
  match goal with
  | |- score_0_100 (num ?z) => exists z; split; [reflexivity | lia]
  end.

Lemma parseFloat_cases (s : string) :
  JS.parseFloat s = NaN \/ finite (JS.parseFloat s).
Proof.
  unfold JS.parseFloat, finite.
  destruct (Str.span Str.isDigit s) as [ip rest].
  destruct ip; destruct rest as [|c rest'];
    try (destruct c as [[] [] [] [] [] [] [] []]);
    try (destruct (fst (Str.span Str.isDigit rest')));
    eauto.
Qed.

Lemma extractNumericPrice_cases (price : string) :
  extractNumericPrice price = None
  \/ extractNumericPrice price = Some NaN
  \/ exists p, extractNumericPrice price = Some (Num p).
Proof.
  unfold extractNumericPrice. destruct (match_price price) as [m|]; [|auto].
  right.
  destruct (parseFloat_cases
              (Str.filter (fun c => negb (Str.isComma c)) m)) as [E|(q & E)];
    rewrite E; eauto.
Qed.

Lemma availability_score_range p :
  score_0_100 (availability_score (analyzeProduct_Internal p)).
Proof.
  cbn [analyzeProduct_Internal availability_score].
  repeat match goal with
         | |- context [String.eqb ?a ?b] => destruct (String.eqb a b)
         end; literal_score.
Qed.

Lemma assessPriceReasonableness_range price :
  score_0_100 (assessPriceReasonableness price).
Proof.
  unfold assessPriceReasonableness.
  destruct (extractNumericPrice price) as [n|]; [|literal_score].
  repeat match goal with
         | |- context [JS.le ?a ?b] => destruct (JS.le a b)
         end; literal_score.
Qed.

Lemma calculateHashtagAuthenticity_range tags :
  score_0_100 (calculateHashtagAuthenticity tags).
Proof.
  unfold calculateHashtagAuthenticity.
  repeat match goal with
         | |- context [if ?c then _ else _] => destruct c
         end; literal_score.
Qed.

Lemma sponsored_formula_range sd : 0 <= sponsored_formula sd <= 100.
Proof.
  unfold sponsored_formula.
  destruct (TikTokVideoData.paid_promotion_detected sd);
    destruct (TikTokVideoData.affiliate_codes sd);
    destruct (TikTokVideoData.promotional_keywords sd); lia.
Qed.

Lemma calculateSponsoredProbability_range sd :
  score_0_100 (calculateSponsoredProbability sd).
Proof.
  rewrite calculateSponsoredProbability_formula.
  exists (sponsored_formula sd). split; [reflexivity|].
  apply sponsored_formula_range.
Qed.

Lemma calculateIngredientQualityScore_range b h t :
  score_0_100 (calculateIngredientQualityScore b h t).
Proof.
  unfold calculateIngredientQualityScore.
  destruct (Nat.eqb_spec t 0) as [|T]; [literal_score|].
  unfold ofNat. rewrite !div_ofZ by lia.
  apply clamp_score.
  destruct ((0 <? b)%nat && (h =? 0)%nat); cbn; eexists; reflexivity.
Qed.

Lemma calculateIngredientAuthenticity_range ing :
  score_0_100 (calculateIngredientAuthenticity ing).
Proof.
  unfold calculateIngredientAuthenticity.
  apply clamp_score.
  repeat match goal with
         | |- context [if ?c then _ else _] => destruct c
         | |- context [match ?l with [] => _ | _ :: _ => _ end] => destruct l
         end; cbn; eexists; reflexivity.
Qed.

Lemma calculateReviewAuthenticity_range sb :
  score_0_100 (calculateReviewAuthenticity sb).
Proof.
  unfold calculateReviewAuthenticity.
  repeat match goal with
         | |- context [if ?c then _ else _] => destruct c
         end; literal_score.
Qed.

Lemma calculatePriceIngredientRatio_range p q :
  score_0_100 (calculatePriceIngredientRatio (Num p) (Num q)).
Proof.
  unfold calculatePriceIngredientRatio. apply clamp_score.
  assert (M : exists m, JS.max (Num p) (num 1) = Num m /\ (1 <= m)%Q).
  { cbn. destruct (Qle_bool p (inject_Z 1)) eqn:E.
    - exists (inject_Z 1). split; [reflexivity|]. apply Qle_refl.
    - exists p. split; [reflexivity|]. apply Qle_bool_false in E.
      unfold inject_Z in E. lra. }
  destruct M as (m & -> & Hm).
  cbn [JS.mul JS.div].
  assert (Z : Qzero_b m = false) by (apply Qzero_b_false; lra).
  rewrite Z. cbn. eexists; reflexivity.
Qed.

Lemma analyzeSocialMedia_range s :
  score_0_100 (hashtag_authenticity (analyzeSocialMedia s))
  /\ score_0_100 (sponsored_content_probability (analyzeSocialMedia s)).
Proof.
  destruct s as [sd|]; cbn.
  - split; [apply calculateHashtagAuthenticity_range
           |apply calculateSponsoredProbability_range].
  - split; literal_score.
Qed.

Lemma analyzeIngredients_range db ing :
  score_0_100 (ingredient_quality_score (analyzeIngredients db ing))
  /\ score_0_100 (ingredient_authenticity (analyzeIngredients db ing)).
Proof.
  unfold analyzeIngredients.
  destruct (List.length (ProductData.parsed ing) =? 0)%nat; cbn.
  - split; literal_score.
  - split; [apply calculateIngredientQualityScore_range
           |apply calculateIngredientAuthenticity_range].
Qed.

Lemma analyzeReviews_range r :
  score_0_100 (review_authenticity_score (analyzeReviews r)).
Proof.
  destruct r as [r|]; cbn; [|literal_score].
  destruct (ReviewSummary.total_reviews r =? 0); cbn;
    [literal_score|apply calculateReviewAuthenticity_range].
Qed.

Lemma analyzePrice_range price quality :
  finite quality ->
  extractNumericPrice price <> Some NaN ->
  score_0_100 (price_vs_ingredients (analyzePrice price quality)).
Proof.
  intros (q & ->) N. unfold analyzePrice.
  destruct (extractNumericPrice_cases price) as [E|[E|(p & E)]];
    rewrite E in *; cbn.
  - literal_score.
  - now elim N.
  - apply calculatePriceIngredientRatio_range.
Qed.

Lemma analyzePrice_NaN price quality :
  extractNumericPrice price = Some NaN ->
  analyzePrice price quality
  = {| price_range := "Luxury ($100+)";
       value_assessment := poor;
       price_vs_ingredients := NaN;
       market_comparison := premium |}.
Proof.
  intro E. unfold analyzePrice. rewrite E.
  unfold assessValueForMoney, calculatePriceIngredientRatio.
  cbn [JS.div JS.max JS.mul].
  now destruct quality.
Qed.

Lemma finite_halved_sum a b :
  finite a -> finite b -> finite (JS.div (JS.add a b) (num 2)).
Proof. intros (x & ->) (y & ->). cbn. eexists; reflexivity. Qed.

Lemma socialScore_finite s : finite (socialScore (analyzeSocialMedia s)).
Proof.
  destruct (analyzeSocialMedia_range s) as (H & P).
  apply score_finite in H, P. unfold socialScore.
  destruct (has_social_data _); [|now eexists].
  destruct H as (h & ->), P as (p & ->). cbn. eexists; reflexivity.
Qed.

Lemma reviewScore_finite r : finite (reviewScore (analyzeReviews r)).
Proof.
  unfold reviewScore. destruct (0 <? _); [|now eexists].
  apply score_finite, analyzeReviews_range.
Qed.

Lemma weightedSum_finite p s i r c :
  finite p -> finite s -> finite i -> finite r -> finite c ->
  finite (weightedSum p s i r c).
Proof.
  intros (? & ->) (? & ->) (? & ->) (? & ->) (? & ->).
  cbn. eexists; reflexivity.
Qed.

Lemma weightedSum_NaN p s i r : weightedSum p s i r NaN = NaN.
Proof.
  unfold weightedSum. cbn [JS.mul]. generalize (JS.add
    (JS.add (JS.add (JS.mul p weight_product) (JS.mul s weight_social))
            (JS.mul i weight_ingredient)) (JS.mul r weight_review)).
  now intros [].
Qed.

(** On every input whose price text does not parse to NaN, the score and
    the eight sub-scores are integers of the scale 0-100. *)
Lemma scores_in_range db p s r now :
  extractNumericPrice (ProductData.price p) <> Some NaN ->
  let res := analyzeProduct db p s r now in
  score_0_100 (reality_score res)
  /\ Forall (fun named => score_0_100 (snd named)) (sub_scores res).
Proof.
  intros N res.
  pose proof (analyzeSocialMedia_range s) as (Hh & Hs).
  pose proof (analyzeIngredients_range db (ProductData.ingredients p))
    as (Hq & Ha).
  pose proof (analyzeReviews_range r) as Hr.
  pose proof (assessPriceReasonableness_range (ProductData.price p)) as Hp.
  pose proof (availability_score_range p) as Hv.
  pose proof (analyzePrice_range (ProductData.price p) _
                (score_finite _ Hq) N) as Hc.
  split.
  - subst res. cbn [analyzeProduct reality_score].
    unfold calculateOverallScore. apply clamp_score.
    apply weightedSum_finite.
    + apply finite_halved_sum; now apply score_finite.
    + apply socialScore_finite.
    + apply finite_halved_sum; now apply score_finite.
    + apply reviewScore_finite.
    + now apply score_finite.
  - repeat constructor; assumption.
Qed.

Lemma reality_score_of db p s r now :
  reality_score (analyzeProduct db p s r now)
  = calculateOverallScore
      (analyzeProduct_Internal p) (analyzeSocialMedia s)
      (analyzeIngredients db (ProductData.ingredients p)) (analyzeReviews r)
      (analyzePrice (ProductData.price p)
         (ingredient_quality_score
            (analyzeIngredients db (ProductData.ingredients p)))).
Proof. reflexivity. Qed.

Lemma price_analysis_of db p s r now :
  price_analysis (analyzeProduct db p s r now)
  = analyzePrice (ProductData.price p)
      (ingredient_quality_score
         (analyzeIngredients db (ProductData.ingredients p))).
Proof. reflexivity. Qed.

(** A price text that parses to NaN poisons the price score and the total. *)
Lemma nan_price_poisons_score db p s r now :
  extractNumericPrice (ProductData.price p) = Some NaN ->
  let res := analyzeProduct db p s r now in
  price_vs_ingredients (price_analysis res) = NaN
  /\ reality_score res = NaN.
Proof.
  intros E res. subst res.
  rewrite reality_score_of, price_analysis_of.
  unfold calculateOverallScore, priceScore.
  rewrite (analyzePrice_NaN _ _ E). cbn [price_vs_ingredients].
  now rewrite weightedSum_NaN.
Qed.

(** A price text without digit or comma is analysed as unknown. *)
Lemma match_price_None price :
  Str.filter Str.isDigitOrComma price = EmptyString ->
  match_price price = None.
Proof.
  induction price as [|c rest IH]; [reflexivity|].
  cbn [Str.filter match_price].
  destruct (Str.isDigitOrComma c); [discriminate|exact IH].
Qed.

Lemma analyzePrice_unknown price quality :
  Str.filter Str.isDigitOrComma price = EmptyString ->
  analyzePrice price quality = unknownPrice price.
Proof.
  intro H. unfold analyzePrice, extractNumericPrice.
  now rewrite (match_price_None _ H).
Qed.

(** ** The social penalty *)

Lemma no_spammy_left tags :
  filter isSpammy (filter (fun tag => negb (isSpammy tag)) tags) = [].
Proof.
  induction tags as [|t ts IH]; [reflexivity|].
  cbn [filter]. destruct (isSpammy t) eqn:E; cbn [negb filter]; [exact IH|].
  now rewrite E.
Qed.

Lemma organic_left tags :
  (List.length (filter isOrganic tags)
   <= List.length
        (filter isOrganic (filter (fun tag => negb (isSpammy tag)) tags))
      + List.length (filter isSpammy tags))%nat.
Proof.
  induction tags as [|t ts IH]; [apply Nat.le_refl|].
  cbn [filter].
  destruct (isSpammy t), (isOrganic t) eqn:O;
    cbn [negb filter List.length]; rewrite ?O; cbn [List.length]; lia.
Qed.

Lemma hashtag_authenticity_mono tags :
  JS.le (calculateHashtagAuthenticity tags)
        (calculateHashtagAuthenticity
           (filter (fun tag => negb (isSpammy tag)) tags)) = true.
Proof.
  unfold calculateHashtagAuthenticity.
  rewrite no_spammy_left. pose proof (organic_left tags) as O.
  set (kept := filter (fun tag => negb (isSpammy tag)) tags) in *.
  assert (K : tags = [] -> kept = []) by (now intros ->).
  cbn [List.length].
  destruct (Nat.eqb_spec (List.length tags) 0) as [T|T].
  - destruct tags; [|discriminate]. rewrite (K eq_refl). reflexivity.
  - destruct (Nat.eqb_spec (List.length kept) 0) as [E|E].
    + destruct kept; [|discriminate]. cbn [filter List.length] in O.
      destruct (Nat.ltb_spec (List.length (filter isOrganic tags))
                             (List.length (filter isSpammy tags)));
        [reflexivity|].
      destruct (Nat.ltb_spec (List.length (filter isSpammy tags))
                             (List.length (filter isOrganic tags)));
        [lia|reflexivity].
    + destruct (Nat.ltb_spec (List.length (filter isOrganic kept)) 0);
        [lia|].
      destruct (Nat.ltb_spec (List.length (filter isOrganic tags))
                             (List.length (filter isSpammy tags)));
        destruct (Nat.ltb_spec (List.length (filter isSpammy tags))
                               (List.length (filter isOrganic tags)));
        destruct (Nat.ltb_spec 0 (List.length (filter isOrganic kept)));
        try reflexivity; lia.
Qed.

Lemma disclosureCount_filter_le f tags :
  (disclosureCount (filter f tags) <= disclosureCount tags)%nat.
Proof.
  induction tags as [|t ts IH]; [apply Nat.le_refl|].
  cbn [filter]. destruct (f t); rewrite ?disclosureCount_cons; lia.
Qed.

Lemma sponsored_formula_mono sd :
  sponsored_formula (withoutPromotion sd) <= sponsored_formula sd.
Proof.
  unfold sponsored_formula. cbn [withoutPromotion
    TikTokVideoData.paid_promotion_detected TikTokVideoData.affiliate_codes
    TikTokVideoData.promotional_keywords TikTokVideoData.hashtags].
  pose proof (disclosureCount_filter_le
                (fun tag => negb (isSpammy tag))
                (TikTokVideoData.hashtags sd)).
  destruct (TikTokVideoData.paid_promotion_detected sd);
    destruct (TikTokVideoData.affiliate_codes sd);
    destruct (TikTokVideoData.promotional_keywords sd); lia.
Qed.

Lemma socialScore_present sd :
  exists f h,
    calculateSponsoredProbability sd = ofZ f
    /\ calculateHashtagAuthenticity (TikTokVideoData.hashtags sd) = ofZ h
    /\ socialScore (analyzeSocialMedia (Some sd))
       = Num ((100 - inject_Z f + inject_Z h) / 2).
Proof.
  destruct (calculateSponsoredProbability_range sd) as (f & F & _).
  destruct (calculateHashtagAuthenticity_range (TikTokVideoData.hashtags sd))
    as (h & H & _).
  exists f, h. repeat split; try assumption.
  unfold socialScore.
  cbn [analyzeSocialMedia has_social_data sponsored_content_probability
       hashtag_authenticity].
  rewrite F, H. reflexivity.
Qed.

Lemma socialScore_mono sd :
  exists x y,
    socialScore (analyzeSocialMedia (Some sd)) = Num x
    /\ socialScore (analyzeSocialMedia (Some (withoutPromotion sd))) = Num y
    /\ (x <= y)%Q.
Proof.
  destruct (socialScore_present sd) as (f & h & F & H & S).
  destruct (socialScore_present (withoutPromotion sd))
    as (f' & h' & F' & H' & S').
  do 2 eexists. split; [exact S|]. split; [exact S'|].
  assert (Lf : f' <= f).
  { rewrite calculateSponsoredProbability_formula in F, F'.
    unfold ofZ in F, F'. injection F as F. injection F' as F'.
    rewrite <- F, <- F'. apply sponsored_formula_mono. }
  assert (Lh : h <= h').
  { pose proof (hashtag_authenticity_mono (TikTokVideoData.hashtags sd)) as M.
    cbn [withoutPromotion TikTokVideoData.hashtags] in H'.
    rewrite H, H', le_ofZ in M. now apply Z.leb_le. }
  rewrite Zle_Qle in Lf, Lh.
  generalize dependent (inject_Z f). generalize dependent (inject_Z f').
  generalize dependent (inject_Z h). generalize dependent (inject_Z h').
  intros. unfold Qdiv. apply Qmult_le_compat_r; [lra|discriminate].
Qed.

Lemma weightedSum_mono p i r c x y :
  (x <= y)%Q ->
  exists u v,
    weightedSum (Num p) (Num x) (Num i) (Num r) (Num c) = Num u
    /\ weightedSum (Num p) (Num y) (Num i) (Num r) (Num c) = Num v
    /\ (u <= v)%Q.
Proof.
  intro L. do 2 eexists. split; [reflexivity|]. split; [reflexivity|]. lra.
Qed.

Lemma productScore_finite p : finite (productScore (analyzeProduct_Internal p)).
Proof.
  apply finite_halved_sum; apply score_finite;
    [apply availability_score_range|apply assessPriceReasonableness_range].
Qed.

Lemma ingredientScore_finite db ing :
  finite (ingredientScore (analyzeIngredients db ing)).
Proof.
  apply finite_halved_sum; apply score_finite; apply analyzeIngredients_range.
Qed.

Lemma priceScore_finite price quality :
  finite quality ->
  extractNumericPrice price <> Some NaN ->
  finite (priceScore (analyzePrice price quality)).
Proof. intros Q N. now apply score_finite, analyzePrice_range. Qed.

(** Monotonic social penalty, on every input whose price text does not
    parse to NaN: clearing the flag, the affiliate codes and the spammy
    hashtags never lowers the score. *)
Lemma social_penalty_monotone db p sd r now :
  extractNumericPrice (ProductData.price p) <> Some NaN ->
  JS.le (reality_score (analyzeProduct db p (Some sd) r now))
        (reality_score
           (analyzeProduct db p (Some (withoutPromotion sd)) r now)) = true.
Proof.
  intro N. rewrite !reality_score_of. unfold calculateOverallScore.
  destruct (productScore_finite p) as (P & ->).
  destruct (ingredientScore_finite db (ProductData.ingredients p)) as (I & ->).
  destruct (reviewScore_finite r) as (R & ->).
  destruct (priceScore_finite (ProductData.price p)
              (ingredient_quality_score
                 (analyzeIngredients db (ProductData.ingredients p))))
    as (C & ->); [|exact N|].
  { apply score_finite, analyzeIngredients_range. }
  destruct (socialScore_mono sd) as (x & y & -> & -> & L).
  destruct (weightedSum_mono P I R C x y L) as (u & v & -> & -> & Luv).
  rewrite !clamp_Num, le_ofZ. apply Z.leb_le. now apply clampZ_mono.
Qed.

(** ** A price text with a comma and no digit *)

Lemma unavailable_price_is_NaN :
  match_price (ProductData.price Examples.unavailable) = Some ","
  /\ extractNumericPrice (ProductData.price Examples.unavailable) = Some NaN.
Proof. split; reflexivity. Qed.

Lemma NaN_not_in_0_100 : ~ in_0_100 NaN.
Proof. intros (H & _). discriminate. Qed.

(** C6. The monotonicity of the social penalty fails for the product whose
    price text is "Sorry, unavailable": with the flagged record of scenario
    2 and with its counterpart without promotion the score is NaN both
    times, and NaN <= NaN is false. *)
Theorem social_penalty_on_unavailable_price :
  let flagged := Examples.scenario2 in
  let score sd :=
    reality_score
      (analyzeProduct (Some getBuiltInIngredientData) Examples.unavailable
                      (Some sd) None Examples.timestamp) in
  TikTokVideoData.paid_promotion_detected flagged = true
  /\ score flagged = NaN
  /\ score (withoutPromotion flagged) = NaN
  /\ JS.le (score flagged) (score (withoutPromotion flagged)) = false.
Proof.
  cbv zeta.
  destruct (nan_price_poisons_score (Some getBuiltInIngredientData)
              Examples.unavailable (Some Examples.scenario2) None
              Examples.timestamp (proj2 unavailable_price_is_NaN))
    as (_ & ->).
  destruct (nan_price_poisons_score (Some getBuiltInIngredientData)
              Examples.unavailable
              (Some (withoutPromotion Examples.scenario2)) None
              Examples.timestamp (proj2 unavailable_price_is_NaN))
    as (_ & ->).
  repeat split.
Qed.

(** C8. The bounds fail for the product whose price text is
    "Sorry, unavailable": the pattern matches the comma alone, the price is
    NaN, and both price_vs_ingredients and reality_score are NaN, which is
    not within 0 and 100. *)
Theorem scores_on_unavailable_price :
  let res := analyzeProduct (Some getBuiltInIngredientData)
                            Examples.unavailable None None
                            Examples.timestamp in
  extractNumericPrice (ProductData.price Examples.unavailable) = Some NaN
  /\ price_vs_ingredients (price_analysis res) = NaN
  /\ reality_score res = NaN
  /\ ~ in_0_100 (price_vs_ingredients (price_analysis res))
  /\ ~ in_0_100 (reality_score res).
Proof.
  cbv zeta.
  destruct (nan_price_poisons_score (Some getBuiltInIngredientData)
              Examples.unavailable None None Examples.timestamp
              (proj2 unavailable_price_is_NaN)) as (-> & ->).
  repeat split; try apply NaN_not_in_0_100.
Qed.

(** Absent inputs, an empty ingredient list and a price text without digit
    or comma are replaced by the documented neutral values. *)
Lemma neutral_defaults db p now :
  ProductData.parsed (ProductData.ingredients p) = [] ->
  Str.filter Str.isDigitOrComma (ProductData.price p) = EmptyString ->
  let res := analyzeProduct db p None None now in
  social_analysis res
  = {| has_social_data := false;
       promotional_detected := false;
       affiliate_codes_found := 0;
       hashtag_authenticity := num 50;
       influencer_credibility := cred_unknown;
       sponsored_content_probability := num 0 |}
  /\ ingredient_analysis res
     = {| total_ingredients := 0;
          beneficial_ingredients := [];
          potentially_harmful := [];
          ingredient_quality_score := num 0;
          ingredient_authenticity := num 50 |}
  /\ review_analysis res = noReviews
  /\ price_analysis res = unknownPrice (ProductData.price p)
  /\ price_reasonableness (product_analysis res) = num 50
  /\ data_sources res = [ProductData.platform p].
Proof.
  intros I P res. subst res.
  assert (A : analyzeIngredients db (ProductData.ingredients p)
              = {| total_ingredients := 0;
                   beneficial_ingredients := [];
                   potentially_harmful := [];
                   ingredient_quality_score := num 0;
                   ingredient_authenticity := num 50 |}).
  { unfold analyzeIngredients. now rewrite I. }
  repeat split.
  - exact A.
  - rewrite price_analysis_of. now apply analyzePrice_unknown.
  - change (assessPriceReasonableness (ProductData.price p) = num 50).
    unfold assessPriceReasonableness, extractNumericPrice.
    now rewrite (match_price_None _ P).
Qed.

(** C9. The neutral defaults fail for the product whose price text is
    "Sorry, unavailable": the text holds no digit, yet the price analysis is
    not the documented one for an unknown price (the text itself, "unknown",
    50, market_rate) but Luxury, poor, NaN, premium; price_reasonableness is
    30 instead of 50, and reality_score is NaN. *)
Theorem unavailable_price_is_not_neutral :
  let p := Examples.unavailable in
  let res := analyzeProduct (Some getBuiltInIngredientData) p None None
                            Examples.timestamp in
  Str.filter Str.isDigit (ProductData.price p) = EmptyString
  /\ price_analysis res
     = {| price_range := "Luxury ($100+)";
          value_assessment := poor;
          price_vs_ingredients := NaN;
          market_comparison := premium |}
  /\ price_analysis res <> unknownPrice (ProductData.price p)
  /\ price_reasonableness (product_analysis res) = num 30
  /\ reality_score res = NaN.
Proof.
  cbv zeta. rewrite price_analysis_of.
  rewrite (analyzePrice_NaN _ _ (proj2 unavailable_price_is_NaN)).
  destruct (nan_price_poisons_score (Some getBuiltInIngredientData)
              Examples.unavailable None None Examples.timestamp
              (proj2 unavailable_price_is_NaN)) as (_ & ->).
  repeat split; discriminate.
Qed.

(** * Further properties of the engine *)

(** ** Price extraction *)

Lemma span_app p a b :
  all_chars p a = true -> starts_with p b = false ->
  Str.span p (a ++ b) = (a, b).
Proof.
  induction a as [|c a IH]; cbn [all_chars append]; intros A B.
  - destruct b as [|c b]; [reflexivity|]. cbn in *. now rewrite B.
  - apply andb_true_iff in A as (C & A). cbn [Str.span]. rewrite C.
    now rewrite (IH A B).
Qed.

Lemma string_app_empty (s : string) : s ++ EmptyString = s.
Proof. induction s as [|c s IH]; [reflexivity|]. cbn [append]. now rewrite IH. Qed.

Lemma span_all p s : all_chars p s = true -> Str.span p s = (s, EmptyString).
Proof.
  intro A. rewrite <- (string_app_empty s) at 1.
  now apply span_app.
Qed.

Lemma match_price_skip pre s :
  all_chars notDigitOrComma pre = true ->
  match_price (pre ++ s) = match_price s.
Proof.
  induction pre as [|c pre IH]; [reflexivity|].
  cbn [all_chars append match_price]. intro A.
  apply andb_true_iff in A as (C & A). unfold notDigitOrComma in C.
  apply negb_true_iff in C. rewrite C. auto.
Qed.

Lemma not_dot_branch (A : Type) (c : ascii) (r : string)
      (X : string -> A) (Y : A) :
  Ascii.eqb c "." = false ->
  match String c r with
  | String "." a => X a
  | _ => Y
  end = Y.
Proof.
  destruct c as [[] [] [] [] [] [] [] []]; intro H; try reflexivity.
  discriminate.
Qed.

Lemma match_price_run run post :
  run <> EmptyString ->
  all_chars Str.isDigitOrComma run = true ->
  starts_with extendsNumber post = false ->
  match_price (run ++ post) = Some run.
Proof.
  intros N A P. destruct run as [|c run]; [congruence|].
  pose proof A as A'. cbn [all_chars] in A'.
  apply andb_true_iff in A' as (C & _).
  cbn [append match_price]. rewrite C.
  change (String c (run ++ post)) with (String c run ++ post).
  assert (P' : starts_with Str.isDigitOrComma post = false).
  { destruct post; [reflexivity|]. cbn in *. unfold extendsNumber in P.
    now apply orb_false_iff in P. }
  rewrite (span_app _ _ _ A P').
  destruct post as [|d post]; [reflexivity|].
  apply not_dot_branch. cbn in P. unfold extendsNumber in P.
  now apply orb_false_iff in P.
Qed.

Lemma match_price_Some_or_clean price :
  match_price price = None ->
  all_chars notDigitOrComma price = true.
Proof.
  induction price as [|c rest IH]; [reflexivity|].
  cbn [match_price all_chars]. unfold notDigitOrComma at 1.
  destruct (Str.isDigitOrComma c); [|exact IH].
  destruct (Str.span Str.isDigitOrComma (String c rest)) as [run after].
  destruct after as [|d after]; [discriminate|].
  destruct d as [[] [] [] [] [] [] [] []]; discriminate.
Qed.

(** X1. [extractNumericPrice] answers null exactly for the price texts that
    hold neither a digit nor a comma. *)
Theorem extractNumericPrice_null_iff price :
  extractNumericPrice price = None
  <-> all_chars notDigitOrComma price = true.
Proof.
  unfold extractNumericPrice. split.
  - destruct (match_price price) eqn:E; [discriminate|].
    intros _. now apply match_price_Some_or_clean.
  - intro A. rewrite <- (string_app_empty price).
    rewrite match_price_skip by assumption. reflexivity.
Qed.

Lemma parseFloat_empty : JS.parseFloat EmptyString = NaN.
Proof. reflexivity. Qed.

Lemma remove_commas_of_commas_only :
  Str.filter (fun c => negb (Str.isComma c)) "," = EmptyString.
Proof. reflexivity. Qed.

(** X2. A price text whose first digit-or-comma character is a comma that
    is not followed by a digit, a comma or a dot parses to NaN, and the
    reality score of every analysis of such a product is NaN. *)
Theorem lone_comma_price_is_NaN pre post :
  all_chars notDigitOrComma pre = true ->
  starts_with extendsNumber post = false ->
  extractNumericPrice (pre ++ "," ++ post) = Some NaN
  /\ forall db p s r now,
       ProductData.price p = pre ++ "," ++ post ->
       reality_score (analyzeProduct db p s r now) = NaN.
Proof.
  intros A P.
  assert (E : extractNumericPrice (pre ++ "," ++ post) = Some NaN).
  { unfold extractNumericPrice. rewrite match_price_skip by assumption.
    rewrite (match_price_run "," post); [reflexivity|discriminate| |assumption].
    reflexivity. }
  split; [exact E|]. intros db p s r now Hp.
  apply nan_price_poisons_score. now rewrite Hp.
Qed.

Lemma lone_comma_price_is_NaN_witness :
  extractNumericPrice "Sale, $5" = Some NaN
  /\ forall db p s r now,
       ProductData.price p = "Sale, $5" ->
       reality_score (analyzeProduct db p s r now) = NaN.
Proof.
  exact (lone_comma_price_is_NaN "Sale" " $5" eq_refl eq_refl).
Defined.

Lemma string_of_uint_digits d :
  all_chars Str.isDigit (NilEmpty.string_of_uint d) = true.
Proof. induction d; cbn [NilEmpty.string_of_uint all_chars]; auto. Qed.

Lemma digits_value_of_uint d acc :
  Str.digits_value (Z.of_nat acc) (NilEmpty.string_of_uint d)
  = Z.of_nat (Nat.of_uint_acc d acc).
Proof.
  revert acc.
  induction d; intro acc;
    cbn [NilEmpty.string_of_uint Str.digits_value Nat.of_uint_acc];
    try reflexivity;
    rewrite <- IHd; f_equal; rewrite Nat.tail_mul_spec;
    unfold Str.digit_value;
    match goal with
    | |- context [Z.of_nat (nat_of_ascii ?c)] =>
        let v := eval vm_compute in (Z.of_nat (nat_of_ascii c)) in
        change (Z.of_nat (nat_of_ascii c)) with v
    end; lia.
Qed.

Lemma digits_value_string_of_nat n :
  Str.digits_value 0 (string_of_nat n) = Z.of_nat n.
Proof.
  unfold string_of_nat.
  change 0 with (Z.of_nat 0).
  rewrite (digits_value_of_uint (Nat.to_uint n) 0).
  change (Nat.of_uint_acc (Nat.to_uint n) 0) with (Nat.of_uint (Nat.to_uint n)).
  now rewrite DecimalNat.Unsigned.of_to.
Qed.

Lemma string_of_nat_nonempty n : string_of_nat n <> EmptyString.
Proof.
  intro H. pose proof (digits_value_string_of_nat n) as V. rewrite H in V.
  cbn in V. destruct n; [discriminate H|lia].
Qed.

Lemma digits_are_not_commas d :
  all_chars Str.isDigit d = true ->
  Str.filter (fun c => negb (Str.isComma c)) d = d.
Proof.
  induction d as [|c d IH]; [reflexivity|]. cbn [all_chars Str.filter].
  intro A. apply andb_true_iff in A as (C & A). rewrite (IH A).
  destruct (Str.isComma c) eqn:K; [|reflexivity].
  unfold Str.isComma in K. apply Ascii.eqb_eq in K. subst c. discriminate.
Qed.

Lemma digits_are_digits_or_commas d :
  all_chars Str.isDigit d = true ->
  all_chars Str.isDigitOrComma d = true.
Proof.
  induction d as [|c d IH]; [reflexivity|]. cbn [all_chars].
  intro A. apply andb_true_iff in A as (C & A).
  rewrite (IH A). unfold Str.isDigitOrComma. now rewrite C.
Qed.

Lemma parseFloat_digits d :
  d <> EmptyString -> all_chars Str.isDigit d = true ->
  JS.parseFloat d = ofZ (Str.digits_value 0 d).
Proof.
  intros N A. unfold JS.parseFloat. rewrite (span_all _ _ A).
  destruct d as [|c d]; [congruence|].
  unfold ofZ. f_equal. cbn [String.length Z.of_nat Z.pow Z.to_pos].
  unfold Qplus, inject_Z. cbn [Qnum Qden].
  now rewrite Z.mul_1_r, Z.add_0_r.
Qed.

(** X3. A whole number written in decimal digits is read back exactly: when
    the digits of [n] (below 2^53) stand in a price text after characters
    that are neither digits nor commas, and before a character that is
    neither a digit, a comma nor a dot (or the end), the extracted price
    is [n]. *)
Theorem price_of_digits pre n post :
  exact_integer n ->
  all_chars notDigitOrComma pre = true ->
  starts_with extendsNumber post = false ->
  extractNumericPrice (pre ++ string_of_nat n ++ post) = Some (ofNat n).
Proof.
  intros _ A P. unfold extractNumericPrice.
  rewrite match_price_skip by assumption.
  pose proof (string_of_uint_digits (Nat.to_uint n)) as D.
  fold (string_of_nat n) in D.
  rewrite (match_price_run (string_of_nat n) post);
    [|apply string_of_nat_nonempty
     |now apply digits_are_digits_or_commas|assumption].
  rewrite digits_are_not_commas by assumption.
  rewrite parseFloat_digits by (assumption || apply string_of_nat_nonempty).
  now rewrite digits_value_string_of_nat.
Qed.

Lemma price_of_digits_witness :
  extractNumericPrice "USD 1299 each" = Some (ofNat 1299).
Proof.
  refine (price_of_digits "USD " 1299 " each" _ eq_refl eq_refl).
  unfold exact_integer. vm_compute. reflexivity.
Defined.

Lemma span_fst_all p s : all_chars p (fst (Str.span p s)) = true.
Proof.
  induction s as [|c s IH]; [reflexivity|]. cbn [Str.span].
  destruct (p c) eqn:C; [|reflexivity].
  destruct (Str.span p s) as [a b]. cbn [fst all_chars] in *.
  now rewrite C, IH.
Qed.

Lemma digit_value_nonneg c : Str.isDigit c = true -> 0 <= Str.digit_value c.
Proof.
  unfold Str.isDigit, Str.digit_value. intro H.
  apply andb_true_iff in H as (L & _). apply Nat.leb_le in L. lia.
Qed.

Lemma digits_value_nonneg s acc :
  0 <= acc -> all_chars Str.isDigit s = true -> 0 <= Str.digits_value acc s.
Proof.
  revert acc. induction s as [|c s IH]; intros acc A D; [exact A|].
  cbn [all_chars] in D. apply andb_true_iff in D as (C & D).
  cbn [Str.digits_value]. apply IH; [|exact D].
  pose proof (digit_value_nonneg c C). lia.
Qed.

Lemma parseFloat_nonneg t q : JS.parseFloat t = Num q -> (0 <= q)%Q.
Proof.
  unfold JS.parseFloat.
  pose proof (span_fst_all Str.isDigit t) as I.
  destruct (Str.span Str.isDigit t) as [ip rest]. cbn [fst] in I.
  set (fp := match rest with
             | String "." r => fst (Str.span Str.isDigit r)
             | _ => EmptyString
             end).
  assert (F : all_chars Str.isDigit fp = true).
  { subst fp. destruct rest as [|c r]; [reflexivity|].
    destruct c as [[] [] [] [] [] [] [] []]; try reflexivity.
    apply span_fst_all. }
  pose proof (digits_value_nonneg ip 0 (Z.le_refl 0) I) as Hi.
  pose proof (digits_value_nonneg fp 0 (Z.le_refl 0) F) as Hf.
  intro E.
  assert (V : q = (inject_Z (Str.digits_value 0 ip)
                   + (Str.digits_value 0 fp
                      # Z.to_pos (10 ^ Z.of_nat (String.length fp))))%Q).
  { destruct ip, fp; try discriminate E; now injection E as <-. }
  rewrite V. clear V E.
  apply Qle_trans with (inject_Z (Str.digits_value 0 ip) + 0)%Q.
  - rewrite Qplus_0_r. change 0%Q with (inject_Z 0). now rewrite <- Zle_Qle.
  - apply Qplus_le_r. unfold Qle. cbn [Qnum Qden]. lia.
Qed.

(** X4. An extracted price is never negative: the pattern reads no sign, so
    a minus before the digits is dropped. *)
Theorem extracted_price_nonnegative price p :
  extractNumericPrice price = Some (Num p) -> (0 <= p)%Q.
Proof.
  unfold extractNumericPrice. destruct (match_price price) as [m|]; [|discriminate].
  intro E. injection E as E. now apply parseFloat_nonneg in E.
Qed.

Lemma extracted_price_nonnegative_witness :
  extractNumericPrice "-$5" = Some (Num 5) /\ (0 <= 5)%Q.
Proof.
  split; [reflexivity|].
  exact (extracted_price_nonnegative "-$5" 5 eq_refl).
Defined.

(** ** Price scores *)

Lemma billedPrice_ge_1 p : (1 <= billedPrice p)%Q.
Proof.
  unfold billedPrice. destruct (Qle_bool p 1) eqn:E; [apply Qle_refl|].
  apply Qle_bool_false in E. lra.
Qed.

Lemma billedPrice_mono p p' : (p <= p')%Q -> (billedPrice p <= billedPrice p')%Q.
Proof.
  intro L. unfold billedPrice.
  destruct (Qle_bool p 1) eqn:E; destruct (Qle_bool p' 1) eqn:E';
    q_cases; lra.
Qed.

Lemma calculatePriceIngredientRatio_value p q :
  calculatePriceIngredientRatio (Num p) (Num q) = ofZ (clampZ (priceRatio p q)).
Proof.
  unfold calculatePriceIngredientRatio, priceRatio, billedPrice.
  rewrite <- clamp_Num. f_equal. f_equal. f_equal.
  cbn [JS.mul JS.max JS.le num ofZ].
  change (inject_Z 1) with 1%Q.
  destruct (Qle_bool p 1) eqn:E; cbn [JS.div].
  - reflexivity.
  - assert (Z : Qzero_b p = false).
    { apply Qzero_b_false. apply Qle_bool_false in E. lra. }
    now rewrite Z.
Qed.

Lemma Qinv_antitone m m' : (0 < m')%Q -> (m' <= m)%Q -> (/ m <= / m')%Q.
Proof.
  intros P L. apply Qle_shift_inv_r; [lra|].
  rewrite Qmult_comm. change (m * / m')%Q with (m / m')%Q.
  apply Qle_shift_div_l; lra.
Qed.

Lemma priceRatio_mono p p' q q' :
  (p' <= p)%Q -> (0 <= q <= q')%Q -> (priceRatio p q <= priceRatio p' q')%Q.
Proof.
  intros Lp Lq. unfold priceRatio, Qdiv.
  pose proof (billedPrice_ge_1 p) as B. pose proof (billedPrice_ge_1 p') as B'.
  pose proof (billedPrice_mono _ _ Lp) as M.
  apply Qmult_le_compat_r; [|discriminate].
  apply Qmult_le_compat_nonneg.
  - split; lra.
  - split; [apply Qinv_le_0_compat; lra|]. apply Qinv_antitone; lra.
Qed.

Lemma assessPriceReasonableness_antitone a b pa pb :
  extractNumericPrice a = Some (Num pa) ->
  extractNumericPrice b = Some (Num pb) ->
  (pb <= pa)%Q ->
  JS.le (assessPriceReasonableness a) (assessPriceReasonableness b) = true.
Proof.
  intros Ea Eb L. unfold assessPriceReasonableness. rewrite Ea, Eb.
  unfold num, ofZ.
  destruct (JS.le (Num pa) (Num (inject_Z 15))) eqn:A1;
    destruct (JS.le (Num pa) (Num (inject_Z 30))) eqn:A2;
    destruct (JS.le (Num pa) (Num (inject_Z 60))) eqn:A3;
    destruct (JS.le (Num pa) (Num (inject_Z 100))) eqn:A4;
    destruct (JS.le (Num pb) (Num (inject_Z 15))) eqn:B1;
    destruct (JS.le (Num pb) (Num (inject_Z 30))) eqn:B2;
    destruct (JS.le (Num pb) (Num (inject_Z 60))) eqn:B3;
    destruct (JS.le (Num pb) (Num (inject_Z 100))) eqn:B4;
    try reflexivity; exfalso; q_cases; unfold inject_Z in *; lra.
Qed.

(** X5. Price and quality act monotonically on the two price scores: for
    two price texts with extracted prices pb <= pa and qualities
    0 <= q <= q', the cheaper product has at least the price_reasonableness
    of the dearer one, and the cheaper product of higher quality has at least
    its price_vs_ingredients. *)
Theorem price_scores_monotone a b pa pb q q' :
  extractNumericPrice a = Some (Num pa) ->
  extractNumericPrice b = Some (Num pb) ->
  (pb <= pa)%Q -> (0 <= q <= q')%Q ->
  JS.le (assessPriceReasonableness a) (assessPriceReasonableness b) = true
  /\ JS.le (price_vs_ingredients (analyzePrice a (Num q)))
           (price_vs_ingredients (analyzePrice b (Num q'))) = true.
Proof.
  intros Ea Eb Lp Lq. split.
  - eapply assessPriceReasonableness_antitone; eassumption.
  - unfold analyzePrice. rewrite Ea, Eb. cbn [price_vs_ingredients].
    rewrite !calculatePriceIngredientRatio_value, le_ofZ.
    apply Z.leb_le, clampZ_mono. now apply priceRatio_mono.
Qed.

Lemma price_scores_monotone_witness :
  JS.le (assessPriceReasonableness "$45") (assessPriceReasonableness "$18")
  = true
  /\ JS.le (price_vs_ingredients (analyzePrice "$45" (Num 40)))
           (price_vs_ingredients (analyzePrice "$18" (Num 60))) = true.
Proof.
  refine (price_scores_monotone "$45" "$18" 45 18 40 60 eq_refl eq_refl _ _).
  - discriminate.
  - split; discriminate.
Defined.

(** ** Value for money *)

Lemma Qle_div_iff k q d : (0 < d)%Q -> (k <= q / d <-> k * d <= q)%Q.
Proof.
  intro D. split; intro H.
  - apply Qnot_lt_le. intro C. apply (Qlt_shift_div_r _ _ _ D) in C.
    apply (Qlt_not_le _ _ C H).
  - now apply Qle_shift_div_l.
Qed.

Lemma value_at_least k p q :
  (0 < p)%Q ->
  JS.ge (JS.div (Num q) (JS.div (Num p) (num 10))) (num k) = true
  <-> (inject_Z k * p <= 10 * q)%Q.
Proof.
  intro P. unfold JS.ge, num, ofZ. cbn [JS.div].
  change (Qzero_b (inject_Z 10)) with false. cbn iota.
  assert (D : (0 < p / inject_Z 10)%Q).
  { change (p / inject_Z 10)%Q with (p * (1 # 10))%Q. lra. }
  assert (Z : Qzero_b (p / inject_Z 10) = false).
  { apply Qzero_b_false. lra. }
  rewrite Z. cbn [JS.le]. rewrite Qle_bool_iff, (Qle_div_iff _ _ _ D).
  change (p / inject_Z 10)%Q with (p * (1 # 10))%Q.
  generalize (inject_Z k). intro c. split; intro; nra.
Qed.

(** X6. For a positive price p and a quality q the value assessment is
    excellent exactly when 10q >= 8p, good when 6p <= 10q < 8p, fair when
    4p <= 10q < 6p and poor below; at price 0 the division by zero makes
    every positive quality excellent and every other quality poor. *)
Theorem value_for_money_rule p q :
  let v := assessValueForMoney (Num p) (Num q) in
  ((0 < p)%Q ->
     (v = excellent <-> (8 * p <= 10 * q)%Q)
     /\ (v = good <-> (6 * p <= 10 * q < 8 * p)%Q)
     /\ (v = fair <-> (4 * p <= 10 * q < 6 * p)%Q)
     /\ (v = poor <-> (10 * q < 4 * p)%Q))
  /\ ((p == 0)%Q -> (0 < q)%Q -> v = excellent)
  /\ ((p == 0)%Q -> (q <= 0)%Q -> v = poor).
Proof.
  intro v. subst v. unfold assessValueForMoney. split; [|split].
  - intro P.
    pose proof (value_at_least 8 p q P) as H8.
    pose proof (value_at_least 6 p q P) as H6.
    pose proof (value_at_least 4 p q P) as H4.
    change (inject_Z 8) with 8%Q in H8. change (inject_Z 6) with 6%Q in H6.
    change (inject_Z 4) with 4%Q in H4.
    destruct (JS.ge _ (num 8)) eqn:E8; destruct (JS.ge _ (num 6)) eqn:E6;
      destruct (JS.ge _ (num 4)) eqn:E4;
      repeat split; intros; try discriminate; try reflexivity;
      repeat match goal with
             | H : true = true <-> _ |- _ =>
                 let T := fresh in pose proof (proj1 H eq_refl) as T; clear H
             | H : false = true <-> _ |- _ =>
                 let T := fresh in
                 assert (T := fun x => Bool.diff_false_true (proj2 H x));
                 clear H
             end;
      try lra;
      try (exfalso;
           repeat match goal with
                  | H : _ -> False |- _ =>
                      solve [apply H; lra]
                  end).
  - intros Z Q0. cbn [JS.div num ofZ].
    change (Qzero_b (inject_Z 10)) with false. cbn iota.
    assert (Z0 : Qzero_b (p / inject_Z 10) = true).
    { apply Qzero_b_true. rewrite Z. reflexivity. }
    rewrite Z0.
    assert (Zq : Qzero_b q = false) by (apply Qzero_b_false; lra).
    assert (Nq : Qneg_b q = false) by (apply Qlt_b_false; lra).
    now rewrite Zq, Nq.
  - intros Z Q0. cbn [JS.div num ofZ].
    change (Qzero_b (inject_Z 10)) with false. cbn iota.
    assert (Z0 : Qzero_b (p / inject_Z 10) = true).
    { apply Qzero_b_true. rewrite Z. reflexivity. }
    rewrite Z0.
    destruct (Qzero_b q) eqn:Zq; [reflexivity|].
    assert (Nq : Qneg_b q = true).
    { apply Qlt_b_true. apply Qzero_b_false in Zq. lra. }
    now rewrite Nq.
Qed.

Lemma value_for_money_rule_witness :
  assessValueForMoney (Num 20) (Num 16) = excellent
  /\ assessValueForMoney (Num 0) (Num 1) = excellent.
Proof.
  pose proof (value_for_money_rule 20 16) as (A & _).
  pose proof (value_for_money_rule 0 1) as (_ & B & _).
  cbv zeta in A, B. split.
  - apply A; [reflexivity | discriminate].
  - apply B; reflexivity.
Defined.

(** ** The reachable range of the reality score *)

Ltac literal_between :=
  match goal with
  | |- score_between _ _ (num ?z) => exists z; split; [reflexivity | lia]
  end.

Lemma availability_between p :
  score_between 50 90 (availability_score (analyzeProduct_Internal p)).
Proof.
  cbn [analyzeProduct_Internal availability_score].
  repeat match goal with
         | |- context [String.eqb ?a ?b] => destruct (String.eqb a b)
         end; literal_between.
Qed.

Lemma assessPriceReasonableness_between price :
  score_between 30 95 (assessPriceReasonableness price).
Proof.
  unfold assessPriceReasonableness.
  destruct (extractNumericPrice price) as [n|]; [|literal_between].
  repeat match goal with
         | |- context [JS.le ?a ?b] => destruct (JS.le a b)
         end; literal_between.
Qed.

Lemma calculateHashtagAuthenticity_between tags :
  score_between 30 85 (calculateHashtagAuthenticity tags).
Proof.
  unfold calculateHashtagAuthenticity.
  repeat match goal with
         | |- context [if ?c then _ else _] => destruct c
         end; literal_between.
Qed.

Lemma calculateReviewAuthenticity_between sb :
  score_between 30 85 (calculateReviewAuthenticity sb).
Proof.
  unfold calculateReviewAuthenticity.
  repeat match goal with
         | |- context [if ?c then _ else _] => destruct c
         end; literal_between.
Qed.

Lemma clamp_ofZ z : clamp (ofZ z) = ofZ (Z.max 0 (Z.min 100 z)).
Proof. unfold num. now rewrite min_ofZ, max_ofZ, round_ofZ. Qed.

Lemma calculateIngredientAuthenticity_between ing :
  score_between 75 100 (calculateIngredientAuthenticity ing).
Proof.
  unfold calculateIngredientAuthenticity, num.
  repeat match goal with
         | |- context [if ?c then _ else _] => destruct c
         | |- context [match ?l with [] => _ | _ :: _ => _ end] => destruct l
         end;
    rewrite ?add_ofZ, clamp_ofZ; eexists; (split; [reflexivity|]);
    cbn; lia.
Qed.

Lemma halved_sum_between a b lo hi lo' hi' :
  score_between lo hi a -> score_between lo' hi' b ->
  value_between (inject_Z (lo + lo') * (1 # 2)) (inject_Z (hi + hi') * (1 # 2))
                (JS.div (JS.add a b) (num 2)).
Proof.
  intros (x & -> & Hx) (y & -> & Hy).
  exists ((inject_Z x + inject_Z y) * (1 # 2))%Q. split; [reflexivity|].
  rewrite <- inject_Z_plus.
  assert (L : lo + lo' <= x + y) by lia. assert (U : x + y <= hi + hi') by lia.
  rewrite Zle_Qle in L, U.
  generalize dependent (inject_Z (x + y)).
  generalize (inject_Z (lo + lo')) (inject_Z (hi + hi')). intros. lra.
Qed.

Ltac eval_inject H :=
  repeat match type of H with
         | context [inject_Z (?a + ?b)] =>
             let v := eval vm_compute in (inject_Z (a + b)) in
             change (inject_Z (a + b)) with v in H
         end.

Lemma productScore_between p :
  value_between 40 92.5 (productScore (analyzeProduct_Internal p)).
Proof.
  destruct (halved_sum_between _ _ _ _ _ _ (availability_between p)
              (assessPriceReasonableness_between (ProductData.price p)))
    as (x & E & B).
  exists x. split; [exact E|]. eval_inject B. lra.
Qed.

Lemma ofZ_inj a b : ofZ a = ofZ b -> a = b.
Proof. unfold ofZ, inject_Z. now intros [= ->]. Qed.

Lemma socialScore_between s :
  value_between 15 92.5 (socialScore (analyzeSocialMedia s)).
Proof.
  destruct s as [sd|].
  - destruct (socialScore_present sd) as (f & h & F & H & ->).
    destruct (calculateHashtagAuthenticity_between (TikTokVideoData.hashtags sd))
      as (h' & H' & Bh).
    rewrite H in H'. apply ofZ_inj in H'. subst h'.
    pose proof (sponsored_formula_range sd) as Bf.
    rewrite calculateSponsoredProbability_formula in F.
    apply ofZ_inj in F. rewrite F in Bf.
    eexists. split; [reflexivity|].
    destruct Bf as (F0 & F1), Bh as (H0 & H1).
    rewrite Zle_Qle in F0, F1, H0, H1.
    change ((100 - inject_Z f + inject_Z h) / 2)%Q
      with ((100 - inject_Z f + inject_Z h) * (1 # 2))%Q.
    generalize dependent (inject_Z f). generalize dependent (inject_Z h).
    intros. unfold inject_Z in *. lra.
  - exists 75%Q. split; [reflexivity|]. lra.
Qed.

Lemma ingredientScore_between db ing :
  value_between 25 100 (ingredientScore (analyzeIngredients db ing)).
Proof.
  unfold analyzeIngredients.
  destruct (List.length (ProductData.parsed ing) =? 0)%nat.
  - eexists. split; [reflexivity|].
    split; apply Qle_bool_iff; reflexivity.
  - destruct (halved_sum_between _ _ 0 100 75 100
                (calculateIngredientQualityScore_range
                   (List.length
                      (findBeneficialIngredients db (ProductData.parsed ing)))
                   (List.length
                      (findHarmfulIngredients db (ProductData.parsed ing)))
                   (List.length (ProductData.parsed ing)))
                (calculateIngredientAuthenticity_between ing))
      as (x & E & B).
    exists x. split; [exact E|]. eval_inject B. lra.
Qed.

Lemma reviewScore_between r :
  value_between 30 85 (reviewScore (analyzeReviews r)).
Proof.
  unfold reviewScore. destruct (0 <? review_count (analyzeReviews r)) eqn:C.
  - destruct r as [r|]; [|discriminate C].
    unfold analyzeReviews in *.
    destruct (ReviewSummary.total_reviews r =? 0); [discriminate C|].
    cbn [review_authenticity_score].
    destruct (calculateReviewAuthenticity_between
                (ReviewSummary.sentiment_breakdown r)) as (z & -> & B).
    exists (inject_Z z). split; [reflexivity|].
    destruct B as (B0 & B1). rewrite Zle_Qle in B0, B1.
    generalize dependent (inject_Z z). intros. unfold inject_Z in *. lra.
  - exists 75%Q. split; [reflexivity|]. lra.
Qed.

Lemma priceScore_between price quality :
  finite quality -> extractNumericPrice price <> Some NaN ->
  value_between 0 100 (priceScore (analyzePrice price quality)).
Proof.
  intros Q N. destruct (analyzePrice_range price quality Q N) as (z & E & B).
  exists (inject_Z z). split; [exact E|].
  destruct B as (B0 & B1). rewrite Zle_Qle in B0, B1.
  generalize dependent (inject_Z z). intros. unfold inject_Z in *. lra.
Qed.

(** X7. Whatever the inputs, as long as the price text does not parse to
    NaN, the reality score is an integer between 23 and 94: the weights and
    the ranges of the five component scores leave no way to 0 or to 100. *)
Theorem reality_score_between_23_and_94 db p s r now :
  extractNumericPrice (ProductData.price p) <> Some NaN ->
  score_between 23 94 (reality_score (analyzeProduct db p s r now)).
Proof.
  intro N. rewrite reality_score_of. unfold calculateOverallScore.
  destruct (productScore_between p) as (P & -> & BP).
  destruct (socialScore_between s) as (S & -> & BS).
  destruct (ingredientScore_between db (ProductData.ingredients p))
    as (I & -> & BI).
  destruct (reviewScore_between r) as (R & -> & BR).
  destruct (priceScore_between (ProductData.price p)
              (ingredient_quality_score
                 (analyzeIngredients db (ProductData.ingredients p))))
    as (C & -> & BC); [|exact N|].
  { apply score_finite, analyzeIngredients_range. }
  cbn [weightedSum JS.add JS.mul weight_product weight_social
       weight_ingredient weight_review weight_price].
  rewrite clamp_Num. eexists. split; [reflexivity|]. split.
  - change 23 with (clampZ 23.25). apply clampZ_mono. lra.
  - change 94 with (clampZ 94). apply clampZ_mono. lra.
Qed.

Lemma reality_score_between_23_and_94_witness :
  score_between 23 94
    (reality_score
       (analyzeProduct (Some getBuiltInIngredientData) Examples.scenario1
                       (Some Examples.scenario2) None Examples.timestamp)).
Proof.
  apply reality_score_between_23_and_94. discriminate.
Defined.

(** ** Verdict, confidence and insights *)

Lemma confidence_of_analyzeProduct db p s r now :
  let res := analyzeProduct db p s r now in
  confidence_level res
  = if has_social_data (social_analysis res)
       && JS.gt (reality_score res) (num 80)
    then high
    else if has_social_data (social_analysis res)
            || JS.gt (reality_score res) (num 60)
    then medium
    else low.
Proof. reflexivity. Qed.

(** X8. Without a social record the verdict is never "likely_sponsored" and
    the confidence never "high"; with a social record the confidence is
    never "low". *)
Theorem social_record_and_confidence db p s r now :
  let res := analyzeProduct db p s r now in
  (s = None ->
   overall_verdict res <> likely_sponsored /\ confidence_level res <> high)
  /\ (s <> None -> confidence_level res <> low).
Proof.
  intro res.
  pose proof (verdict_of_analyzeProduct db p s r now) as V.
  pose proof (confidence_of_analyzeProduct db p s r now) as C.
  cbv zeta in V, C. fold res in V, C. split.
  - intros ->. rewrite V, C. subst res.
    change (social_analysis (analyzeProduct db p None r now))
      with (analyzeSocialMedia None).
    cbn [analyzeSocialMedia promotional_detected has_social_data
         sponsored_content_probability andb orb].
    change (JS.gt (num 0) (num 70)) with false. cbn iota. split.
    + clear. destruct (JS.ge _ _); discriminate.
    + clear. destruct (JS.gt _ _); discriminate.
  - intro N. destruct s as [sd|]; [|now elim N]. rewrite C. subst res.
    change (has_social_data
              (social_analysis (analyzeProduct db p (Some sd) r now)))
      with true.
    cbn [andb orb]. clear. destruct (JS.gt _ _); discriminate.
Qed.

Lemma social_record_and_confidence_witness :
  confidence_level
    (analyzeProduct (Some getBuiltInIngredientData) Examples.scenario1
                    (Some Examples.scenario2) None Examples.timestamp) <> low.
Proof.
  apply (proj2 (social_record_and_confidence
                  (Some getBuiltInIngredientData) Examples.scenario1
                  (Some Examples.scenario2) None Examples.timestamp)).
  discriminate.
Defined.

Lemma In_push_if (x : string) c y l :
  In x (push_if c y l) <-> In x l \/ (c = true /\ x = y).
Proof.
  unfold push_if. destruct c.
  - rewrite in_app_iff. cbn [In]. intuition.
  - intuition discriminate.
Qed.

Lemma red_flags_of db p s r now :
  red_flags (analyzeProduct db p s r now)
  = redFlags
      (generateInsights
         (analyzeProduct_Internal p) (analyzeSocialMedia s)
         (analyzeIngredients db (ProductData.ingredients p)) (analyzeReviews r)
         (analyzePrice (ProductData.price p)
            (ingredient_quality_score
               (analyzeIngredients db (ProductData.ingredients p))))).
Proof. reflexivity. Qed.

Lemma green_flags_of db p s r now :
  green_flags (analyzeProduct db p s r now)
  = greenFlags
      (generateInsights
         (analyzeProduct_Internal p) (analyzeSocialMedia s)
         (analyzeIngredients db (ProductData.ingredients p)) (analyzeReviews r)
         (analyzePrice (ProductData.price p)
            (ingredient_quality_score
               (analyzeIngredients db (ProductData.ingredients p))))).
Proof. reflexivity. Qed.

Lemma recommendations_of db p s r now :
  recommendations (analyzeProduct db p s r now)
  = recommendations_
      (generateInsights
         (analyzeProduct_Internal p) (analyzeSocialMedia s)
         (analyzeIngredients db (ProductData.ingredients p)) (analyzeReviews r)
         (analyzePrice (ProductData.price p)
            (ingredient_quality_score
               (analyzeIngredients db (ProductData.ingredients p))))).
Proof. reflexivity. Qed.

Lemma count_text_starts_with_digit n rest c tail :
  string_of_nat n ++ rest = String c tail -> Str.isDigit c = true.
Proof.
  pose proof (string_of_uint_digits (Nat.to_uint n)) as D.
  fold (string_of_nat n) in D.
  pose proof (string_of_nat_nonempty n) as N.
  destruct (string_of_nat n) as [|d ds]; [congruence|].
  cbn [append all_chars] in *. intros [= -> _].
  now apply andb_true_iff in D as (D & _).
Qed.

Lemma sponsored_red_iff product social ingredient review price :
  In Insight.sponsored_red
     (redFlags (generateInsights product social ingredient review price))
  <-> promotional_detected social = true.
Proof.
  unfold generateInsights. cbn [redFlags]. rewrite !In_push_if. cbn [In].
  split.
  - intros [[[[[[]|(H & _)]|(_ & H)]|(_ & H)]|(_ & H)]|(_ & H)];
      try assumption; try discriminate H.
    symmetry in H. apply count_text_starts_with_digit in H. discriminate H.
  - intro H. do 4 left. right. split; [assumption|reflexivity].
Qed.

Lemma fake_reviews_red_iff product social ingredient review price :
  In Insight.fake_reviews_red
     (redFlags (generateInsights product social ingredient review price))
  <-> JS.lt (review_authenticity_score review) (num 50) = true.
Proof.
  unfold generateInsights. cbn [redFlags]. rewrite !In_push_if. cbn [In].
  split.
  - intros [[[[[[]|(_ & H)]|(_ & H)]|(_ & H)]|(H & _)]|(_ & H)];
      try assumption; try discriminate H.
    symmetry in H. apply count_text_starts_with_digit in H. discriminate H.
  - intro H. left. right. split; [assumption|reflexivity].
Qed.

Lemma genuine_green_iff product social ingredient review price :
  In Insight.genuine_green
     (greenFlags (generateInsights product social ingredient review price))
  <-> negb (promotional_detected social) && has_social_data social = true.
Proof.
  unfold generateInsights. cbn [greenFlags]. rewrite !In_push_if. cbn [In].
  split.
  - intros [[[[[[]|(H & _)]|(_ & H)]|(_ & H)]|(_ & H)]|(_ & H)];
      try assumption; discriminate H.
  - intro H. do 4 left. right. split; [assumption|reflexivity].
Qed.

Lemma research_recommendation_iff product social ingredient review price :
  In Insight.research_recommendation
     (recommendations_
        (generateInsights product social ingredient review price))
  <-> promotional_detected social = true.
Proof.
  unfold generateInsights. cbn [recommendations_]. rewrite !In_push_if.
  cbn [In]. split.
  - intros [[[[[]|(H & _)]|(_ & H)]|(_ & H)]|(_ & H)];
      try assumption; discriminate H.
  - intro H. do 3 left. right. split; [assumption|reflexivity].
Qed.

(** X9. The verdict and the green flag can contradict each other: for a
    record whose flag is not set but whose sponsored probability exceeds 70,
    the verdict is "likely_sponsored" while the green flags hold "No
    promotional content detected - likely genuine recommendation" and the
    red flags do not hold the sponsored-content warning. *)
Theorem genuine_flag_beside_sponsored_verdict db p sd r now :
  TikTokVideoData.paid_promotion_detected sd = false ->
  JS.gt (calculateSponsoredProbability sd) (num 70) = true ->
  let res := analyzeProduct db p (Some sd) r now in
  overall_verdict res = likely_sponsored
  /\ In Insight.genuine_green (green_flags res)
  /\ ~ In Insight.sponsored_red (red_flags res).
Proof.
  intros F G res. subst res. split; [|split].
  - rewrite verdict_of_analyzeProduct.
    change (sponsored_content_probability
              (social_analysis (analyzeProduct db p (Some sd) r now)))
      with (calculateSponsoredProbability sd).
    rewrite G. now rewrite orb_true_r.
  - rewrite green_flags_of. apply genuine_green_iff.
    cbn [analyzeSocialMedia promotional_detected has_social_data].
    now rewrite F.
  - rewrite red_flags_of, sponsored_red_iff.
    cbn [analyzeSocialMedia promotional_detected]. now rewrite F.
Qed.

Lemma genuine_flag_beside_sponsored_verdict_witness :
  let res := analyzeProduct (Some getBuiltInIngredientData) Examples.scenario1
               (Some Examples_unflagged_promotion) None Examples.timestamp in
  overall_verdict res = likely_sponsored
  /\ In Insight.genuine_green (green_flags res)
  /\ ~ In Insight.sponsored_red (red_flags res).
Proof.
  exact (genuine_flag_beside_sponsored_verdict
           (Some getBuiltInIngredientData) Examples.scenario1
           Examples_unflagged_promotion None Examples.timestamp
           eq_refl eq_refl).
Defined.

(** X10. The promotion insights follow the collector's flag alone: the
    sponsored-content red flag and the recommendation to research
    independently are given exactly when a social record is present with
    paid_promotion_detected set, and the "likely genuine" green flag exactly
    when a social record is present with the flag cleared. *)
Theorem promotion_insights_follow_the_flag db p s r now :
  let res := analyzeProduct db p s r now in
  let flagged b :=
    exists sd, s = Some sd /\ TikTokVideoData.paid_promotion_detected sd = b in
  (In Insight.sponsored_red (red_flags res) <-> flagged true)
  /\ (In Insight.research_recommendation (recommendations res)
      <-> flagged true)
  /\ (In Insight.genuine_green (green_flags res) <-> flagged false).
Proof.
  intros res flagged. subst res flagged.
  rewrite red_flags_of, green_flags_of, recommendations_of.
  rewrite sponsored_red_iff, research_recommendation_iff, genuine_green_iff.
  destruct s as [sd|];
    cbn [analyzeSocialMedia promotional_detected has_social_data].
  - destruct (TikTokVideoData.paid_promotion_detected sd) eqn:F;
      cbn [negb andb]; repeat split; intros;
      try (exists sd; split; [reflexivity|assumption]);
      try reflexivity;
      repeat match goal with
             | H : exists _, _ |- _ => destruct H as (? & [= <-] & ?)
             end; congruence.
  - repeat split; intros; try discriminate;
      repeat match goal with
             | H : exists _, _ |- _ => destruct H as (? & ? & ?)
             end; discriminate.
Qed.

(** X11. The red flag about fake reviews is raised exactly for a present
    summary with a non-zero review count whose breakdown does not sum to 0
    and is one-sided (more than 90% positive or more than 80% negative);
    absent and empty summaries never raise it. *)
Theorem fake_review_flag_iff db p s r now :
  In Insight.fake_reviews_red (red_flags (analyzeProduct db p s r now))
  <-> exists rs,
        r = Some rs
        /\ ReviewSummary.total_reviews rs <> 0
        /\ (let sb := ReviewSummary.sentiment_breakdown rs in
            positive sb + negative sb + neutral sb <> 0 /\ one_sided sb).
Proof.
  rewrite red_flags_of, fake_reviews_red_iff.
  destruct r as [rs|]; cbn [analyzeReviews].
  2:{ split; [discriminate|]. intros (? & ? & _). discriminate. }
  destruct (Z.eqb_spec (ReviewSummary.total_reviews rs) 0) as [T|T].
  { split; [discriminate|]. intros (? & [= <-] & N & _). contradiction. }
  cbn [review_authenticity_score].
  set (sb := ReviewSummary.sentiment_breakdown rs).
  destruct (Z.eq_dec (positive sb + negative sb + neutral sb) 0) as [E|E].
  { rewrite calculateReviewAuthenticity_empty by assumption.
    split; [discriminate|]. intros (? & [= <-] & _ & N & _). contradiction. }
  rewrite calculateReviewAuthenticity_rule by assumption.
  destruct (review_rule_cases sb) as (R30 & R85 & R60).
  split.
  - intro L. exists rs. repeat split; try assumption.
    unfold one_sided.
    destruct (Qlt_le_dec 0.9 (positive_ratio sb)) as [A|A]; [now left|].
    destruct (Qlt_le_dec 0.8 (negative_ratio sb)) as [B|B]; [now right|].
    exfalso.
    assert (N : ~ one_sided sb) by (unfold one_sided; intros [?|?]; lra).
    unfold review_rule in L.
    destruct (Qlt_b 0.9 (positive_ratio sb)) eqn:E1;
      [apply Qlt_b_true in E1; lra|].
    destruct (Qlt_b 0.8 (negative_ratio sb)) eqn:E2;
      [apply Qlt_b_true in E2; lra|].
    cbn [orb] in L. destruct (_ && _); discriminate L.
  - intros (? & [= <-] & _ & _ & O). now rewrite (R30 O).
Qed.

(** X12. The data sources list the platform, then "tiktok" exactly when the
    social analysis has data, then "reviews" exactly when the review count
    of the review analysis is positive, which is when the review
    authenticity enters the weighted sum: the reality score is the
    weighted sum of the components of the result whose review component
    is the review authenticity when "reviews" is listed after the platform
    and 75 when it is not. *)
Theorem data_sources_follow_the_analyses db p s r now :
  let res := analyzeProduct db p s r now in
  let reviewsListed := existsb (String.eqb "reviews") (tl (data_sources res)) in
  data_sources res
  = (ProductData.platform p
       :: (if has_social_data (social_analysis res) then ["tiktok"] else [])
       ++ (if 0 <? review_count (review_analysis res)
           then ["reviews"] else []))%list
  /\ reviewsListed = (0 <? review_count (review_analysis res))
  /\ reviewScore (review_analysis res)
     = (if reviewsListed
        then review_authenticity_score (review_analysis res)
        else num 75)
  /\ reality_score res
     = scoreWithReviewComponent res
         (if reviewsListed
          then review_authenticity_score (review_analysis res)
          else num 75).
Proof.
  intros res reviewsListed.
  assert (L : data_sources res
              = (ProductData.platform p
                   :: (if has_social_data (social_analysis res)
                       then ["tiktok"] else [])
                   ++ (if 0 <? review_count (review_analysis res)
                       then ["reviews"] else []))%list).
  { subst res.
    change (data_sources (analyzeProduct db p s r now))
      with (getDataSources p s r).
    change (social_analysis (analyzeProduct db p s r now))
      with (analyzeSocialMedia s).
    change (review_analysis (analyzeProduct db p s r now))
      with (analyzeReviews r).
    unfold getDataSources.
    destruct s as [sd|], r as [rs|];
      cbn [analyzeSocialMedia has_social_data analyzeReviews noReviews
           review_count];
      try reflexivity;
      destruct (Z.eqb_spec (ReviewSummary.total_reviews rs) 0) as [T|T];
      try rewrite T; cbn [review_count Z.ltb Z.compare];
      try reflexivity;
      destruct (Z.ltb_spec 0 (ReviewSummary.total_reviews rs));
      reflexivity. }
  assert (R : reviewsListed = (0 <? review_count (review_analysis res))).
  { subst reviewsListed. rewrite L. cbn [tl].
    destruct (has_social_data (social_analysis res));
      destruct (0 <? review_count (review_analysis res)); reflexivity. }
  split; [exact L|]. split; [exact R|]. split.
  - rewrite R. reflexivity.
  - rewrite R. subst res. apply reality_score_written_out.
Qed.

(** ** Ingredient scores *)

Lemma clampZ_of_30 x : (x == 30)%Q -> clampZ x = 30.
Proof.
  intro E. apply Z.le_antisymm.
  - change 30 with (clampZ 30). apply clampZ_mono. rewrite E. apply Qle_refl.
  - change 30 with (clampZ 30). apply clampZ_mono. rewrite E. apply Qle_refl.
Qed.

Lemma quality_of_nothing_found t :
  t <> 0%nat -> calculateIngredientQualityScore 0 0 t = num 30.
Proof.
  intro T. unfold calculateIngredientQualityScore.
  destruct (Nat.eqb_spec t 0) as [|_]; [contradiction|].
  unfold ofNat. rewrite !div_ofZ by lia.
  cbn [Nat.ltb Nat.leb andb JS.mul JS.sub JS.neg JS.add num ofZ].
  change (Num (inject_Z 100)) with (num 100).
  change (Num (inject_Z 0)) with (num 0).
  rewrite clamp_Num. unfold num. f_equal. apply clampZ_of_30.
  unfold Qdiv. change (inject_Z (Z.of_nat 0)) with 0%Q.
  rewrite !Qmult_0_l. reflexivity.
Qed.

(** X13. While the ingredient database is not loaded, every non-empty
    ingredient list is analysed as holding nothing beneficial and nothing
    harmful, with quality score 30. *)
Theorem analysis_before_the_database_is_loaded ing :
  ProductData.parsed ing <> [] ->
  let a := analyzeIngredients None ing in
  beneficial_ingredients a = []
  /\ potentially_harmful a = []
  /\ total_ingredients a = List.length (ProductData.parsed ing)
  /\ ingredient_quality_score a = num 30.
Proof.
  intros N a. subst a. unfold analyzeIngredients.
  destruct (ProductData.parsed ing) as [|i l] eqn:E; [congruence|].
  cbn [List.length Nat.eqb findBeneficialIngredients findHarmfulIngredients
       beneficial_ingredients potentially_harmful total_ingredients
       ingredient_quality_score].
  repeat split. now apply quality_of_nothing_found.
Qed.

Lemma analysis_before_the_database_is_loaded_witness :
  ingredient_quality_score
    (analyzeIngredients None (ProductData.ingredients Examples.scenario1))
  = num 30.
Proof.
  refine (proj2 (proj2 (proj2
            (analysis_before_the_database_is_loaded
               (ProductData.ingredients Examples.scenario1) _)))).
  discriminate.
Defined.

(** X14. The ingredient authenticity is 50 exactly for an empty ingredient
    list; for every other list it lies between 75 and 100. *)
Theorem ingredient_authenticity_of_a_list db ing :
  let a := ingredient_authenticity (analyzeIngredients db ing) in
  (a = num 50 <-> ProductData.parsed ing = [])
  /\ (ProductData.parsed ing <> [] -> score_between 75 100 a).
Proof.
  intro a. subst a. unfold analyzeIngredients.
  destruct (ProductData.parsed ing) as [|i l] eqn:E;
    cbn [List.length Nat.eqb ingredient_authenticity].
  - split; [tauto|congruence].
  - destruct (calculateIngredientAuthenticity_between ing) as (z & Ez & B).
    split.
    + split; [|discriminate]. rewrite Ez. intro H. apply ofZ_inj in H. lia.
    + intros _. now exists z.
Qed.

Lemma count_by_lower_case (g : string -> bool) l :
  List.length (filter (fun x => g (Str.toLowerCase x)) l)
  = List.length (filter g (map Str.toLowerCase l)).
Proof.
  induction l as [|x l IH]; [reflexivity|]. cbn [filter map].
  destruct (g (Str.toLowerCase x)); cbn [List.length]; now rewrite IH.
Qed.

Lemma exists_by_lower_case (g : string -> bool) l :
  existsb (fun x => g (Str.toLowerCase x)) l
  = existsb g (map Str.toLowerCase l).
Proof.
  induction l as [|x l IH]; [reflexivity|]. cbn [existsb map]. now rewrite IH.
Qed.

Lemma toLowerCase_empty s : Str.toLowerCase s = EmptyString -> s = EmptyString.
Proof. destruct s; [reflexivity|discriminate]. Qed.

Lemma water_first_by_lower_case first :
  negb (String.eqb first "")
  && Str.arr_includes ["water"; "aqua"] (Str.toLowerCase first)
  = Str.arr_includes ["water"; "aqua"] (Str.toLowerCase first).
Proof.
  destruct (String.eqb_spec first "") as [->|N]; reflexivity.
Qed.

Lemma calculateIngredientAuthenticity_by_lower_case ing ing' :
  map Str.toLowerCase (ProductData.parsed ing)
  = map Str.toLowerCase (ProductData.parsed ing') ->
  calculateIngredientAuthenticity ing = calculateIngredientAuthenticity ing'.
Proof.
  intro E. unfold calculateIngredientAuthenticity.
  assert (L : List.length (ProductData.parsed ing)
              = List.length (ProductData.parsed ing')).
  { rewrite <- (length_map Str.toLowerCase (ProductData.parsed ing)), E.
    apply length_map. }
  rewrite L.
  rewrite (exists_by_lower_case (Str.arr_includes preservatives)
             (ProductData.parsed ing)), E,
    <- (exists_by_lower_case (Str.arr_includes preservatives)).
  destruct (ProductData.parsed ing) as [|x l], (ProductData.parsed ing') as [|y l'];
    try discriminate; [reflexivity|].
  cbn [map] in E. injection E as Exy _.
  now rewrite !water_first_by_lower_case, Exy.
Qed.

(** X15. The ingredient scores do not depend on the case of the names: two
    ingredient lists that agree after lower-casing get the same ingredient
    count, quality score and authenticity. *)
Theorem ingredient_scores_ignore_case db ing ing' :
  map Str.toLowerCase (ProductData.parsed ing)
  = map Str.toLowerCase (ProductData.parsed ing') ->
  let a := analyzeIngredients db ing in
  let a' := analyzeIngredients db ing' in
  total_ingredients a = total_ingredients a'
  /\ ingredient_quality_score a = ingredient_quality_score a'
  /\ ingredient_authenticity a = ingredient_authenticity a'.
Proof.
  intros E a a'. subst a a'. unfold analyzeIngredients.
  assert (L : List.length (ProductData.parsed ing)
              = List.length (ProductData.parsed ing')).
  { rewrite <- (length_map Str.toLowerCase (ProductData.parsed ing)), E.
    apply length_map. }
  rewrite L. destruct (List.length (ProductData.parsed ing') =? 0)%nat;
    cbn [total_ingredients ingredient_quality_score ingredient_authenticity].
  - repeat split.
  - split; [reflexivity|]. split.
    + f_equal;
        unfold findBeneficialIngredients, findHarmfulIngredients;
        destruct db as [d|]; try reflexivity.
      * rewrite (count_by_lower_case
                   (fun x => existsb (fun b => Str.includes x (Str.toLowerCase b))
                                     (IngredientsDatabase.beneficial d))
                   (ProductData.parsed ing)), E.
        symmetry. apply count_by_lower_case with
          (g := fun x => existsb (fun b => Str.includes x (Str.toLowerCase b))
                                 (IngredientsDatabase.beneficial d)).
      * rewrite (count_by_lower_case
                   (fun x => existsb (fun b => Str.includes x (Str.toLowerCase b))
                                     (IngredientsDatabase.potentially_harmful d))
                   (ProductData.parsed ing)), E.
        symmetry. apply count_by_lower_case with
          (g := fun x => existsb (fun b => Str.includes x (Str.toLowerCase b))
                                 (IngredientsDatabase.potentially_harmful d)).
    + now apply calculateIngredientAuthenticity_by_lower_case.
Qed.

Lemma ingredient_scores_ignore_case_witness :
  ingredient_quality_score
    (analyzeIngredients (Some getBuiltInIngredientData)
       {| ProductData.raw := ""; ProductData.parsed := ["Water"; "NIACINAMIDE"] |})
  = ingredient_quality_score
      (analyzeIngredients (Some getBuiltInIngredientData)
         {| ProductData.raw := "";
            ProductData.parsed := ["water"; "niacinamide"] |}).
Proof.
  exact (proj1 (proj2
           (ingredient_scores_ignore_case (Some getBuiltInIngredientData)
              {| ProductData.raw := "";
                 ProductData.parsed := ["Water"; "NIACINAMIDE"] |}
              {| ProductData.raw := "";
                 ProductData.parsed := ["water"; "niacinamide"] |}
              eq_refl))).
Defined.

Lemma ratio_mono a b t :
  (a <= b)%nat -> (inject_Z (Z.of_nat a) / inject_Z (Z.of_nat t)
                   <= inject_Z (Z.of_nat b) / inject_Z (Z.of_nat t))%Q.
Proof.
  intro L. unfold Qdiv. apply Qmult_le_compat_r.
  - rewrite <- Zle_Qle. lia.
  - apply Qinv_le_0_compat. change 0%Q with (inject_Z 0).
    rewrite <- Zle_Qle. lia.
Qed.

(** X16. For a fixed ingredient count the quality score is monotone: more
    beneficial ingredients and fewer harmful ones never lower it. *)
Theorem quality_score_monotone b b' h h' t :
  (b <= b')%nat -> (h' <= h)%nat ->
  JS.le (calculateIngredientQualityScore b h t)
        (calculateIngredientQualityScore b' h' t) = true.
Proof.
  intros Lb Lh. unfold calculateIngredientQualityScore.
  destruct (Nat.eqb_spec t 0) as [|T]; [reflexivity|].
  unfold ofNat. rewrite !div_ofZ by lia.
  pose proof (ratio_mono b b' t Lb) as Rb.
  pose proof (ratio_mono h' h t Lh) as Rh.
  set (rb := (inject_Z (Z.of_nat b) / inject_Z (Z.of_nat t))%Q) in *.
  set (rb' := (inject_Z (Z.of_nat b') / inject_Z (Z.of_nat t))%Q) in *.
  set (rh := (inject_Z (Z.of_nat h) / inject_Z (Z.of_nat t))%Q) in *.
  set (rh' := (inject_Z (Z.of_nat h') / inject_Z (Z.of_nat t))%Q) in *.
  clearbody rb rb' rh rh'.
  assert (B : ((0 <? b) && (h =? 0) = true -> (0 <? b') && (h' =? 0) = true)%nat).
  { rewrite !andb_true_iff, !Nat.ltb_lt, !Nat.eqb_eq. lia. }
  destruct ((0 <? b) && (h =? 0))%nat; destruct ((0 <? b') && (h' =? 0))%nat;
    try (specialize (B eq_refl); discriminate B);
    cbn [JS.mul JS.sub JS.neg JS.add num ofZ];
    change (Num (inject_Z 100)) with (num 100);
    change (Num (inject_Z 0)) with (num 0);
    rewrite !clamp_Num, le_ofZ; apply Z.leb_le, clampZ_mono;
    unfold inject_Z; lra.
Qed.

Lemma quality_score_monotone_witness :
  JS.le (calculateIngredientQualityScore 1 2 5)
        (calculateIngredientQualityScore 3 0 5) = true.
Proof.
  apply quality_score_monotone; repeat constructor.
Defined.

(** X17. The list of common irritants of the database has no effect: two
    databases with the same beneficial and potentially harmful lists give
    the same result on every input. *)
Theorem common_irritants_are_ignored d d' p s r now :
  IngredientsDatabase.beneficial d = IngredientsDatabase.beneficial d' ->
  IngredientsDatabase.potentially_harmful d
  = IngredientsDatabase.potentially_harmful d' ->
  analyzeProduct (Some d) p s r now = analyzeProduct (Some d') p s r now.
Proof.
  intros B H.
  assert (A : forall ing, analyzeIngredients (Some d) ing
                          = analyzeIngredients (Some d') ing).
  { intro ing. unfold analyzeIngredients, findBeneficialIngredients,
      findHarmfulIngredients. now rewrite B, H. }
  unfold analyzeProduct. now rewrite A.
Qed.

Lemma common_irritants_are_ignored_witness :
  analyzeProduct
    (Some {| IngredientsDatabase.beneficial := ["glycerin"];
             IngredientsDatabase.potentially_harmful := ["parabens"];
             IngredientsDatabase.common_irritants := ["glycerin"; "water"] |})
    Examples.scenario1 None None Examples.timestamp
  = analyzeProduct
      (Some {| IngredientsDatabase.beneficial := ["glycerin"];
               IngredientsDatabase.potentially_harmful := ["parabens"];
               IngredientsDatabase.common_irritants := [] |})
      Examples.scenario1 None None Examples.timestamp.
Proof.
  exact (common_irritants_are_ignored _ _ Examples.scenario1 None None
           Examples.timestamp eq_refl eq_refl).
Defined.

(** X18. The engagement counters (likes, views, comments, shares) reach
    nothing but the influencer credibility: with other counters the score,
    the verdict, the confidence, the insights, the data sources and every
    other field of the social analysis are unchanged. *)
Theorem engagement_reaches_credibility_only db p sd likes views comments shares r now :
  let res := analyzeProduct db p (Some sd) r now in
  let res' :=
    analyzeProduct db p
      (Some (withEngagement sd likes views comments shares)) r now in
  reality_score res' = reality_score res
  /\ overall_verdict res' = overall_verdict res
  /\ confidence_level res' = confidence_level res
  /\ red_flags res' = red_flags res
  /\ green_flags res' = green_flags res
  /\ recommendations res' = recommendations res
  /\ data_sources res' = data_sources res
  /\ withoutCredibility (social_analysis res')
     = withoutCredibility (social_analysis res).
Proof. repeat split. Qed.

(** * The first reality check *)

(** ** Match score *)

Lemma match_score_step (sensitive : bool) (f : Legacy.IngredientAnalysis)
      (q : Q) (n : Z) :
  (q == n # 2)%Q ->
  exists q',
    JS.sub (Num q)
      (let penalty :=
         if String.eqb (Legacy.severity f) "high" then num 25
         else if String.eqb (Legacy.severity f) "medium" then num 15
         else if String.eqb (Legacy.severity f) "low" then num 5
         else num 0 in
       if sensitive then JS.mul penalty (Num 1.5) else penalty)
    = Num q'
    /\ (q' == (n - doublePenalty sensitive f) # 2)%Q.
Proof.
  intro E. unfold doublePenalty. cbv zeta.
  destruct (String.eqb (Legacy.severity f) "high");
    [|destruct (String.eqb (Legacy.severity f) "medium");
      [|destruct (String.eqb (Legacy.severity f) "low")]];
    destruct sensitive; cbn [JS.mul JS.sub JS.neg JS.add num ofZ];
    eexists; (split; [reflexivity|]); rewrite E;
    unfold Qeq, Qplus, Qopp, Qmult, inject_Z; cbn [Qnum Qden];
    match goal with
    | |- context [?a / 2] =>
        let v := eval vm_compute in (a / 2) in change (a / 2) with v
    | _ => idtac
    end; lia.
Qed.

Lemma match_score_fold (userProfile : Legacy.UserProfile) flagged (q : Q) (n : Z) :
  (q == n # 2)%Q ->
  exists q',
    fold_left
      (fun score flagged =>
         let penalty :=
           if String.eqb (Legacy.severity flagged) "high" then num 25
           else if String.eqb (Legacy.severity flagged) "medium" then num 15
           else if String.eqb (Legacy.severity flagged) "low" then num 5
           else num 0 in
         let penalty :=
           if String.eqb (Legacy.skin_type userProfile) "sensitive"
           then JS.mul penalty (Num 1.5) else penalty in
         JS.sub score penalty)
      flagged (Num q)
    = Num q'
    /\ (q' == (n - doublePenalties
                     (String.eqb (Legacy.skin_type userProfile) "sensitive")
                     flagged) # 2)%Q.
Proof.
  revert q n. induction flagged as [|f l IH]; intros q n E.
  - exists q. split; [reflexivity|]. cbn [doublePenalties fold_right].
    now rewrite Z.sub_0_r.
  - cbn [fold_left].
    destruct (match_score_step
                (String.eqb (Legacy.skin_type userProfile) "sensitive")
                f q n E) as (q1 & E1 & V1).
    cbv zeta in E1 |- *. rewrite E1.
    destruct (IH q1 _ V1) as (q' & E' & V'). exists q'. split; [exact E'|].
    rewrite V'. unfold doublePenalties. cbn [fold_right].
    unfold Qeq; cbn [Qnum Qden]. lia.
Qed.

Lemma round_of_halves (n : Z) : JS.round (Num (n # 2)) = ofZ ((n + 1) / 2).
Proof.
  unfold JS.round. f_equal. unfold Qplus; cbn [Qnum Qden].
  unfold Qfloor. change (Z.pos (2 * 2)) with 4.
  assert (H : n * 2 + 1 * 2 = (n + 1) * 2) by lia. rewrite H.
  change 4 with (2 * 2). now rewrite Z.div_mul_cancel_r by lia.
Qed.

Lemma doublePenalties_by_severity sensitive flagged :
  doublePenalties sensitive flagged
  = (if sensitive then 75 else 50) * Legacy.countSeverity "high" flagged
    + (if sensitive then 45 else 30) * Legacy.countSeverity "medium" flagged
    + (if sensitive then 15 else 10) * Legacy.countSeverity "low" flagged.
Proof.
  unfold Legacy.countSeverity.
  induction flagged as [|f l IH]; [now destruct sensitive|].
  unfold doublePenalties in *. cbn [fold_right filter].
  rewrite IH. unfold doublePenalty.
  generalize (Legacy.severity f). intro sev.
  destruct (String.eqb_spec sev "high") as [->|_];
    [|destruct (String.eqb_spec sev "medium") as [->|_];
      [|destruct (String.eqb_spec sev "low") as [->|_]]];
    destruct sensitive; cbn [String.eqb Ascii.eqb Bool.eqb List.length];
    match goal with
    | |- context [?a * 3 / 2] =>
        let v := eval vm_compute in (a * 3 / 2) in change (a * 3 / 2) with v
    | _ => idtac
    end; lia.
Qed.

(** X19. The match score depends on the flagged ingredients only through
    the numbers H, M, L of high, medium and low severities: it is 0 when
    there is no ingredient at all, otherwise max(0, 100 - 25H - 15M - 5L),
    and for a sensitive skin max(0, floor((201 - 75H - 45M - 15L) / 2)),
    the halves rounded up; it always lies between 0 and 100. *)
Theorem match_score_closed_form flagged total profile :
  let H := Legacy.countSeverity "high" flagged in
  let M := Legacy.countSeverity "medium" flagged in
  let L := Legacy.countSeverity "low" flagged in
  let score := Legacy.calculateMatchScore flagged total profile in
  (total = 0%nat -> score = num 0)
  /\ (total <> 0%nat ->
      score = ofZ (if String.eqb (Legacy.skin_type profile) "sensitive"
                   then Z.max 0 ((201 - 75 * H - 45 * M - 15 * L) / 2)
                   else Z.max 0 (100 - 25 * H - 15 * M - 5 * L)))
  /\ score_between 0 100 score.
Proof.
  intros H M L score. subst score. unfold Legacy.calculateMatchScore.
  destruct (Nat.eqb_spec total 0) as [T|T].
  { split; [reflexivity|]. split; [contradiction|]. exists 0. split; [reflexivity|lia]. }
  destruct (match_score_fold profile flagged (inject_Z 100) 200) as (q & E & V).
  { reflexivity. }
  change (num 100) with (Num (inject_Z 100)). cbv zeta in E |- *. rewrite E.
  assert (R : JS.round (Num q)
              = ofZ ((200 - doublePenalties
                              (String.eqb (Legacy.skin_type profile) "sensitive")
                              flagged + 1) / 2)).
  { rewrite <- round_of_halves. unfold JS.round. f_equal.
    apply Qfloor_comp. now rewrite V. }
  rewrite R. unfold num. rewrite max_ofZ.
  rewrite doublePenalties_by_severity. fold H M L.
  assert (H0 : 0 <= H) by apply Nat2Z.is_nonneg.
  assert (M0 : 0 <= M) by apply Nat2Z.is_nonneg.
  assert (L0 : 0 <= L) by apply Nat2Z.is_nonneg.
  clearbody H M L.
  split; [contradiction|]. split.
  - intros _. f_equal.
    destruct (String.eqb (Legacy.skin_type profile) "sensitive"); f_equal.
    + f_equal. lia.
    + assert (Q : 200 - (50 * H + 30 * M + 10 * L) + 1
                  = 1 + (100 - 25 * H - 15 * M - 5 * L) * 2) by lia.
      rewrite Q, Z.div_add by lia. reflexivity.
  - eexists. split; [reflexivity|].
    destruct (String.eqb (Legacy.skin_type profile) "sensitive").
    + assert (D : (200 - (75 * H + 45 * M + 15 * L) + 1) / 2 < 101).
      { apply Z.div_lt_upper_bound; lia. }
      lia.
    + assert (D : (200 - (50 * H + 30 * M + 10 * L) + 1) / 2 < 101).
      { apply Z.div_lt_upper_bound; lia. }
      lia.
Qed.

Lemma match_score_closed_form_witness :
  Legacy.calculateMatchScore
    [{| Legacy.name := "fragrance"; Legacy.issue := "Irritant";
        Legacy.severity := "high"; Legacy.recommendation := None |}]
    12 {| Legacy.skin_type := "sensitive"; Legacy.concerns := ["acne"];
          Legacy.age_range := None; Legacy.allergies := None |}
  = ofZ 63.
Proof.
  refine (proj1 (proj2 (match_score_closed_form _ 12 _)) _). discriminate.
Defined.

(** ** Trust score *)

Lemma sub_ofZ (a b : Z) : JS.sub (ofZ a) (ofZ b) = ofZ (a - b).
Proof.
  unfold JS.sub, JS.neg, ofZ, JS.add, Qplus, Qopp, inject_Z; cbn [Qnum Qden].
  f_equal. f_equal. lia.
Qed.

Lemma trust_score_value handle price rating :
  exists z,
    Legacy.calculateTrustScore handle price rating
    = ofZ (Z.max 0 (Z.min 100 z))
    /\ 35 <= z <= 115
    /\ (handle = EmptyString -> 65 <= z)
    /\ (handle <> EmptyString -> z <= 100)
    /\ exists z0,
         Legacy.calculateTrustScore EmptyString price rating
         = ofZ (Z.max 0 (Z.min 100 z0))
         /\ z <= z0.
Proof.
  unfold Legacy.calculateTrustScore, num.
  cbn [String.eqb negb].
  destruct (String.eqb_spec handle "") as [Eh|Nh]; cbn [negb];
    repeat match goal with
           | |- context [if ?c then _ else _] =>
               lazymatch c with
               | context [if _ then _ else _] => fail
               | _ => destruct c
               end
           | |- context [match ?r with Some _ => _ | None => _ end] =>
               destruct r
           end;
    repeat (rewrite sub_ofZ || rewrite add_ofZ);
    rewrite ?round_ofZ, ?min_ofZ, ?max_ofZ;
    eexists; (split; [reflexivity|]);
    (split; [cbn; lia|]);
    (split; [intros; try congruence; cbn; lia|]);
    (split; [intros; try congruence; cbn; lia|]);
    eexists; (split; [reflexivity|]); cbn; lia.
Qed.

(** X20. The trust score always lies between 35 and 100, and naming an
    influencer handle never raises it: for the same price and rating the
    score with a handle is at most the score without one. *)
Theorem trust_score_bounds handle price rating :
  score_between 35 100 (Legacy.calculateTrustScore handle price rating)
  /\ JS.le (Legacy.calculateTrustScore handle price rating)
           (Legacy.calculateTrustScore EmptyString price rating) = true.
Proof.
  destruct (trust_score_value handle price rating)
    as (z & -> & B & _ & _ & z0 & -> & L).
  split.
  - eexists. split; [reflexivity|]. lia.
  - rewrite le_ofZ. apply Z.leb_le. lia.
Qed.

(** ** Review summaries *)

Lemma analyzeSentiment_cases content rating :
  Reviews.analyzeSentiment content rating = "positive"%string
  \/ Reviews.analyzeSentiment content rating = "negative"%string
  \/ Reviews.analyzeSentiment content rating = "neutral"%string.
Proof.
  unfold Reviews.analyzeSentiment.
  destruct rating as [q|].
  - destruct (Qle_bool 4 q); [now left|].
    destruct (Qle_bool q 2); [right; now left|right; now right].
  - cbv zeta.
    destruct (_ <? _)%nat; [now left|].
    destruct (_ <? _)%nat; [right; now left|right; now right].
Qed.

Lemma sentiment_partition (reviews : list Reviews.Review) :
  Forall (fun r => Reviews.sentiment r = "positive"%string
                   \/ Reviews.sentiment r = "negative"%string
                   \/ Reviews.sentiment r = "neutral"%string) reviews ->
  (List.length (filter (Reviews.hasSentiment "positive") reviews)
   + List.length (filter (Reviews.hasSentiment "negative") reviews)
   + List.length (filter (Reviews.hasSentiment "neutral") reviews)
   = List.length reviews)%nat.
Proof.
  induction 1 as [|r l H _ IH]; [reflexivity|].
  cbn [filter].
  assert (C : forall s, Reviews.hasSentiment s r
                        = String.eqb (Reviews.sentiment r) s)
    by reflexivity.
  rewrite !C.
  destruct H as [E | [E | E]]; rewrite E;
    match goal with
    | |- context [String.eqb ?a "positive"] =>
        let b1 := eval vm_compute in (String.eqb a "positive") in
        let b2 := eval vm_compute in (String.eqb a "negative") in
        let b3 := eval vm_compute in (String.eqb a "neutral") in
        change (String.eqb a "positive") with b1;
        change (String.eqb a "negative") with b2;
        change (String.eqb a "neutral") with b3
    end;
    cbn [List.length]; lia.
Qed.

Lemma processed_sentiments raw :
  Forall (fun r => Reviews.sentiment r = "positive"%string
                   \/ Reviews.sentiment r = "negative"%string
                   \/ Reviews.sentiment r = "neutral"%string)
         (map Reviews.processReview raw).
Proof.
  apply Forall_forall. intros r H. apply in_map_iff in H as (x & <- & _).
  apply analyzeSentiment_cases.
Qed.

Lemma summaryOf_nonempty x raw :
  let reviews := map Reviews.processReview (x :: raw) in
  ReviewSummary.total_reviews (summaryOf (x :: raw))
  = Z.of_nat (List.length (x :: raw))
  /\ ReviewSummary.sentiment_breakdown (summaryOf (x :: raw))
     = {| positive :=
            Z.of_nat (List.length
                        (filter (Reviews.hasSentiment "positive") reviews));
          negative :=
            Z.of_nat (List.length
                        (filter (Reviews.hasSentiment "negative") reviews));
          neutral :=
            Z.of_nat (List.length
                        (filter (Reviews.hasSentiment "neutral") reviews)) |}
  /\ ReviewSummary.common_negatives (summaryOf (x :: raw))
     = Reviews.extractCommonPhrases
         (filter (Reviews.hasSentiment "negative") reviews).
Proof.
  intro reviews. subst reviews. unfold summaryOf.
  cbn [map Reviews.generateReviewSummary Reviews.engine_fields
       ReviewSummary.total_reviews ReviewSummary.sentiment_breakdown
       ReviewSummary.common_negatives].
  repeat split. cbn [List.length]. now rewrite length_map.
Qed.

(** X21. For reviews as the review scrapers process them, the summary
    counts every review in exactly one sentiment class, so the breakdown
    adds up to the number of reviews.  The engine then treats the summary
    as absent exactly when no review was scraped, and otherwise scores the
    authenticity by the ratios of the breakdown, its own guard against an
    empty breakdown never applying. *)
Theorem scraped_reviews_summary (raw : list (option Q * string)) :
  let s := summaryOf raw in
  let sb := ReviewSummary.sentiment_breakdown s in
  ReviewSummary.total_reviews s = Z.of_nat (List.length raw)
  /\ positive sb + negative sb + neutral sb = ReviewSummary.total_reviews s
  /\ (analyzeReviews (Some s) = noReviews <-> raw = [])
  /\ (raw <> [] ->
      review_count (analyzeReviews (Some s)) = Z.of_nat (List.length raw)
      /\ review_authenticity_score (analyzeReviews (Some s))
         = review_rule sb).
Proof.
  destruct raw as [|x raw]; intros s sb.
  { repeat split; try reflexivity. congruence. }
  destruct (summaryOf_nonempty x raw) as (T & B & _).
  pose proof (sentiment_partition _ (processed_sentiments (x :: raw))) as P.
  rewrite length_map in P.
  assert (S3 : positive sb + negative sb + neutral sb
               = Z.of_nat (List.length (x :: raw))).
  { subst sb s. rewrite B. cbn [positive negative neutral]. lia. }
  assert (N : Z.of_nat (List.length (x :: raw)) <> 0)
    by (cbn [List.length]; lia).
  assert (A : review_count (analyzeReviews (Some s))
              = Z.of_nat (List.length (x :: raw))
              /\ review_authenticity_score (analyzeReviews (Some s))
                 = review_rule sb).
  { cbn [analyzeReviews]. subst s. rewrite T.
    apply Z.eqb_neq in N. rewrite N.
    cbn [review_count review_authenticity_score]. split; [reflexivity|].
    apply calculateReviewAuthenticity_rule. fold sb. rewrite S3.
    now apply Z.eqb_neq. }
  split; [exact T|]. split; [subst s; rewrite T; exact S3|].
  split; [|intros _; exact A].
  split; [|discriminate].
  intro E. destruct A as (A & _). rewrite E in A. cbn [noReviews review_count] in A.
  congruence.
Qed.

Lemma filter_all {A} (f : A -> bool) l :
  Forall (fun x => f x = true) l -> filter f l = l.
Proof.
  induction 1 as [|x l H _ IH]; [reflexivity|].
  cbn [filter]. now rewrite H, IH.
Qed.

Lemma filter_none {A} (f : A -> bool) l :
  Forall (fun x => f x = false) l -> filter f l = [].
Proof.
  induction 1 as [|x l H _ IH]; [reflexivity|].
  cbn [filter]. now rewrite H.
Qed.

Lemma ratio_of_all (n : Z) : 0 < n -> (inject_Z n / inject_Z (n + 0 + 0) == 1)%Q.
Proof.
  intro H. replace (n + 0 + 0) with n by lia.
  apply Qmult_inv_r. intro E.
  assert (E' : (0 < inject_Z n)%Q)
    by (unfold Qlt, inject_Z; cbn [Qnum Qden]; lia).
  rewrite E in E'. now apply Qlt_irrefl in E'.
Qed.

(** X22. Reviews that all carry the same positive or the same negative
    sentiment, however few or many, make the engine raise the red flag
    about possible fake reviews: a product whose scraped reviews are all
    rated four stars or more is flagged. *)
Theorem one_voiced_reviews_raise_the_fake_flag db p sd now
  (reviews : list Reviews.Review) (voice : string) :
  reviews <> [] ->
  voice = "positive"%string \/ voice = "negative"%string ->
  Forall (fun r => Reviews.sentiment r = voice) reviews ->
  In Insight.fake_reviews_red
     (red_flags
        (analyzeProduct db p sd
           (Some (Reviews.engine_fields
                    (Reviews.generateReviewSummary reviews))) now)).
Proof.
  intros NE V All.
  rewrite red_flags_of, fake_reviews_red_iff.
  destruct reviews as [|r0 l]; [congruence|]. clear NE.
  set (reviews := r0 :: l) in *.
  assert (Len : 0 < Z.of_nat (List.length reviews))
    by (subst reviews; cbn [List.length]; lia).
  unfold Reviews.generateReviewSummary. fold reviews.
  change (match reviews with [] => _ | _ :: _ => ?b end) with b.
  cbn [analyzeReviews Reviews.engine_fields ReviewSummary.total_reviews
       ReviewSummary.sentiment_breakdown].
  destruct (Z.eqb_spec (Z.of_nat (List.length reviews)) 0) as [E|_]; [lia|].
  cbn [review_authenticity_score].
  assert (Same : filter (Reviews.hasSentiment voice) reviews = reviews).
  { apply filter_all. eapply Forall_impl; [|exact All].
    intros r H. unfold Reviews.hasSentiment. now apply String.eqb_eq. }
  assert (Other : forall s, s <> voice ->
                            filter (Reviews.hasSentiment s) reviews = []).
  { intros s Hs. apply filter_none. eapply Forall_impl; [|exact All].
    intros r H. unfold Reviews.hasSentiment. apply String.eqb_neq.
    congruence. }
  destruct V as [-> | ->].
  - rewrite Same, !Other by discriminate. cbn [List.length].
    change (Z.of_nat 0) with 0.
    rewrite calculateReviewAuthenticity_rule
      by (cbn [positive negative neutral]; lia).
    destruct (review_rule_cases
                {| positive := Z.of_nat (List.length reviews);
                   negative := 0; neutral := 0 |}) as (R & _).
    rewrite R; [reflexivity|].
    left. unfold positive_ratio. cbn [positive negative neutral].
    rewrite ratio_of_all by assumption. reflexivity.
  - rewrite Same, !Other by discriminate. cbn [List.length].
    change (Z.of_nat 0) with 0.
    rewrite calculateReviewAuthenticity_rule
      by (cbn [positive negative neutral]; lia).
    destruct (review_rule_cases
                {| positive := 0;
                   negative := Z.of_nat (List.length reviews);
                   neutral := 0 |}) as (R & _).
    rewrite R; [reflexivity|].
    right. unfold negative_ratio. cbn [positive negative neutral].
    replace (0 + Z.of_nat (List.length reviews) + 0)
      with (Z.of_nat (List.length reviews) + 0 + 0) by lia.
    rewrite ratio_of_all by assumption. reflexivity.
Qed.

Lemma one_voiced_reviews_raise_the_fake_flag_witness :
  In Insight.fake_reviews_red
     (red_flags
        (analyzeProduct None Examples.scenario1 None
           (Some (summaryOf Examples_five_stars)) Examples.timestamp)).
Proof.
  apply (one_voiced_reviews_raise_the_fake_flag None Examples.scenario1 None
           Examples.timestamp
           (map Reviews.processReview Examples_five_stars) "positive").
  - discriminate.
  - left. reflexivity.
  - repeat constructor.
Defined.

(** ** Common phrases *)

Lemma insertByCount_perm x l :
  Permutation (Reviews.insertByCount x l) (x :: l).
Proof.
  induction l as [|y l IH]; [apply Permutation_refl|].
  cbn [Reviews.insertByCount]. destruct (_ <=? _)%nat.
  - apply Permutation_refl.
  - eapply perm_trans; [apply perm_skip, IH|apply perm_swap].
Qed.

Lemma sortByCount_perm l : Permutation (Reviews.sortByCount l) l.
Proof.
  induction l as [|x l IH]; [apply Permutation_refl|].
  cbn [Reviews.sortByCount fold_right].
  eapply perm_trans; [apply insertByCount_perm|].
  apply perm_skip, IH.
Qed.

Lemma bump_keys p m k :
  In k (map fst (Reviews.bump p m)) <-> k = p \/ In k (map fst m).
Proof.
  induction m as [|[k0 c0] m IH]; cbn [Reviews.bump map fst In].
  - intuition.
  - destruct (String.eqb_spec k0 p) as [->|N]; cbn [map fst In].
    + intuition.
    + rewrite IH. intuition.
Qed.

Lemma bump_NoDup p m :
  NoDup (map fst m) -> NoDup (map fst (Reviews.bump p m)).
Proof.
  induction m as [|[k0 c0] m IH]; cbn [Reviews.bump map fst]; intro N.
  - repeat constructor. intros [].
  - inversion N as [|? ? N1 N2]; subst.
    destruct (String.eqb_spec k0 p) as [->|D]; cbn [map fst].
    + now constructor.
    + constructor; [|now apply IH].
      rewrite bump_keys. intros [->|H]; [congruence|contradiction].
Qed.

Lemma bump_In p m k c :
  NoDup (map fst m) ->
  In (k, c) (Reviews.bump p m) ->
  (k <> p /\ In (k, c) m)
  \/ (k = p /\ ((c = 1%nat /\ ~ In p (map fst m))
                \/ exists c', c = S c' /\ In (p, c') m)).
Proof.
  induction m as [|[k0 c0] m IH]; cbn [Reviews.bump map fst In]; intros N H.
  - destruct H as [[= <- <-]|[]]. right. split; [reflexivity|]. left. tauto.
  - inversion N as [|? ? N1 N2]; subst.
    destruct (String.eqb_spec k0 p) as [->|D]; cbn [In] in H.
    + destruct H as [[= <- <-]|H].
      * right. split; [reflexivity|]. right. exists c0. split; [reflexivity|].
        now left.
      * left. split; [|now right].
        intros ->. apply N1. apply (in_map fst) in H. exact H.
    + destruct H as [[= <- <-]|H].
      * left. split; [exact D|now left].
      * destruct (IH N2 H) as [(A & B)|(-> & [(A & B)|(c' & A & B)])].
        -- left. split; [exact A|now right].
        -- right. split; [reflexivity|]. left. split; [exact A|].
           intros [E|E]; [congruence|contradiction].
        -- right. split; [reflexivity|]. right. exists c'. split; [exact A|].
           now right.
Qed.

Lemma phraseCount_invariant (l : list string) :
  forall (m : list (string * nat)) (seen : list string),
    NoDup (map fst m) ->
    (forall k c, In (k, c) m -> c = count_occ string_dec seen k) ->
    (forall k, In k seen -> In k (map fst m)) ->
    let m' := fold_left (fun m phrase => Reviews.bump phrase m) l m in
    NoDup (map fst m')
    /\ forall k c, In (k, c) m' -> c = count_occ string_dec (rev l ++ seen) k.
Proof.
  induction l as [|p l IH]; intros m seen N C K; cbn [fold_left rev app].
  - split; assumption.
  - rewrite <- app_assoc. cbn [app].
    apply IH.
    + now apply bump_NoDup.
    + intros k c H. apply bump_In in H; [|exact N].
      destruct H as [(D & H)|(-> & [(-> & H)|(c' & -> & H)])].
      * rewrite count_occ_cons_neq by congruence. now apply C.
      * rewrite count_occ_cons_eq by reflexivity.
        f_equal. symmetry. apply count_occ_not_In. intro I. apply H, K, I.
      * rewrite count_occ_cons_eq by reflexivity. f_equal. now apply C.
    + intros k [<-|H]; apply bump_keys; [now left|right; now apply K].
Qed.

Lemma NoDup_map_filter {A B} (g : A -> B) (f : A -> bool) l :
  NoDup (map g l) -> NoDup (map g (filter f l)).
Proof.
  induction l as [|x l IH]; cbn [map filter]; intro N; [constructor|].
  inversion N as [|? ? N1 N2]; subst.
  destruct (f x); cbn [map]; [|now apply IH].
  constructor; [|now apply IH].
  intro H. apply N1. apply in_map_iff in H as (y & E & I).
  apply filter_In in I as (I & _). rewrite <- E. now apply in_map.
Qed.

Lemma NoDup_firstn {A} n (l : list A) : NoDup l -> NoDup (firstn n l).
Proof.
  intro N. rewrite <- (firstn_skipn n l) in N.
  now apply NoDup_app_remove_r in N.
Qed.

Lemma In_firstn {A} n (l : list A) x : In x (firstn n l) -> In x l.
Proof.
  intro H. rewrite <- (firstn_skipn n l). apply in_or_app. now left.
Qed.

Lemma extractCommonPhrases_counts (reviews : list Reviews.Review) :
  let common := Reviews.extractCommonPhrases reviews in
  (List.length common <= 10)%nat
  /\ NoDup common
  /\ forall p, In p common ->
               (2 <= count_occ string_dec
                       (flat_map Reviews.key_phrases reviews) p)%nat.
Proof.
  intro common. subst common. unfold Reviews.extractCommonPhrases.
  set (all := flat_map Reviews.key_phrases reviews).
  destruct (phraseCount_invariant all [] []) as (N & C).
  { constructor. } { intros ? ? []. } { intros ? []. }
  cbv zeta in N, C. rewrite app_nil_r in C.
  set (m := fold_left (fun m phrase => Reviews.bump phrase m) all []) in *.
  assert (P : Permutation
                (map fst (Reviews.sortByCount
                            (filter (fun e => (2 <=? snd e)%nat) m)))
                (map fst (filter (fun e => (2 <=? snd e)%nat) m)))
    by apply Permutation_map, sortByCount_perm.
  split; [apply firstn_le_length|]. split.
  - apply NoDup_firstn.
    eapply Permutation_NoDup; [apply Permutation_sym, P|].
    now apply NoDup_map_filter.
  - intros p H. apply In_firstn in H.
    eapply Permutation_in in H; [|exact P].
    apply in_map_iff in H as ([k c] & E & I). cbn [fst] in E. subst k.
    apply filter_In in I as (I & G). cbn [snd] in G.
    apply Nat.leb_le in G. apply C in I.
    rewrite count_occ_rev in I. lia.
Qed.

Lemma NoDup_skinCareKeywords : NoDup Reviews.skinCareKeywords.
Proof.
  unfold Reviews.skinCareKeywords.
  repeat (constructor; [cbn [In]; intuition discriminate|]).
  constructor.
Qed.

Lemma count_in_key_phrases content p :
  count_occ string_dec (Reviews.extractKeyPhrases content) p
  = if Str.includes (Str.toLowerCase content) p
       && Str.arr_includes Reviews.skinCareKeywords p
    then 1%nat else 0%nat.
Proof.
  unfold Reviews.extractKeyPhrases. cbv zeta.
  set (f := fun phrase => Str.includes (Str.toLowerCase content) phrase).
  change (Str.includes (Str.toLowerCase content) p) with (f p).
  assert (I : In p (filter f Reviews.skinCareKeywords)
              <-> f p && Str.arr_includes Reviews.skinCareKeywords p = true).
  { rewrite filter_In, andb_true_iff. unfold Str.arr_includes.
    rewrite existsb_exists. split.
    - intros (A & B). split; [exact B|]. exists p. split; [exact A|].
      apply String.eqb_refl.
    - intros (B & x & A & E). apply String.eqb_eq in E. subst x. tauto. }
  assert (L : (count_occ string_dec (filter f Reviews.skinCareKeywords) p
               <= 1)%nat).
  { apply NoDup_count_occ. apply NoDup_filter, NoDup_skinCareKeywords. }
  destruct (f p && Str.arr_includes Reviews.skinCareKeywords p).
  - assert (G : In p (filter f Reviews.skinCareKeywords)) by now apply I.
    apply (count_occ_In string_dec) in G. lia.
  - apply count_occ_not_In. intro G. apply I in G. discriminate.
Qed.

Lemma count_in_all_key_phrases (reviews : list Reviews.Review) p :
  Forall (fun r => Reviews.key_phrases r
                   = Reviews.extractKeyPhrases (Reviews.content r)) reviews ->
  count_occ string_dec (flat_map Reviews.key_phrases reviews) p
  = if Str.arr_includes Reviews.skinCareKeywords p
    then List.length
           (filter (fun r => Str.includes
                               (Str.toLowerCase (Reviews.content r)) p)
                   reviews)
    else 0%nat.
Proof.
  induction 1 as [|r l H _ IH]; cbn [flat_map filter].
  - now destruct (Str.arr_includes _ _).
  - rewrite count_occ_app, IH, H, count_in_key_phrases.
    destruct (Str.arr_includes Reviews.skinCareKeywords p);
      destruct (Str.includes _ _); reflexivity.
Qed.

Lemma filter_andb {A} (f g : A -> bool) l :
  filter (fun x => f x && g x) l = filter g (filter f l).
Proof.
  induction l as [|x l IH]; [reflexivity|].
  cbn [filter]. destruct (f x); cbn [andb filter]; now rewrite IH.
Qed.

(** X23. The common concerns the engine reports for scraped reviews are at
    most ten, pairwise different, and each of them is one of the sixteen
    skin-care phrases and is mentioned in the text of at least two
    negative reviews. *)
Theorem common_concerns_are_shared (raw : list (option Q * string)) :
  let reviews := map Reviews.processReview raw in
  let concerns := common_concerns (analyzeReviews (Some (summaryOf raw))) in
  (List.length concerns <= 10)%nat
  /\ NoDup concerns
  /\ forall p, In p concerns ->
               In p Reviews.skinCareKeywords
               /\ (2 <= List.length (negativeMentions p reviews))%nat.
Proof.
  destruct raw as [|x raw]; intros reviews concerns.
  { subst concerns. cbn. repeat split; try lia; try constructor; contradiction. }
  destruct (summaryOf_nonempty x raw) as (T & _ & CN). fold reviews in CN.
  assert (E : concerns
              = Reviews.extractCommonPhrases
                  (filter (Reviews.hasSentiment "negative") reviews)).
  { subst concerns. cbn [analyzeReviews]. rewrite T.
    destruct (Z.eqb_spec (Z.of_nat (List.length (x :: raw))) 0) as [Z|_];
      [cbn [List.length] in Z; lia|].
    cbn [common_concerns]. exact CN. }
  rewrite E.
  destruct (extractCommonPhrases_counts
              (filter (Reviews.hasSentiment "negative") reviews))
    as (L & N & C).
  split; [exact L|]. split; [exact N|].
  intros p H. apply C in H.
  rewrite count_in_all_key_phrases in H.
  2:{ apply Forall_forall. intros r I. apply filter_In in I as (I & _).
      subst reviews. apply in_map_iff in I as (y & <- & _). reflexivity. }
  unfold negativeMentions. rewrite filter_andb.
  destruct (Str.arr_includes Reviews.skinCareKeywords p) eqn:A; [|lia].
  split; [|exact H].
  unfold Str.arr_includes in A. apply existsb_exists in A as (k & I & Q).
  apply String.eqb_eq in Q. now subst k.
Qed.

(** ** Scraped videos *)

Lemma includes_unfold s sub :
  Str.includes s sub
  = prefix sub s || match s with
                    | EmptyString => false
                    | String _ r => Str.includes r sub
                    end.
Proof. destruct s; reflexivity. Qed.

Lemma prefix_app (a b : string) : prefix a (a ++ b) = true.
Proof.
  induction a as [|c a IH]; [now destruct b|].
  cbn [append prefix]. destruct (ascii_dec c c); [exact IH|congruence].
Qed.

Lemma includes_app (pre a post : string) :
  Str.includes (pre ++ a ++ post) a = true.
Proof.
  induction pre as [|c pre IH].
  - cbn [append]. rewrite includes_unfold, prefix_app. reflexivity.
  - cbn [append Str.includes]. rewrite IH. apply orb_true_r.
Qed.

Lemma toLowerCase_app (a b : string) :
  Str.toLowerCase (a ++ b) = (Str.toLowerCase a ++ Str.toLowerCase b)%string.
Proof.
  induction a as [|c a IH]; [reflexivity|].
  cbn [append Str.toLowerCase]. now rewrite IH.
Qed.

Lemma lower_char_idem c : Str.lower_char (Str.lower_char c) = Str.lower_char c.
Proof. destruct c as [[] [] [] [] [] [] [] []]; reflexivity. Qed.

Lemma toLowerCase_idem s :
  Str.toLowerCase (Str.toLowerCase s) = Str.toLowerCase s.
Proof.
  induction s as [|c s IH]; [reflexivity|].
  cbn [Str.toLowerCase]. now rewrite lower_char_idem, IH.
Qed.

Lemma span_split p s :
  s = (fst (Str.span p s) ++ snd (Str.span p s))%string.
Proof.
  induction s as [|c s IH]; [reflexivity|].
  cbn [Str.span]. destruct (p c); [|reflexivity].
  destruct (Str.span p s) as [a b]. cbn [fst snd append] in *. now rewrite <- IH.
Qed.

Lemma tagsAfter_In marker s w :
  In w (TikTok.tagsAfter marker s) ->
  exists pre post, s = (pre ++ w ++ post)%string.
Proof.
  induction s as [|c s IH]; cbn [TikTok.tagsAfter]; [intros []|].
  assert (Later : In w (TikTok.tagsAfter marker s) ->
                  exists pre post, String c s = (pre ++ w ++ post)%string).
  { intro H. destruct (IH H) as (pre & post & E).
    exists (String c pre), post. cbn [append]. now rewrite <- E. }
  destruct (Ascii.eqb c marker); [|exact Later].
  destruct (fst (Str.span TikTok.isWordChar s)) as [|a t] eqn:F;
    [exact Later|].
  intros [<-|H]; [|now apply Later].
  exists (String c EmptyString), (snd (Str.span TikTok.isWordChar s)).
  rewrite <- F. cbn [append]. f_equal. apply span_split.
Qed.

Lemma tag_in_caption marker caption h :
  In h (map Str.toLowerCase (TikTok.tagsAfter marker caption)) ->
  Str.includes (Str.toLowerCase caption) h = true
  /\ Str.toLowerCase h = h.
Proof.
  intro H. apply in_map_iff in H as (w & <- & I).
  apply tagsAfter_In in I as (pre & post & ->).
  rewrite !toLowerCase_app. split; [apply includes_app|].
  apply toLowerCase_idem.
Qed.

Lemma promotionalKeywords_lower :
  Forall (fun k => Str.toLowerCase k = k) TikTok.promotionalKeywords.
Proof. repeat constructor. Qed.

Lemma keyword_found lowerCaption k :
  In k TikTok.promotionalKeywords ->
  Str.includes lowerCaption k = true ->
  filter (fun keyword => Str.includes lowerCaption (Str.toLowerCase keyword))
         TikTok.promotionalKeywords <> [].
Proof.
  intros I H E.
  assert (G : In k (filter (fun keyword =>
                              Str.includes lowerCaption
                                           (Str.toLowerCase keyword))
                           TikTok.promotionalKeywords)).
  { apply filter_In. split; [exact I|].
    pose proof promotionalKeywords_lower as L.
    rewrite Forall_forall in L. now rewrite (L k I). }
  rewrite E in G. destruct G.
Qed.

Lemma arr_includes_In l x : Str.arr_includes l x = true <-> In x l.
Proof.
  unfold Str.arr_includes. rewrite existsb_exists. split.
  - intros (y & I & E). apply String.eqb_eq in E. now subst y.
  - intro I. exists x. split; [exact I|apply String.eqb_refl].
Qed.

Lemma disclosure_words_are_keywords k :
  In k disclosureTags \/ In k TikTok.flaggedHashtags ->
  In k TikTok.promotionalKeywords.
Proof.
  unfold disclosureTags, TikTok.flaggedHashtags, TikTok.promotionalKeywords.
  cbn [In]. intuition (subst; cbn [In]; tauto).
Qed.

Lemma length_pos_false {A} (l : list A) :
  (0 <? List.length l)%nat = false <-> l = [].
Proof. destruct l; cbn; split; congruence. Qed.

Lemma scraped_video_signals codes v url :
  let sd := TikTok.scrapeTikTok codes (Some v) url in
  (TikTokVideoData.paid_promotion_detected sd = false ->
   TikTokVideoData.affiliate_codes sd = []
   /\ TikTokVideoData.promotional_keywords sd = []
   /\ disclosureCount (TikTokVideoData.hashtags sd) = 0%nat)
  /\ (TikTokVideoData.paid_promotion_detected sd = true ->
      TikTokVideoData.affiliate_codes sd <> []
      \/ TikTokVideoData.promotional_keywords sd <> []).
Proof.
  intro sd. subst sd.
  cbn [TikTok.scrapeTikTok TikTokVideoData.paid_promotion_detected
       TikTokVideoData.affiliate_codes TikTokVideoData.promotional_keywords
       TikTokVideoData.hashtags].
  set (found := filter _ TikTok.promotionalKeywords).
  set (tags := map Str.toLowerCase (TikTok.tagsAfter "#" (TikTok.caption v))).
  assert (Tag : forall h, In h tags ->
                          In h TikTok.promotionalKeywords -> found <> []).
  { intros h I K. apply tag_in_caption in I as (I & _).
    exact (keyword_found _ h K I). }
  split.
  - intro F. apply orb_false_iff in F as (F & _).
    apply orb_false_iff in F as (F1 & F2).
    apply length_pos_false in F1, F2.
    split; [exact F2|]. split; [exact F1|].
    rewrite <- disclosureCount_filter.
    rewrite filter_none; [reflexivity|].
    apply Forall_forall. intros h I.
    destruct (Str.arr_includes disclosureTags (Str.toLowerCase h)) eqn:A;
      [|reflexivity].
    exfalso. apply (Tag h I); [|exact F1].
    pose proof I as I'. apply tag_in_caption in I' as (_ & L).
    rewrite L in A. apply arr_includes_In in A.
    apply disclosure_words_are_keywords. now left.
  - intro F.
    destruct (codes (TikTok.caption v)) as [|c0 cs]; [|left; discriminate].
    right.
    change (0 <? List.length (@nil string))%nat with false in F.
    rewrite orb_false_r in F.
    destruct (0 <? List.length found)%nat eqn:F1.
    + intro E. rewrite E in F1. discriminate.
    + cbn [orb] in F.
      apply existsb_exists in F as (h & I & A).
      apply arr_includes_In in A. apply (Tag h I).
      apply disclosure_words_are_keywords. now right.
Qed.

(** X24. For the record that the TikTok scraper builds from a caption, the
    sponsored probability of the engine is 0 when no paid promotion was
    detected and at least 60 when it was; the verdict is
    "likely_sponsored" exactly when the scraper detected paid promotion.
    A failed scrape counts as a video without promotion. *)
Theorem scraped_video_is_flagged_or_clean
  (affiliateCodes : string -> list string) (v : option TikTok.VideoData)
  (url : string) :
  let sd := TikTok.scrapeTikTok affiliateCodes v url in
  let probability := calculateSponsoredProbability sd in
  (TikTokVideoData.paid_promotion_detected sd = false ->
   probability = num 0)
  /\ (TikTokVideoData.paid_promotion_detected sd = true ->
      JS.ge probability (num 60) = true)
  /\ forall db p r now,
       overall_verdict (analyzeProduct db p (Some sd) r now)
       = likely_sponsored
       <-> TikTokVideoData.paid_promotion_detected sd = true.
Proof.
  intros sd probability.
  assert (A : TikTokVideoData.paid_promotion_detected sd = false ->
              probability = num 0).
  { subst probability sd. destruct v as [v|]; [|reflexivity].
    intro F. rewrite calculateSponsoredProbability_formula.
    destruct (scraped_video_signals affiliateCodes v url) as (S0 & _).
    destruct (S0 F) as (C & K & D).
    unfold sponsored_formula. rewrite F, C, K, D. reflexivity. }
  assert (B : TikTokVideoData.paid_promotion_detected sd = true ->
              JS.ge probability (num 60) = true).
  { subst probability sd. destruct v as [v|]; [|discriminate].
    intro F. rewrite calculateSponsoredProbability_formula.
    destruct (scraped_video_signals affiliateCodes v url) as (_ & S1).
    specialize (S1 F).
    unfold JS.ge, num. rewrite le_ofZ. apply Z.leb_le.
    unfold sponsored_formula. rewrite F.
    destruct S1 as [S1|S1];
      destruct (TikTokVideoData.affiliate_codes _);
      destruct (TikTokVideoData.promotional_keywords _);
      try congruence; lia. }
  split; [exact A|]. split; [exact B|].
  intros db p r now. rewrite verdict_of_analyzeProduct.
  change (promotional_detected
            (social_analysis (analyzeProduct db p (Some sd) r now)))
    with (TikTokVideoData.paid_promotion_detected sd).
  change (sponsored_content_probability
            (social_analysis (analyzeProduct db p (Some sd) r now)))
    with probability.
  destruct (TikTokVideoData.paid_promotion_detected sd) eqn:F.
  - cbn [orb]. split; reflexivity.
  - rewrite (A eq_refl). cbn [orb].
    change (JS.gt (num 0) (num 70)) with false. cbv iota.
    clear. destruct (JS.ge _ _); split; discriminate.
Qed.

(** ** The command line *)

Lemma more_reviews_recommendation_iff product social ingredient review price :
  In Insight.more_reviews_recommendation
     (recommendations_
        (generateInsights product social ingredient review price))
  <-> (review_count review <? 10) = true.
Proof.
  unfold generateInsights. cbn [recommendations_]. rewrite !In_push_if.
  cbn [In]. split.
  - intros [[[[[]|(_ & H)]|(_ & H)]|(H & _)]|(_ & H)];
      try assumption; discriminate H.
  - intro H. left. right. split; [assumption|reflexivity].
Qed.

(** X25. Whatever the command line analyses, the engine receives the
    fixed empty review summary: the result has the review analysis of a
    product without reviews, recommends looking for more reviews, never
    raises the fake-review flag, and names as data sources the platform
    and, for a TikTok address, "tiktok", never "reviews". *)
Theorem command_line_analysis_has_no_reviews db productData socialUrl
  scraped now res :
  CLI.analyzeProduct db productData socialUrl scraped now = Some res ->
  review_analysis res = noReviews
  /\ In Insight.more_reviews_recommendation (recommendations res)
  /\ ~ In Insight.fake_reviews_red (red_flags res)
  /\ tl (data_sources res)
     = match socialUrl with
       | Some socialUrl =>
           if Str.includes socialUrl "tiktok.com" then ["tiktok"%string]
           else []
       | None => []
       end.
Proof.
  unfold CLI.analyzeProduct.
  destruct productData as [p|]; [|discriminate].
  intros [= <-].
  set (s := match socialUrl with Some _ => _ | None => None end).
  split; [reflexivity|]. split; [|split].
  - rewrite recommendations_of, more_reviews_recommendation_iff. reflexivity.
  - rewrite red_flags_of, fake_reviews_red_iff. cbn. discriminate.
  - change (data_sources (analyzeProduct db p s (Some CLI.scrapeReviewData) now))
      with (getDataSources p s (Some CLI.scrapeReviewData)).
    unfold getDataSources.
    cbn [CLI.scrapeReviewData ReviewSummary.total_reviews Z.ltb Z.compare].
    subst s. destruct socialUrl as [u|]; [|reflexivity].
    destruct (String.eqb_spec u "") as [->|N]; cbn [negb]; [reflexivity|].
    destruct (Str.includes u "tiktok.com"); reflexivity.
Qed.

Lemma command_line_analysis_has_no_reviews_witness :
  review_analysis
    (analyzeProduct None Examples.scenario1
       (Some (TikTok.scrapeTikTok (fun _ => [])
                (Some Examples_disclosed_video)
                "https://www.tiktok.com/@glowgirl/video/1"))
       (Some CLI.scrapeReviewData) Examples.timestamp)
  = noReviews.
Proof.
  exact (proj1
           (command_line_analysis_has_no_reviews None
              (Some Examples.scenario1)
              (Some "https://www.tiktok.com/@glowgirl/video/1"%string)
              (TikTok.scrapeTikTok (fun _ => [])
                 (Some Examples_disclosed_video)
                 "https://www.tiktok.com/@glowgirl/video/1")
              Examples.timestamp
              (analyzeProduct None Examples.scenario1
                 (Some (TikTok.scrapeTikTok (fun _ => [])
                          (Some Examples_disclosed_video)
                          "https://www.tiktok.com/@glowgirl/video/1"))
                 (Some CLI.scrapeReviewData) Examples.timestamp)
              eq_refl)).
Defined.
